(** * amazon-ppc: reconciliation and rule-evaluation engine

    A shallow embedding of [backend/services/parser.py],
    [backend/services/optimization.py] and
    [backend/services/negative_generator.py], with the properties of the
    schema normaliser, the identity resolver, the rule engine and the
    bulk-file row builders.

    Conventions of the embedding.
    - Python values that live in spreadsheet cells are [pyval]: [None],
      a string, an integer or a float.  Finite floats are idealised as
      exact rationals ([Q]); the two infinities and NaN are kept apart.
    - Strings are byte strings; [lower] and [strip] have their ASCII
      meaning.
    - A [DataFrame] is a list of column labels and a list of rows, every
      row holding one cell per column, in column order.  A label is looked
      up by its first occurrence; what pandas does with a label that occurs
      twice is not modelled.
    - The numeric columns of a processed report hold numbers and missing
      values; on a string in such a column pandas raises, and the rule
      engine is specified for frames without one.
    - Code that can raise returns a [result]. *)

From Stdlib Require Import Ascii String ZArith QArith Qround Qminmax Lia Lqa.
From stdpp Require Import gmap strings list pretty sorting.

Local Open Scope string_scope.
Local Open Scope list_scope.

(** ** Python strings *)

Module PyStr.

Definition is_upper (c : ascii) : bool :=
  let n := nat_of_ascii c in (65 <=? n)%nat && (n <=? 90)%nat.

Definition lower_char (c : ascii) : ascii :=
  if is_upper c then ascii_of_nat (nat_of_ascii c + 32) else c.

Definition upper_char (c : ascii) : ascii :=
  let n := nat_of_ascii c in
  if (97 <=? n)%nat && (n <=? 122)%nat then ascii_of_nat (n - 32) else c.

(** [str.lower()] *)
Fixpoint lower (s : string) : string :=
  match s with
  | EmptyString => EmptyString
  | String c s' => String (lower_char c) (lower s')
  end.

(** [str.upper()] *)
Fixpoint upper (s : string) : string :=
  match s with
  | EmptyString => EmptyString
  | String c s' => String (upper_char c) (upper s')
  end.

(** The characters [str.strip()] removes: tab, newline, vertical tab, form
    feed, carriage return, the four separators 28..31 and the blank. *)
Definition is_space (c : ascii) : bool :=
  let n := nat_of_ascii c in
  ((9 <=? n)%nat && (n <=? 13)%nat) || ((28 <=? n)%nat && (n <=? 32)%nat).

Fixpoint lstrip_by (p : ascii -> bool) (s : string) : string :=
  match s with
  | EmptyString => EmptyString
  | String c s' => if p c then lstrip_by p s' else s
  end.

Fixpoint rstrip_by (p : ascii -> bool) (s : string) : string :=
  match s with
  | EmptyString => EmptyString
  | String c s' =>
      match rstrip_by p s' with
      | EmptyString => if p c then EmptyString else String c EmptyString
      | r => String c r
      end
  end.

Definition strip_by (p : ascii -> bool) (s : string) : string :=
  rstrip_by p (lstrip_by p s).

(** [str.strip()] *)
Definition strip (s : string) : string := strip_by is_space s.

(** [str.strip(ch)] for a one-character argument *)
Definition strip_char (ch : ascii) (s : string) : string :=
  strip_by (fun c => if ascii_dec c ch then true else false) s.

(** [str.startswith(p)] *)
Definition startswith (p s : string) : bool := String.prefix p s.

(** [str.endswith(p)] *)
Fixpoint endswith (p s : string) : bool :=
  String.eqb p s ||
  match s with
  | EmptyString => false
  | String _ s' => endswith p s'
  end.

(** [s[:-n]] *)
Definition drop_last (n : nat) (s : string) : string :=
  String.substring 0 (String.length s - n) s.

(** [str.replace(ch, by)] for a one-character pattern *)
Fixpoint replace_char (ch : ascii) (by_ : string) (s : string) : string :=
  match s with
  | EmptyString => EmptyString
  | String c s' =>
      if ascii_dec c ch then by_ ++ replace_char ch by_ s'
      else String c (replace_char ch by_ s')
  end.

End PyStr.

(** ** Python values, exceptions *)

Inductive pyfloat : Type :=
| Fin (q : Q)
| Inf (negative : bool)
| NaN.

Inductive pyval : Type :=
| PNone
| PStr (s : string)
| PInt (z : Z)
| PFloat (f : pyfloat).

Inductive exn : Type :=
| AttributeError | ValueError | TypeError | KeyError
| OverflowError | ValidationError.

Inductive result (A : Type) : Type :=
| Ok (a : A)
| Raise (e : exn).
Arguments Ok {A} a.
Arguments Raise {A} e.

Definition bind {A B} (r : result A) (k : A -> result B) : result B :=
  match r with
  | Ok a => k a
  | Raise e => Raise e
  end.

Notation "'try!' x ':=' r 'in' k" := (bind r (fun x => k))
  (at level 10, x pattern, r at level 100, k at level 200).

Fixpoint mapM {A B} (f : A -> result B) (l : list A) : result (list B) :=
  match l with
  | [] => Ok []
  | a :: l' => try! b := f a in try! bs := mapM f l' in Ok (b :: bs)
  end.

(** [pd.isna] *)
Definition isna (v : pyval) : bool :=
  match v with
  | PNone | PFloat NaN => true
  | _ => false
  end.

(** The finite number a cell holds, if it holds one. *)
Definition cell_num (v : pyval) : option Q :=
  match v with
  | PInt z => Some (inject_Z z)
  | PFloat (Fin q) => Some q
  | _ => None
  end.

(** Equality of cells as [drop_duplicates] sees it: numbers by value,
    missing values all alike. *)
Definition cell_eqb (a b : pyval) : bool :=
  match a, b with
  | PStr s, PStr t => String.eqb s t
  | PFloat (Inf x), PFloat (Inf y) => Bool.eqb x y
  | _, _ =>
      match cell_num a, cell_num b with
      | Some x, Some y => Qeq_bool x y
      | _, _ => isna a && isna b
      end
  end.

Fixpoint row_eqb (r1 r2 : list pyval) : bool :=
  match r1, r2 with
  | [], [] => true
  | a :: r1', b :: r2' => cell_eqb a b && row_eqb r1' r2'
  | _, _ => false
  end.

(** The builtins of Python and pandas the services call on cell values:
    [float(s)] on a string ([None] stands for its [ValueError]), [str(f)]
    on a float, and [pd.to_datetime(v, errors='coerce')]. *)
Class PyBuiltins : Type := {
  float_of_str : string -> option pyfloat;
  str_of_float : pyfloat -> string;
  to_datetime : pyval -> pyval
}.

(** ** Data frames *)

Inductive label : Type :=
| LStr (s : string)
| LInt (z : Z).

Definition label_eqb (a b : label) : bool :=
  match a, b with
  | LStr s, LStr t => String.eqb s t
  | LInt x, LInt y => Z.eqb x y
  | _, _ => false
  end.

Record DataFrame : Type := mkDF {
  columns : list label;
  rows : list (list pyval)
}.

(** [df.empty]: one of the two axes has length zero. *)
Definition df_empty (df : DataFrame) : bool :=
  match columns df, rows df with
  | [], _ | _, [] => true
  | _, _ => false
  end.

Fixpoint index_of (l : label) (cols : list label) : option nat :=
  match cols with
  | [] => None
  | c :: cols' =>
      if label_eqb c l then Some 0%nat
      else option_map S (index_of l cols')
  end.

(** [name in df.columns] *)
Definition has_col (df : DataFrame) (name : string) : bool :=
  match index_of (LStr name) (columns df) with
  | Some _ => true
  | None => false
  end.

(** [row[l]] for a row of a frame with columns [cols]; a label that is not
    there yields [None] (the callers test the label first). *)
Definition row_get (cols : list label) (row : list pyval) (l : label) : pyval :=
  match index_of l cols with
  | Some i => nth i row PNone
  | None => PNone
  end.

(** [row.get(name, default)] *)
Definition row_get_default (cols : list label) (row : list pyval)
    (name : string) (dflt : pyval) : pyval :=
  match index_of (LStr name) cols with
  | Some i => nth i row PNone
  | None => dflt
  end.

(** [df[ls]] for a list of labels *)
Definition df_select (df : DataFrame) (ls : list label) : DataFrame :=
  mkDF ls (map (fun r => map (row_get (columns df) r) ls) (rows df)).

(** [df.dropna(subset=ls)] *)
Definition dropna_subset (df : DataFrame) (ls : list label) : DataFrame :=
  mkDF (columns df)
       (filter (fun r => forallb (fun l => negb (isna (row_get (columns df) r l))) ls)
               (rows df)).

(** [df.dropna()] *)
Definition dropna (df : DataFrame) : DataFrame :=
  mkDF (columns df) (filter (forallb (fun v => negb (isna v))) (rows df)).

(** [df.drop_duplicates()]: the first of equal rows is kept. *)
Fixpoint dedup (seen : list (list pyval)) (l : list (list pyval)) : list (list pyval) :=
  match l with
  | [] => []
  | r :: l' =>
      if existsb (row_eqb r) seen then dedup seen l'
      else r :: dedup (r :: seen) l'
  end.

Definition drop_duplicates (df : DataFrame) : DataFrame :=
  mkDF (columns df) (dedup [] (rows df)).

(** [df.rename(columns={old: new})] *)
Definition rename_col (old new : string) (df : DataFrame) : DataFrame :=
  mkDF (map (fun l => if label_eqb l (LStr old) then LStr new else l) (columns df))
       (rows df).

(** ** backend/services/parser.py *)

Module Parser.

Import PyStr.

(** A dict literal with string keys, in source order. *)
Fixpoint dict_get {V : Type} (k : string) (d : list (string * V)) : option V :=
  match d with
  | [] => None
  | (k', v) :: d' => if String.eqb k' k then Some v else dict_get k d'
  end.

Definition SEARCH_TERM_REQUIRED_COLUMNS : list string :=
  [ "Campaign Name"; "Ad Group Name"; "Targeting"; "Match Type";
    "Customer Search Term"; "Impressions"; "Clicks"; "Spend" ].

Definition COLUMN_MAPPINGS : list (string * string) :=
  [ ("7 day total sales", "Sales");
    ("7 day total sales ($)", "Sales");
    ("total sales", "Sales");
    ("sales", "Sales");
    ("total advertising cost of sales (acos)", "ACOS");
    ("acos", "ACOS");
    ("advertising cost of sales", "ACOS");
    ("total return on advertising spend (roas)", "ROAS");
    ("roas", "ROAS");
    ("return on advertising spend", "ROAS");
    ("7 day total orders (#)", "Orders");
    ("7 day total orders", "Orders");
    ("orders", "Orders");
    ("7 day total units (#)", "Units");
    ("7 day total units", "Units");
    ("units", "Units");
    ("7 day conversion rate", "Conversion Rate");
    ("conversion rate", "Conversion Rate");
    ("cost per click (cpc)", "CPC");
    ("cpc", "CPC");
    ("average cpc", "CPC");
    ("click-thru rate (ctr)", "CTR");
    ("click-through rate", "CTR");
    ("ctr", "CTR");
    ("portfolio name", "Portfolio");
    ("portfolio", "Portfolio");
    ("portfolio id", "Portfolio ID");
    ("campaign name", "Campaign Name");
    ("campaign", "Campaign Name");
    ("ad group name", "Ad Group Name");
    ("campaign id", "Campaign ID");
    ("ad group id", "Ad Group ID");
    ("keyword text", "Keyword Text");
    ("match type", "Match Type");
    ("record type", "Record Type");
    ("entity", "Record Type");
    ("product targeting expression", "Product Targeting Expression") ].

(** [col.lower().strip()] on a column label; a label that is not a string
    has no [lower]. *)
Definition label_key (col : label) : result string :=
  match col with
  | LStr s => Ok (strip (lower s))
  | LInt _ => Raise AttributeError
  end.

Definition normalize_columns (df : DataFrame) : result DataFrame :=
  try! new_columns :=
    mapM (fun col =>
            try! normalized := label_key col in
            Ok (match dict_get normalized COLUMN_MAPPINGS with
                | Some canonical => LStr canonical
                | None => col
                end))
         (columns df) in
  Ok (mkDF new_columns (rows df)).

Definition is_asin (value : pyval) : bool :=
  match value with
  | PStr s =>
      let value := lower (strip s) in
      startswith "b0" value && (String.length value =? 10)%nat
  | _ => false
  end.

(** *** Cleaning of cell values *)

(** [int(x)] on a finite float: truncation toward zero. *)
Definition Qtrunc (q : Q) : Z := Z.quot (Qnum q) (Zpos (Qden q)).

(** [float(value)] for a value that is an [int] or a [float]. *)
Definition float_of_num (v : pyval) : pyval :=
  match v with
  | PInt z => PFloat (Fin (inject_Z z))
  | _ => v
  end.

(** [int(f)] for a float: NaN is a [ValueError], an infinity an
    [OverflowError]. *)
Definition int_of_float (f : pyfloat) : result Z :=
  match f with
  | Fin q => Ok (Qtrunc q)
  | Inf _ => Raise OverflowError
  | NaN => Raise ValueError
  end.

Definition clean_percentage `{PyBuiltins} (value : pyval) : pyval :=
  if isna value then PNone
  else match value with
       | PInt _ | PFloat _ => float_of_num value
       | PStr s =>
           let value := strip (replace_char "," "" (replace_char "%" "" s)) in
           match float_of_str value with
           | Some f => PFloat f
           | None => PNone
           end
       | PNone => PNone
       end.

Definition clean_currency `{PyBuiltins} (value : pyval) : pyval :=
  if isna value then PFloat (Fin 0)
  else match value with
       | PInt _ | PFloat _ => float_of_num value
       | PStr s =>
           let value := strip (replace_char "," "" (replace_char "$" "" s)) in
           match float_of_str value with
           | Some f => PFloat f
           | None => PFloat (Fin 0)
           end
       | PNone => PFloat (Fin 0)
       end.

(** Only a [ValueError] is caught around [int(float(value))]. *)
Definition clean_integer `{PyBuiltins} (value : pyval) : result pyval :=
  if isna value then Ok (PInt 0)
  else match value with
       | PInt z => Ok (PInt z)
       | PFloat f => try! z := int_of_float f in Ok (PInt z)
       | PStr s =>
           let value := strip (replace_char "," "" s) in
           match float_of_str value with
           | None => Ok (PInt 0)
           | Some f =>
               match int_of_float f with
               | Ok z => Ok (PInt z)
               | Raise ValueError => Ok (PInt 0)
               | Raise e => Raise e
               end
           end
       | PNone => Ok (PInt 0)
       end.

(** [df[name] = df[name].apply(f)] *)
Definition update_nth {A} (i : nat) (f : A -> result A) (l : list A) : result (list A) :=
  match l !! i with
  | Some a => try! b := f a in Ok (<[i := b]> l)
  | None => Ok l
  end.

Definition apply_col (name : string) (f : pyval -> result pyval)
    (df : DataFrame) : result DataFrame :=
  match index_of (LStr name) (columns df) with
  | Some i =>
      try! rows' := mapM (update_nth i f) (rows df) in
      Ok (mkDF (columns df) rows')
  | None => Ok df
  end.

Definition pure_col (f : pyval -> pyval) : pyval -> result pyval :=
  fun v => Ok (f v).

(** [df[name].fillna(0)] *)
Definition fillna0 (v : pyval) : pyval := if isna v then PInt 0 else v.

(** The first label whose lower-cased, trimmed form is [target]. *)
Fixpoint find_label (target : string) (cols : list label) : result (option label) :=
  match cols with
  | [] => Ok None
  | c :: cols' =>
      try! k := label_key c in
      if String.eqb k target then Ok (Some c) else find_label target cols'
  end.

Definition rename_label (old : label) (new : string) (df : DataFrame) : DataFrame :=
  mkDF (map (fun l => if label_eqb l old then LStr new else l) (columns df))
       (rows df).

(** A label is truthy unless it is the empty string or zero. *)
Definition label_truthy (l : label) : bool :=
  match l with
  | LStr s => negb (String.eqb s "")
  | LInt z => negb (z =? 0)%Z
  end.

(** The "Ad Group" alias of a search-term report: the column found under
    that name becomes "Ad Group Name" unless there is one already. *)
Definition rename_ad_group (df : DataFrame) (ad_group_col : option label) : DataFrame :=
  match ad_group_col with
  | Some c =>
      if label_truthy c && negb (has_col df "Ad Group Name")
      then rename_label c "Ad Group Name" df else df
  | None => df
  end.

Definition process_search_term_report `{PyBuiltins} (df : DataFrame) : result DataFrame :=
  try! df := normalize_columns df in
  try! ad_group_col := find_label "ad group" (columns df) in
  let df := rename_ad_group df ad_group_col in
  try! df := apply_col "Impressions" clean_integer df in
  try! df := apply_col "Clicks" clean_integer df in
  try! df := apply_col "Spend" (pure_col clean_currency) df in
  try! df := apply_col "Sales" (pure_col clean_currency) df in
  try! df := apply_col "Orders" clean_integer df in
  try! df := apply_col "Units" clean_integer df in
  try! df := apply_col "ACOS" (pure_col clean_percentage) df in
  try! df := apply_col "ROAS" (pure_col clean_percentage) df in
  try! df := apply_col "CTR" (pure_col clean_percentage) df in
  try! df := apply_col "CPC" (pure_col clean_currency) df in
  try! df := apply_col "Conversion Rate" (pure_col clean_percentage) df in
  try! df := apply_col "Date" (pure_col to_datetime) df in
  fold_left
    (fun acc col => try! df := acc in apply_col col (pure_col fillna0) df)
    ["Impressions"; "Clicks"; "Spend"; "Sales"; "Orders"; "Units"]
    (Ok df).

(** *** Identity resolver *)

(** [str(val)] *)
Definition py_str `{PyBuiltins} (v : pyval) : string :=
  match v with
  | PNone => "None"
  | PStr s => s
  | PInt z => pretty z
  | PFloat f => str_of_float f
  end.

(** The helper [clean_id] of [enrich_with_ids]. *)
Definition clean_id `{PyBuiltins} (val : pyval) : option string :=
  if isna val then None
  else
    let s := strip (py_str val) in
    if endswith ".0" s then Some (drop_last 2 s) else Some s.

(** The three lookup tables; a key is a lower-cased, trimmed name. *)
Record Lookups : Type := mkLookups {
  cid_map : gmap string (option string);
  pid_map : gmap string (option string);
  agid_map : gmap (string * string) (option string)
}.

(** [str(row[col]).lower().strip()] *)
Definition name_key `{PyBuiltins} (v : pyval) : string := strip (lower (py_str v)).

(** The helper [add_to_campaign_maps] of [enrich_with_ids], one row. *)
Definition add_campaign_row `{PyBuiltins} (cols : list label)
    (name_col id_col : label) (port_col : option label)
    (maps : gmap string (option string) * gmap string (option string))
    (row : list pyval) : gmap string (option string) * gmap string (option string) :=
  let c_name := name_key (row_get cols row name_col) in
  let cid := <[c_name := clean_id (row_get cols row id_col)]> (fst maps) in
  let pid :=
    match port_col with
    | Some pc =>
        if bool_decide (is_Some (index_of pc cols)) && negb (isna (row_get cols row pc))
        then <[c_name := clean_id (row_get cols row pc)]> (snd maps)
        else snd maps
    | None => snd maps
    end in
  (cid, pid).

Definition add_to_campaign_maps `{PyBuiltins} (df_subset : DataFrame)
    (name_col id_col : label) (port_col : option label)
    (maps : gmap string (option string) * gmap string (option string)) :=
  fold_left (add_campaign_row (columns df_subset) name_col id_col port_col)
            (rows df_subset) maps.

(** The rows [add_to_campaign_maps] is given for the name column [name_col]. *)
Definition campaign_data (bdf : DataFrame) (name_col : label) : DataFrame :=
  let cols := [name_col; LStr "Campaign ID"] ++
              (if has_col bdf "Portfolio ID" then [LStr "Portfolio ID"] else []) in
  drop_duplicates (dropna_subset (df_select bdf cols) [name_col; LStr "Campaign ID"]).

Definition port_col_of (bdf : DataFrame) : option label :=
  if has_col bdf "Portfolio ID" then Some (LStr "Portfolio ID") else None.

(** Step 1 of [enrich_with_ids], primary pass: the column "Campaign Name". *)
Definition campaign_maps_primary `{PyBuiltins} (bdf : DataFrame) :=
  if has_col bdf "Campaign Name" && has_col bdf "Campaign ID"
  then add_to_campaign_maps (campaign_data bdf (LStr "Campaign Name"))
         (LStr "Campaign Name") (LStr "Campaign ID") (port_col_of bdf) (∅, ∅)
  else (∅, ∅).

(** Step 1, secondary pass: "Campaign Name (Informational only)". *)
Definition campaign_maps_secondary `{PyBuiltins} (bdf : DataFrame)
    (c_info_col : option label)
    (maps : gmap string (option string) * gmap string (option string)) :=
  match c_info_col with
  | Some c =>
      if label_truthy c && has_col bdf "Campaign ID"
      then add_to_campaign_maps (campaign_data bdf c) c (LStr "Campaign ID")
             (port_col_of bdf) maps
      else maps
  | None => maps
  end.

Definition campaign_maps `{PyBuiltins} (bdf : DataFrame) :=
  try! c_info_col := find_label "campaign name (informational only)" (columns bdf) in
  Ok (campaign_maps_secondary bdf c_info_col (campaign_maps_primary bdf)).

(** Step 2: which column holds the ad-group identifier. *)
Definition ag_id_col_of (bdf : DataFrame) : string :=
  if negb (has_col bdf "Ad Group ID") && has_col bdf "Ad Group"
  then (if has_col bdf "Ad Group Name" then "Ad Group" else "Ad Group ID")
  else "Ad Group ID".

Definition add_ag_row `{PyBuiltins} (cols : list label)
    (c_col a_col id_col : label)
    (m : gmap (string * string) (option string)) (row : list pyval) :=
  let cn := name_key (row_get cols row c_col) in
  let an := name_key (row_get cols row a_col) in
  <[(cn, an) := clean_id (row_get cols row id_col)]> m.

Definition ag_data (bdf : DataFrame) (c_col a_col id_col : label) : DataFrame :=
  drop_duplicates (dropna (df_select bdf [c_col; a_col; id_col])).

Definition add_to_ag_map `{PyBuiltins} (bdf : DataFrame)
    (c_col a_col id_col : label) (m : gmap (string * string) (option string)) :=
  let d := ag_data bdf c_col a_col id_col in
  fold_left (add_ag_row (columns d) c_col a_col id_col) (rows d) m.

Definition agid_map_primary `{PyBuiltins} (bdf : DataFrame) :=
  if has_col bdf "Campaign Name" && has_col bdf "Ad Group Name"
  then add_to_ag_map bdf (LStr "Campaign Name") (LStr "Ad Group Name")
         (LStr (ag_id_col_of bdf)) ∅
  else ∅.

Definition agid_map_secondary `{PyBuiltins} (bdf : DataFrame)
    (c_info_col a_info_col : option label)
    (m : gmap (string * string) (option string)) :=
  match c_info_col, a_info_col with
  | Some c, Some a =>
      if label_truthy c && label_truthy a
      then add_to_ag_map bdf c a (LStr (ag_id_col_of bdf)) m
      else m
  | _, _ => m
  end.

Definition build_agid_map `{PyBuiltins} (bdf : DataFrame) :=
  if has_col bdf (ag_id_col_of bdf) then
    try! c_info_col := find_label "campaign name (informational only)" (columns bdf) in
    try! a_info_col := find_label "ad group name (informational only)" (columns bdf) in
    Ok (agid_map_secondary bdf c_info_col a_info_col (agid_map_primary bdf))
  else Ok ∅.

(** The copy of the bulk frame [enrich_with_ids] works on. *)
Definition prepare_bulk (bulk_df : DataFrame) : result DataFrame :=
  let bdf :=
    if has_col bulk_df "Entity" && negb (has_col bulk_df "Record Type")
    then rename_col "Entity" "Record Type" bulk_df else bulk_df in
  normalize_columns bdf.

(** Everything [enrich_with_ids] does with the bulk frame before it touches
    an item. *)
Definition build_lookups `{PyBuiltins} (bulk_df : DataFrame) : result Lookups :=
  try! bdf := prepare_bulk bulk_df in
  try! cp := campaign_maps bdf in
  try! ag := build_agid_map bdf in
  Ok (mkLookups (fst cp) (snd cp) ag).

(** A recommendation record as [enrich_with_ids] sees it: a dict, or an
    object whose class declares the attributes [declared]; [attrs] holds
    the string-valued entries that are set. *)
Record Item : Type := mkItem {
  is_dict : bool;
  declared : list string;
  attrs : gmap string string
}.

(** [str(item.get(name, ''))] and [str(getattr(item, name, ''))] *)
Definition item_str (it : Item) (name : string) : string :=
  default "" (attrs it !! name).

(** [item[name] = v] on a dict; [setattr(item, name, v)] on a model object,
    which refuses an attribute its class does not declare. *)
Definition item_set (it : Item) (name v : string) : result Item :=
  if is_dict it || bool_decide (name ∈ declared it)
  then Ok (mkItem (is_dict it) (declared it) (<[name := v]> (attrs it)))
  else Raise ValueError.

(** [if x: set(name, x)] *)
Definition set_if_truthy (it : Item) (name : string) (x : option string) : result Item :=
  match x with
  | Some v => if String.eqb v "" then Ok it else item_set it name v
  | None => Ok it
  end.

(** One turn of the injection loop: the item as the turn leaves it, and
    whether the turn counted it or raised. *)
Definition inject_item (lk : Lookups) (it : Item) : Item * result bool :=
  let c_name := strip (lower (item_str it "campaign_name")) in
  let a_name := strip (lower (item_str it "ad_group_name")) in
  let cid := default None (cid_map lk !! c_name) in
  let pid := default None (pid_map lk !! c_name) in
  let agid := default None (agid_map lk !! (c_name, a_name)) in
  let hit := bool_decide (is_Some (agid_map lk !! (c_name, a_name))) in
  match set_if_truthy it "campaign_id" cid with
  | Raise e => (it, Raise e)
  | Ok it1 =>
      match set_if_truthy it1 "portfolio_id" pid with
      | Raise e => (it1, Raise e)
      | Ok it2 =>
          match set_if_truthy it2 "ad_group_id" agid with
          | Raise e => (it2, Raise e)
          | Ok it3 => (it3, Ok hit)
          end
      end
  end.

Fixpoint inject_items (lk : Lookups) (items : list Item) (count : nat)
    : list Item * result nat :=
  match items with
  | [] => ([], Ok count)
  | it :: rest =>
      match inject_item lk it with
      | (it', Raise e) => (it' :: rest, Raise e)
      | (it', Ok hit) =>
          let (rest', r) := inject_items lk rest (if hit then S count else count) in
          (it' :: rest', r)
      end
  end.

(** [enrich_with_ids(items, bulk_df)]: the returned count and the items as
    the call leaves them.  The [try] block spans the lookup construction and
    the injection loop; its handler returns 0. *)
Definition enrich_with_ids `{PyBuiltins} (items : list Item) (bulk_df : DataFrame)
    : nat * list Item :=
  if df_empty bulk_df || bool_decide (items = []) then (0%nat, items)
  else
    match build_lookups bulk_df with
    | Raise _ => (0%nat, items)
    | Ok lk =>
        match inject_items lk items 0 with
        | (items', Ok count) => (count, items')
        | (items', Raise _) => (0%nat, items')
        end
    end.

(** *** File type and header validation *)

(** [s.split(ch)] for a one-character separator *)
Fixpoint split_char (ch : ascii) (s : string) : list string :=
  match s with
  | EmptyString => [EmptyString]
  | String c s' =>
      if Ascii.eqb c ch then EmptyString :: split_char ch s'
      else match split_char ch s' with
           | [] => [String c EmptyString]
           | w :: ws => String c w :: ws
           end
  end.

Definition detect_file_type (filename : string) : result string :=
  let ext := default "" (last (split_char "." (lower filename))) in
  if String.eqb ext "csv" then Ok "csv"
  else if String.eqb ext "xlsx" || String.eqb ext "xls" then Ok "xlsx"
  else Raise ValueError.

Definition normalize_column_name (col : string) : string :=
  let normalized := strip (lower col) in
  default col (dict_get normalized COLUMN_MAPPINGS).

(** One turn of the loop of [validate_search_term_report]: whether
    [required] is appended to [missing]. *)
Definition is_missing (df_columns_lower : list string) (required : string) : bool :=
  let present (name : string) := existsb (String.eqb name) df_columns_lower in
  let req_lower := strip (lower required) in
  if String.eqb req_lower "ad group name" && present "ad group" then false
  else negb (present req_lower).

(** The pair [(is_valid, missing)]. *)
Definition validate_search_term_report (df : DataFrame) : result (bool * list string) :=
  try! df_columns_lower := mapM label_key (columns df) in
  let missing := filter (is_missing df_columns_lower) SEARCH_TERM_REQUIRED_COLUMNS in
  Ok ((length missing =? 0)%nat, missing).

(** *** Filter options *)

(** [series.unique()]: each value once, in the order of first appearance. *)
Fixpoint unique_from (seen l : list pyval) : list pyval :=
  match l with
  | [] => []
  | v :: l' =>
      if existsb (cell_eqb v) seen then unique_from seen l'
      else v :: unique_from (v :: seen) l'
  end.

(** [df[name].dropna().unique().tolist()] *)
Definition dropna_unique (df : DataFrame) (name : string) : list pyval :=
  unique_from []
    (filter (fun v => negb (isna v))
            (map (fun r => row_get (columns df) r (LStr name)) (rows df))).

Definition get_unique_campaigns (df : DataFrame) : list pyval :=
  if negb (has_col df "Campaign Name") then [] else dropna_unique df "Campaign Name".

Definition get_unique_ad_groups (df : DataFrame) : list pyval :=
  if negb (has_col df "Ad Group Name") then [] else dropna_unique df "Ad Group Name".

Definition get_unique_portfolios (df : DataFrame) : list pyval :=
  if negb (has_col df "Portfolio") then [] else dropna_unique df "Portfolio".

(** *** Bulk operations file *)

(** The [column_map] of [process_bulk_file]. *)
Definition column_map : list (string * string) :=
  [ ("campaign", "Campaign");
    ("campaign name", "Campaign");
    ("record type", "Record Type");
    ("daily budget", "Daily Budget");
    ("campaign daily budget", "Daily Budget") ].

(** [df.rename(columns=lambda x: column_map.get(x.lower().strip(), x))] *)
Definition rename_bulk_columns (df : DataFrame) : result DataFrame :=
  try! new_columns :=
    mapM (fun x =>
            try! k := label_key x in
            Ok (match dict_get k column_map with
                | Some c => LStr c
                | None => x
                end))
         (columns df) in
  Ok (mkDF new_columns (rows df)).

(** Element-wise [series == s] *)
Definition cell_is (s : string) (v : pyval) : bool :=
  match v with
  | PStr t => String.eqb t s
  | _ => false
  end.

(** [df[name] = df[source]] for a label [name] the frame does not have:
    a new last column. *)
Definition copy_column (source name : string) (df : DataFrame) : DataFrame :=
  mkDF (columns df ++ [LStr name])
       (map (fun r => r ++ [row_get (columns df) r (LStr source)]) (rows df)).

(** [df[mask]] *)
Definition filter_rows (mask : list pyval -> bool) (df : DataFrame) : DataFrame :=
  mkDF (columns df) (filter mask (rows df)).

(** [df[cols]] for a list of names: each of them must be a column. *)
Definition select_columns (df : DataFrame) (cols : list string) : result DataFrame :=
  if forallb (has_col df) cols then Ok (df_select df (map LStr cols))
  else Raise KeyError.

Definition process_bulk_file `{PyBuiltins} (df : DataFrame) : result DataFrame :=
  try! df := normalize_columns df in
  try! df := rename_bulk_columns df in
  let df :=
    if negb (has_col df "Record Type") || negb (has_col df "Daily Budget")
    then (if has_col df "Entity" then rename_col "Entity" "Record Type" df else df)
    else df in
  let df :=
    if negb (has_col df "Campaign") && has_col df "Campaign Name"
    then copy_column "Campaign Name" "Campaign" df else df in
  try! campaigns :=
    if has_col df "Record Type"
    then Ok (filter_rows
               (fun r => cell_is "Campaign" (row_get (columns df) r (LStr "Record Type")))
               df)
    else if has_col df "Daily Budget"
    then Ok (filter_rows
               (fun r => negb (isna (row_get (columns df) r (LStr "Daily Budget"))))
               df)
    else Raise KeyError in
  if df_empty campaigns
  then Ok (mkDF [LStr "Campaign Name"; LStr "Daily Budget"] [])
  else
    let cols :=
      ["Campaign"; "Daily Budget"] ++
      (if has_col df "Campaign ID" then ["Campaign ID"] else []) in
    try! result := select_columns campaigns cols in
    let result := rename_col "Campaign" "Campaign Name" result in
    apply_col "Daily Budget" (pure_col clean_currency) result.

End Parser.

(** ** Float arithmetic

    Exact on finite values; the infinities and NaN follow IEEE 754.
    Rounding, overflow and the sign of zero are not modelled. *)

Module PyFloat.

Definition is_nan (f : pyfloat) : bool :=
  match f with NaN => true | _ => false end.

Definition Qneg (q : Q) : bool := Qle_bool q 0 && negb (Qeq_bool q 0).

Definition fopp (a : pyfloat) : pyfloat :=
  match a with
  | Fin x => Fin (- x)
  | Inf s => Inf (negb s)
  | NaN => NaN
  end.

Definition fadd (a b : pyfloat) : pyfloat :=
  match a, b with
  | Fin x, Fin y => Fin (x + y)
  | NaN, _ | _, NaN => NaN
  | Inf s, Inf t => if Bool.eqb s t then Inf s else NaN
  | Inf s, Fin _ | Fin _, Inf s => Inf s
  end.

Definition fsub (a b : pyfloat) : pyfloat := fadd a (fopp b).

Definition fmul (a b : pyfloat) : pyfloat :=
  match a, b with
  | Fin x, Fin y => Fin (x * y)
  | NaN, _ | _, NaN => NaN
  | Inf s, Inf t => Inf (xorb s t)
  | Inf s, Fin y | Fin y, Inf s =>
      if Qeq_bool y 0 then NaN else Inf (xorb s (Qneg y))
  end.

(** Division of numpy floats: a zero divisor gives an infinity or NaN. *)
Definition fdiv (a b : pyfloat) : pyfloat :=
  match a, b with
  | NaN, _ | _, NaN => NaN
  | Fin x, Fin y =>
      if Qeq_bool y 0
      then (if Qeq_bool x 0 then NaN else Inf (Qneg x))
      else Fin (x / y)
  | Inf _, Inf _ => NaN
  | Inf s, Fin y => Inf (xorb s (Qneg y))
  | Fin _, Inf _ => Fin 0
  end.

(** [a < b]; false when either side is NaN. *)
Definition flt (a b : pyfloat) : bool :=
  match a, b with
  | Fin x, Fin y => Qle_bool x y && negb (Qeq_bool x y)
  | NaN, _ | _, NaN => false
  | Inf s, Inf t => s && negb t
  | Inf s, Fin _ => s
  | Fin _, Inf t => negb t
  end.

(** [a <= b] *)
Definition fle (a b : pyfloat) : bool :=
  match a, b with
  | Fin x, Fin y => Qle_bool x y
  | NaN, _ | _, NaN => false
  | Inf s, Inf t => s || negb t
  | Inf s, Fin _ => s
  | Fin _, Inf t => negb t
  end.

Definition fgt (a b : pyfloat) : bool := flt b a.
Definition fge (a b : pyfloat) : bool := fle b a.

(** [a == b] *)
Definition feq (a b : pyfloat) : bool :=
  match a, b with
  | Fin x, Fin y => Qeq_bool x y
  | Inf s, Inf t => Bool.eqb s t
  | _, _ => false
  end.

(** [max(a, b)] and [min(a, b)] of Python: the first argument stays unless
    the second is strictly better. *)
Definition py_max (a b : pyfloat) : pyfloat := if fgt b a then b else a.
Definition py_min (a b : pyfloat) : pyfloat := if flt b a then b else a.

Definition of_Z (z : Z) : pyfloat := Fin (inject_Z z).

End PyFloat.

(** The number in a cell of a numeric column; a missing value is NaN.  (On
    a string pandas raises; the numeric columns of a processed report hold
    none.) *)
Definition as_float (v : pyval) : pyfloat :=
  match v with
  | PInt z => Fin (inject_Z z)
  | PFloat f => f
  | _ => NaN
  end.

(** [df[name]], one cell per row *)
Definition column (df : DataFrame) (name : string) : list pyval :=
  map (fun r => row_get (columns df) r (LStr name)) (rows df).

(** [series.sum()]: missing values are skipped. *)
Definition series_sum (l : list pyval) : pyfloat :=
  fold_left (fun acc v => if isna v then acc else PyFloat.fadd acc (as_float v))
            l (Fin 0).

(** [sorted(l, key=...)] and [sorted(l, key=..., reverse=True)] are stable;
    [before a b] tells that [a] may stay in front of [b]. *)
Fixpoint insert_by {A} (before : A -> A -> bool) (x : A) (l : list A) : list A :=
  match l with
  | [] => [x]
  | y :: l' => if before x y then x :: y :: l' else y :: insert_by before x l'
  end.

Fixpoint sort_by {A} (before : A -> A -> bool) (l : list A) : list A :=
  match l with
  | [] => []
  | x :: l' => insert_by before x (sort_by before l')
  end.

Definition sorted_asc {A} (key : A -> pyfloat) : list A -> list A :=
  sort_by (fun a b => PyFloat.fle (key a) (key b)).

Definition sorted_desc {A} (key : A -> pyfloat) : list A -> list A :=
  sort_by (fun a b => PyFloat.fle (key b) (key a)).

(** [df.iterrows()] with the default index: position and row. *)
Definition iterrows (df : DataFrame) : list (nat * list pyval) :=
  imap (fun i r => (i, r)) (rows df).

(** ** backend/models/schemas.py: field validation *)

Module Schemas.

(** A field declared [str]. *)
Definition str_field (v : pyval) : result string :=
  match v with
  | PStr s => Ok s
  | _ => Raise ValidationError
  end.

(** A field declared [float]; a missing cell of a float column is NaN. *)
Definition float_field (v : pyval) : result pyfloat :=
  match v with
  | PStr _ => Raise ValidationError
  | _ => Ok (as_float v)
  end.

Record BleedingSpendItem : Type := mkBleedingSpendItem {
  bs_id : nat;
  bs_search_term : string;
  bs_campaign_name : string;
  bs_ad_group_name : string;
  bs_campaign_id : option string;
  bs_ad_group_id : option string;
  bs_match_type : string;
  bs_spend : pyfloat;
  bs_clicks : Z;
  bs_severity_score : pyfloat;
  bs_action_type : string
}.

Record HighACOSItem : Type := mkHighACOSItem {
  ha_id : nat;
  ha_search_term : string;
  ha_targeting : string;
  ha_match_type : string;
  ha_campaign_name : string;
  ha_campaign_id : option string;
  ha_ad_group_id : option string;
  ha_acos : pyfloat;
  ha_spend : pyfloat;
  ha_sales : pyfloat;
  ha_root_cause : string;
  ha_value : pyfloat;
  ha_avg_value : pyfloat;
  ha_action_type : string
}.

Record BudgetSaturationItem : Type := mkBudgetSaturationItem {
  bu_campaign_name : string;
  bu_daily_budget : pyfloat;
  bu_spend : pyfloat;
  bu_utilization : pyfloat;
  bu_acos : pyfloat;
  bu_suggested_budget : pyfloat;
  bu_action_type : string
}.

Record HealthScore : Type := mkHealthScore {
  score : Z;
  spend_efficiency_score : Z;
  acos_stability_score : Z;
  exact_match_score : Z;
  details : list (string * pyfloat)
}.

Record ScaleOpportunityItem : Type := mkScaleOpportunityItem {
  so_id : nat;
  so_search_term : string;
  so_targeting : string;
  so_match_type : string;
  so_campaign_name : string;
  so_campaign_id : option string;
  so_ad_group_id : option string;
  so_acos : pyfloat;
  so_orders : Z;
  so_conversion_rate : pyfloat;
  so_current_bid : option pyfloat;
  so_suggested_bid : option pyfloat;
  so_action_type : string
}.

End Schemas.

(** ** backend/services/optimization.py *)

Module Optimization.

Import PyStr PyFloat Schemas.

(** [all(col in df.columns for col in required)] *)
Definition has_all (df : DataFrame) (required : list string) : bool :=
  forallb (has_col df) required.

(** Element-wise [series != s], [series == s] and
    [series.str.lower().str.startswith(p, na=False)]. *)
Definition ne_str (v : pyval) (s : string) : bool :=
  match v with
  | PStr t => negb (String.eqb t s)
  | _ => true
  end.

Definition eq_str (v : pyval) (s : string) : bool :=
  match v with
  | PStr t => String.eqb t s
  | _ => false
  end.

Definition lower_startswith (p : string) (v : pyval) : bool :=
  match v with
  | PStr s => startswith p (lower s)
  | _ => false
  end.

(** [int(x)] on a cell.  (A string reaches [int] in no row the masks
    select: they compare the cell with a number first.) *)
Definition py_int (v : pyval) : result Z :=
  match v with
  | PInt z => Ok z
  | PFloat f => Parser.int_of_float f
  | PNone => Raise TypeError
  | PStr _ => Raise ValueError
  end.

Section Row.

Variable df : DataFrame.
Variable row : list pyval.

(** [row[name]] *)
Definition cell (name : string) : pyval := row_get (columns df) row (LStr name).

(** [row.get(name, default)] *)
Definition cell_or (name : string) (dflt : pyval) : pyval :=
  row_get_default (columns df) row name dflt.

(** The mask of [analyze_bleeding_spend]. *)
Definition bleeding_mask (min_spend : Q) (min_clicks : Z) : bool :=
  fge (as_float (cell "Spend")) (Fin min_spend)
  && feq (as_float (cell "Sales")) (Fin 0)
  && fge (as_float (cell "Clicks")) (of_Z min_clicks)
  && ne_str (cell "Match Type") "Exact"
  && (if has_col df "Targeting"
      then negb (lower_startswith "b0" (cell "Targeting"))
      else true).

Definition bleeding_item (idx : nat) : result BleedingSpendItem :=
  let severity := fmul (as_float (cell "Spend")) (as_float (cell "Clicks")) in
  try! clicks := py_int (cell "Clicks") in
  try! search_term := str_field (cell_or "Customer Search Term" (PStr "Unknown")) in
  try! campaign_name := str_field (cell_or "Campaign Name" (PStr "Unknown")) in
  try! ad_group_name := str_field (cell_or "Ad Group Name" (PStr "Unknown")) in
  try! match_type := str_field (cell_or "Match Type" (PStr "Unknown")) in
  try! spend := float_field (cell "Spend") in
  Ok (mkBleedingSpendItem idx search_term campaign_name ad_group_name None None
        match_type spend clicks severity "Negative").

(** The mask of [analyze_high_acos]. *)
Definition high_acos_mask (target_acos : Q) : bool :=
  fgt (as_float (cell "ACOS")) (Fin target_acos)
  && fgt (as_float (cell "Spend")) (Fin 0).

End Row.

Definition analyze_bleeding_spend (df : DataFrame) (min_spend : Q) (min_clicks : Z)
    : result (list BleedingSpendItem) :=
  if df_empty df then Ok []
  else if negb (has_all df ["Spend"; "Sales"; "Clicks"; "Match Type"]) then Ok []
  else
    let bleeding :=
      filter (fun ir => bleeding_mask df (snd ir) min_spend min_clicks) (iterrows df) in
    try! results := mapM (fun ir => bleeding_item df (snd ir) (fst ir)) bleeding in
    Ok (sorted_desc bs_severity_score results).

(** [df[name].sum() if name in df.columns else 0] *)
Definition total (df : DataFrame) (name : string) : pyfloat :=
  if has_col df name then series_sum (column df name) else Fin 0.

(** [num / den if den > 0 else 0] *)
Definition ratio_or_zero (num den : pyfloat) : pyfloat :=
  if fgt den (Fin 0) then fdiv num den else Fin 0.

Definition avg_ctr (df : DataFrame) : pyfloat :=
  ratio_or_zero (total df "Clicks") (total df "Impressions").
Definition avg_cpc (df : DataFrame) : pyfloat :=
  ratio_or_zero (total df "Spend") (total df "Clicks").
Definition avg_cvr (df : DataFrame) : pyfloat :=
  ratio_or_zero (total df "Orders") (total df "Clicks").

Record Diagnosis : Type := mkDiagnosis {
  root_cause : string;
  value : pyfloat;
  benchmark : pyfloat;
  action : string
}.

(** The root-cause cascade in the loop of [analyze_high_acos]. *)
Definition diagnose (avgctr avgcpc avgcvr ctr cpc cvr : pyfloat) : Diagnosis :=
  if flt cvr (fmul avgcvr (Fin (7 # 10))) then
    mkDiagnosis "Low CVR" cvr avgcvr "Review Listing/Target"
  else if fgt cpc (fmul avgcpc (Fin (13 # 10))) then
    mkDiagnosis "High CPC" cpc avgcpc "Bid Down"
  else if flt ctr (fmul avgctr (Fin (7 # 10))) then
    mkDiagnosis "Low CTR" ctr avgctr "Negative"
  else
    mkDiagnosis "General Efficiency" (Fin 0) (Fin 0) "Optimization".

Definition high_acos_item (df : DataFrame) (row : list pyval) (idx : nat)
    : result HighACOSItem :=
  let ctr := as_float (cell_or df row "CTR" (PInt 0)) in
  let cpc := as_float (cell_or df row "CPC" (PInt 0)) in
  let cvr := as_float (cell_or df row "Conversion Rate" (PInt 0)) in
  let d := diagnose (avg_ctr df) (avg_cpc df) (avg_cvr df) ctr cpc cvr in
  try! search_term := str_field (cell_or df row "Customer Search Term" (PStr "Unknown")) in
  try! targeting := str_field (cell_or df row "Targeting" PNone) in
  try! match_type := str_field (cell_or df row "Match Type" PNone) in
  try! campaign_name := str_field (cell_or df row "Campaign Name" (PStr "Unknown")) in
  try! acos := float_field (cell_or df row "ACOS" (PInt 0)) in
  try! spend := float_field (cell_or df row "Spend" (PInt 0)) in
  try! sales := float_field (cell_or df row "Sales" (PInt 0)) in
  Ok (mkHighACOSItem idx search_term targeting match_type campaign_name None None
        acos spend sales (root_cause d) (value d) (benchmark d) (action d)).

Definition analyze_high_acos (df : DataFrame) (target_acos : Q)
    : result (list HighACOSItem) :=
  if df_empty df then Ok []
  else if negb (has_col df "ACOS") || negb (has_col df "Spend") then Ok []
  else
    let high_acos_df :=
      filter (fun ir => high_acos_mask df (snd ir) target_acos) (iterrows df) in
    try! results := mapM (fun ir => high_acos_item df (snd ir) (fst ir)) high_acos_df in
    Ok (sorted_desc ha_spend results).

(** *** Budget saturation *)

(** The keys of [groupby('Campaign Name')]: the names, each once, in
    ascending order; missing names are left out.  Names are strings; a
    number among them cannot be ordered or merged against the others. *)
Fixpoint group_keys (names : list pyval) : result (list string) :=
  match names with
  | [] => Ok []
  | v :: names' =>
      try! ks := group_keys names' in
      match v with
      | PStr s =>
          Ok (if existsb (String.eqb s) ks then ks else insert_by String.leb s ks)
      | _ => if isna v then Ok ks else Raise TypeError
      end
  end.

Record CampaignMetrics : Type := mkCampaignMetrics {
  cm_name : string;
  cm_spend : pyfloat;
  cm_sales : pyfloat;
  cm_acos : pyfloat
}.

(** One group of [groupby('Campaign Name').agg(sum)] with its ACOS. *)
Definition campaign_metrics_of (str_df : DataFrame) (name : string) : CampaignMetrics :=
  let grp := filter (fun r => eq_str (cell str_df r "Campaign Name") name) (rows str_df) in
  let spend := series_sum (map (fun r => cell str_df r "Spend") grp) in
  let sales := series_sum (map (fun r => cell str_df r "Sales") grp) in
  let acos := if fgt sales (Fin 0) then fmul (fdiv spend sales) (Fin 100) else Fin 0 in
  mkCampaignMetrics name spend sales acos.

(** [pd.merge(campaign_metrics, bulk_df, on='Campaign Name', how='inner')]:
    the pairs of a campaign and a bulk row of that name, campaigns first. *)
Definition merge_inner (metrics : list CampaignMetrics) (bulk_df : DataFrame)
    : list (CampaignMetrics * list pyval) :=
  flat_map
    (fun m => map (fun r => (m, r))
                (filter (fun r => eq_str (cell bulk_df r "Campaign Name") (cm_name m))
                        (rows bulk_df)))
    metrics.

(** One turn of the loop over the merged rows. *)
Definition saturation_item (bulk_df : DataFrame) (mr : CampaignMetrics * list pyval)
    : option BudgetSaturationItem :=
  let spend := cm_spend (fst mr) in
  let budget := as_float (cell bulk_df (snd mr) "Daily Budget") in
  let acos := cm_acos (fst mr) in
  if fle budget (Fin 0) then None
  else
    let utilization := fdiv spend budget in
    if flt acos (Fin 30) then
      Some (mkBudgetSaturationItem (cm_name (fst mr)) budget spend (Fin 0) acos
              (fmul budget (Fin (12 # 10))) "Budget Increase")
    else None.

Definition analyze_budget_saturation (str_df bulk_df : DataFrame)
    : result (list BudgetSaturationItem) :=
  if df_empty str_df || df_empty bulk_df then Ok []
  else if negb (has_all str_df ["Campaign Name"; "Spend"; "Sales"]) then Ok []
  else
    try! keys := group_keys (column str_df "Campaign Name") in
    let campaign_metrics := map (campaign_metrics_of str_df) keys in
    if negb (has_col bulk_df "Daily Budget") then Ok []
    else if negb (has_col bulk_df "Campaign Name") then Raise KeyError
    else
      let merged := merge_inner campaign_metrics bulk_df in
      match merged with
      | [] => Ok []
      | _ :: _ =>
          (* a column of the same name on both sides is suffixed by the
             merge, and [row['Spend']] or [row['ACOS']] is no longer there *)
          if has_col bulk_df "Spend" || has_col bulk_df "ACOS" then Raise KeyError
          else Ok (sorted_asc bu_acos (omap (saturation_item bulk_df) merged))
      end.

(** *** Health score *)

Definition zero_health : HealthScore := mkHealthScore 0 0 0 0 [].

(** [df[mask][name].sum()] *)
Definition sum_where (df : DataFrame) (mask : list pyval -> bool) (name : string) : pyfloat :=
  series_sum (map (fun r => cell df r name) (filter mask (rows df))).

Definition calculate_health_score (df : DataFrame) : result HealthScore :=
  if df_empty df then Ok zero_health
  else if negb (has_all df ["Spend"; "Sales"; "Match Type"]) then Ok zero_health
  else
    let total_spend := series_sum (column df "Spend") in
    let total_sales := series_sum (column df "Sales") in
    let wasted_spend :=
      sum_where df (fun r => feq (as_float (cell df r "Sales")) (Fin 0)) "Spend" in
    let waste_ratio := ratio_or_zero wasted_spend total_spend in
    let efficiency_score :=
      py_max (Fin 0) (fsub (Fin 100) (fmul waste_ratio (Fin 100))) in
    let exact_spend := sum_where df (fun r => eq_str (cell df r "Match Type") "Exact") "Spend" in
    let exact_share := ratio_or_zero exact_spend total_spend in
    let exact_score :=
      py_min (Fin 100) (fmul (fmul exact_share (Fin 100)) (Fin (15 # 10))) in
    let overall_acos :=
      if fgt total_sales (Fin 0)
      then fmul (fdiv total_spend total_sales) (Fin 100)
      else Fin 100 in
    let acos_score := py_max (Fin 0) (fsub (Fin 100) overall_acos) in
    try! final_score :=
      Parser.int_of_float
        (fadd (fadd (fmul efficiency_score (Fin (4 # 10)))
                    (fmul exact_score (Fin (3 # 10))))
              (fmul acos_score (Fin (3 # 10)))) in
    try! eff := Parser.int_of_float efficiency_score in
    try! acs := Parser.int_of_float acos_score in
    try! exs := Parser.int_of_float exact_score in
    Ok (mkHealthScore final_score eff acs exs
          [ ("wasted_spend", wasted_spend);
            ("waste_ratio", waste_ratio);
            ("overall_acos", overall_acos) ]).

(** *** Scale opportunities *)

(** The mask of [analyze_scale_opportunities]. *)
Definition scale_mask (df : DataFrame) (row : list pyval)
    (target_acos : Q) (min_orders : Z) : bool :=
  let efficient_threshold := fmul (Fin target_acos) (Fin (8 # 10)) in
  fle (as_float (cell df row "ACOS")) efficient_threshold
  && fge (as_float (cell df row "Orders")) (of_Z min_orders).

(** The body of the loop; [int(...)] runs while the arguments are built,
    before the model validates its fields. *)
Definition scale_item (df : DataFrame) (row : list pyval) (idx : nat)
    : result ScaleOpportunityItem :=
  let cpc := as_float (cell_or df row "CPC" (PInt 0)) in
  let suggested := fmul cpc (Fin (12 # 10)) in
  try! orders := py_int (cell_or df row "Orders" (PInt 0)) in
  try! search_term := str_field (cell_or df row "Customer Search Term" (PStr "Unknown")) in
  try! targeting := str_field (cell_or df row "Targeting" PNone) in
  try! match_type := str_field (cell_or df row "Match Type" PNone) in
  try! campaign_name := str_field (cell_or df row "Campaign Name" (PStr "Unknown")) in
  try! acos := float_field (cell_or df row "ACOS" (PInt 0)) in
  try! conversion_rate := float_field (cell_or df row "Conversion Rate" (PInt 0)) in
  try! current_bid := float_field (cell_or df row "CPC" (PInt 0)) in
  Ok (mkScaleOpportunityItem idx search_term targeting match_type campaign_name
        None None acos orders conversion_rate (Some current_bid) (Some suggested)
        "Bid Increase").

(** [sorted(results, key=lambda x: x.orders, reverse=True)] *)
Definition sorted_by_orders (results : list ScaleOpportunityItem)
    : list ScaleOpportunityItem :=
  sort_by (fun a b => (so_orders b <=? so_orders a)%Z) results.

Definition analyze_scale_opportunities (df : DataFrame) (target_acos : Q)
    (min_orders : Z) : result (list ScaleOpportunityItem) :=
  if df_empty df || negb (has_col df "ACOS") || negb (has_col df "Orders") then Ok []
  else
    let scale_df :=
      filter (fun ir => scale_mask df (snd ir) target_acos min_orders) (iterrows df) in
    try! results := mapM (fun ir => scale_item df (snd ir) (fst ir)) scale_df in
    Ok (sorted_by_orders results).

End Optimization.

(** ** backend/services/negative_generator.py *)

Module NegativeGenerator.

Import PyStr.

Definition BULK_HEADERS : list string :=
  [ "Product"; "Entity"; "Operation"; "Campaign ID"; "Ad Group ID";
    "Portfolio ID"; "Ad ID"; "Keyword ID"; "Product Targeting ID";
    "Campaign Name"; "Ad Group Name"; "Campaign Name (Informational only)";
    "Ad Group Name (Informational only)";
    "Portfolio Name (Informational only)"; "Start Date"; "End Date";
    "Targeting Type"; "State"; "Campaign State (Informational only)";
    "Ad Group State (Informational only)"; "Daily Budget"; "SKU";
    "ASIN (Informational only)"; "Eligibility Status (Informational only)";
    "Reason for Ineligibility (Informational only)"; "Ad Group Default Bid";
    "Ad Group Default Bid (Informational only)"; "Bid"; "Keyword Text";
    "Match Type"; "Bidding Strategy"; "Placement"; "Percentage";
    "Product Targeting Expression";
    "Resolved Product Targeting Expression (Informational only)";
    "Impressions"; "Clicks"; "Click-through Rate"; "Spend"; "Sales";
    "Orders"; "Units"; "Conversion Rate"; "ACOS"; "CPC"; "ROAS" ].

Definition classify_negative_type (search_term : pyval) : string :=
  if Parser.is_asin search_term then "negative_product" else "negative_keyword".

(** A selected item is a dict; [True] and [False] are the integers 1 and 0,
    as they are in Python. *)
Definition get (item : gmap string pyval) (key : string) (dflt : pyval) : pyval :=
  default dflt (item !! key).

(** Truth value of a Python value *)
Definition truthy (v : pyval) : bool :=
  match v with
  | PNone => false
  | PStr s => negb (String.eqb s "")
  | PInt z => negb (z =? 0)%Z
  | PFloat (Fin q) => negb (Qeq_bool q 0)
  | PFloat _ => true
  end.

(** The method call [v.m(...)] of a string method on a value *)
Definition str_method (f : string -> string) (v : pyval) : result string :=
  match v with
  | PStr s => Ok (f s)
  | _ => Raise AttributeError
  end.

Definition dquote : ascii := ascii_of_nat 34.

Definition generate_empty_row : gmap string pyval :=
  list_to_map (map (fun col => (col, PNone)) BULK_HEADERS).

Definition set_if (cond : bool) (key : string) (v : pyval)
    (row : gmap string pyval) : gmap string pyval :=
  if cond then <[key := v]> row else row.

(** The body of the loop of [generate_negatives_bulk_file]. *)
Definition negative_row (match_type : string) (item : gmap string pyval)
    : result (gmap string pyval) :=
  try! search_term :=
    str_method (replace_char "/" " ") (get item "customer_search_term" (PStr "")) in
  try! campaign_name :=
    str_method (fun s => strip_char dquote (strip_char "'" s))
               (get item "campaign_name" (PStr "")) in
  let ad_group_name := get item "ad_group_name" (PStr "") in
  let campaign_id := get item "campaign_id" (PStr "") in
  let ad_group_id := get item "ad_group_id" (PStr "") in
  let portfolio_id := get item "portfolio_id" (PStr "") in
  let item_is_asin := get item "is_asin" (PInt 0) in
  let row := generate_empty_row in
  let row := <["Product" := PStr "Sponsored Products"]> row in
  let row := <["Operation" := PStr "Create"]> row in
  let row := set_if (truthy campaign_id) "Campaign ID" campaign_id row in
  let row := set_if (truthy ad_group_id) "Ad Group ID" ad_group_id row in
  let row := set_if (truthy portfolio_id) "Portfolio ID" portfolio_id row in
  let row := <["Campaign Name" := PStr campaign_name]> row in
  let row := <["Ad Group Name" := ad_group_name]> row in
  let row := <["State" := PStr "Enabled"]> row in
  if truthy item_is_asin then
    let row := <["Entity" := PStr "Negative Product Targeting"]> row in
    Ok (<["Product Targeting Expression" :=
            PStr ("asin=" ++ String dquote (upper search_term ++ String dquote ""))]> row)
  else
    let row := <["Entity" := PStr "Negative Keyword"]> row in
    let row := <["Keyword Text" := PStr search_term]> row in
    Ok (<["Match Type" := PStr match_type]> row).

(** The rows [generate_negatives_bulk_file] hands to the spreadsheet
    writer, in order. *)
Definition generate_negatives_bulk_file (selected_items : list (gmap string pyval))
    (use_negative_phrase : bool) : result (list (gmap string pyval)) :=
  let match_type := if use_negative_phrase then "Negative Phrase" else "Negative Exact" in
  mapM (negative_row match_type) selected_items.

End NegativeGenerator.

(** ** backend/services/bulk_optimizer.py *)

Module BulkOptimizer.

Import PyStr.

(** [p in s] for strings *)
Fixpoint contains (p s : string) : bool :=
  String.prefix p s ||
  match s with
  | EmptyString => false
  | String _ s' => contains p s'
  end.

(** [pd.DataFrame(rows)] for dicts that all have the same keys in the same
    order: the keys are the columns; without a dict the frame has none. *)
Definition frame_of_dicts (rows : list (list (string * pyval))) : DataFrame :=
  match rows with
  | [] => mkDF [] []
  | r :: _ => mkDF (map (fun kv => LStr (fst kv)) r) (map (map snd) rows)
  end.

(** [item.get(key)] *)
Definition get (item : gmap string pyval) (key : string) : pyval :=
  NegativeGenerator.get item key PNone.

(** [str(item.get('targeting', ''))] *)
Definition targeting_of `{PyBuiltins} (item : gmap string pyval) : string :=
  Parser.py_str (NegativeGenerator.get item "targeting" (PStr "")).

Definition record_type_of (targeting : string) : string :=
  if startswith "b0" (lower targeting) || contains "asin=" (lower targeting)
  then "Product Target" else "Keyword".

(** The row dict of one item, in the order of its keys. *)
Definition bid_change_row `{PyBuiltins} (item : gmap string pyval)
    : list (string * pyval) :=
  let targeting := targeting_of item in
  let record_type := record_type_of targeting in
  [ ("Record Type", PStr record_type);
    ("Campaign Name", get item "campaign_name");
    ("Campaign ID", get item "campaign_id");
    ("Ad Group Name", NegativeGenerator.get item "ad_group_name" (PStr ""));
    ("Ad Group ID", get item "ad_group_id");
    ("Portfolio ID", get item "portfolio_id");
    ("Keyword Text", if String.eqb record_type "Keyword" then PStr targeting else PNone);
    ("Product Target",
     if String.eqb record_type "Product Target" then PStr targeting else PNone);
    ("Match Type", get item "match_type");
    ("Max Bid", get item "suggested_bid");
    ("Operation", PStr "Update") ].

(** The frame [generate_bid_changes_file] hands to the spreadsheet writer. *)
Definition generate_bid_changes_file `{PyBuiltins} (items : list (gmap string pyval))
    : DataFrame :=
  let df := frame_of_dicts (map bid_change_row items) in
  let columns :=
    [ "Record Type"; "Campaign Name"; "Campaign ID"; "Ad Group Name";
      "Ad Group ID"; "Portfolio ID"; "Keyword Text"; "Product Target";
      "Match Type"; "Max Bid"; "Operation" ] in
  let columns := filter (has_col df) columns in
  df_select df (map LStr columns).

Definition budget_change_row (item : gmap string pyval) : list (string * pyval) :=
  [ ("Record Type", PStr "Campaign");
    ("Campaign Name", get item "campaign_name");
    ("Campaign ID", get item "campaign_id");
    ("Daily Budget", get item "suggested_budget");
    ("Operation", PStr "Update") ].

(** The frame [generate_budget_changes_file] hands to the writer; [df[columns]]
    needs every one of the five columns. *)
Definition generate_budget_changes_file (items : list (gmap string pyval))
    : result DataFrame :=
  let df := frame_of_dicts (map budget_change_row items) in
  let columns :=
    [ "Record Type"; "Campaign Name"; "Campaign ID"; "Daily Budget"; "Operation" ] in
  Parser.select_columns df columns.

End BulkOptimizer.

(** ** backend/services/campaign_generator.py

    An ad group is the dict [AdGroupConfig.model_dump()] gives, and a
    placement adjustment the dict [PlacementBidAdjustment.model_dump()]
    gives, as the export route passes them: every key is there, with a value
    of its declared type, so the defaults of [.get] are never taken. *)

Module CampaignGenerator.

Import PyStr.

Record AdGroupConfig : Type := mkAdGroupConfig {
  ad_group_name : string;
  default_bid : pyfloat;
  skus : list string;
  close_match : bool;
  close_match_bid : option pyfloat;
  loose_match : bool;
  loose_match_bid : option pyfloat;
  substitutes : bool;
  substitutes_bid : option pyfloat;
  complements : bool;
  complements_bid : option pyfloat
}.

Record PlacementBidAdjustment : Type := mkPlacementBidAdjustment {
  top_of_search : Z;
  product_pages : Z;
  rest_of_search : Z
}.

Definition BULK_COLUMNS : list string :=
  [ "Product"; "Entity"; "Operation"; "Campaign ID"; "Ad Group ID";
    "Portfolio ID"; "Ad ID"; "Keyword ID"; "Product Targeting ID";
    "Campaign Name"; "Ad Group Name"; "Start Date"; "End Date";
    "Targeting Type"; "State"; "Daily Budget"; "SKU";
    "ASIN (Informational only)"; "Ad Group Default Bid"; "Bid";
    "Keyword Text"; "Match Type"; "Bidding Strategy"; "Placement";
    "Percentage" ].

Definition create_empty_row : gmap string pyval :=
  list_to_map (map (fun col => (col, PStr "")) BULK_COLUMNS).

(** [row.update({...})], the entries in the order of the literal *)
Definition update (entries : list (string * pyval)) (row : gmap string pyval)
    : gmap string pyval :=
  fold_left (fun r kv => <[fst kv := snd kv]> r) entries row.

Section Dates.

(** [datetime.date] and [start_date.strftime('%Y%m%d')] *)
Variable date : Type.
Variable strftime_Ymd : date -> string.

Definition generate_campaign_row (campaign_name : string) (daily_budget : pyfloat)
    (bidding_strategy : string) (start_date : date) (portfolio_id : option string)
    : gmap string pyval :=
  let row :=
    update [ ("Product", PStr "Sponsored Products");
             ("Entity", PStr "Campaign");
             ("Operation", PStr "Create");
             ("Campaign ID", PStr campaign_name);
             ("Campaign Name", PStr campaign_name);
             ("State", PStr "enabled");
             ("Daily Budget", PFloat daily_budget);
             ("Start Date", PStr (strftime_Ymd start_date));
             ("Targeting Type", PStr "Auto");
             ("Bidding Strategy", PStr bidding_strategy) ]
           create_empty_row in
  match portfolio_id with
  | Some p => if String.eqb p "" then row else <["Portfolio ID" := PStr p]> row
  | None => row
  end.

Definition generate_bidding_adjustment_row (campaign_name placement : string)
    (percentage : Z) : gmap string pyval :=
  update [ ("Product", PStr "Sponsored Products");
           ("Entity", PStr "Bidding Adjustment");
           ("Operation", PStr "Create");
           ("Campaign ID", PStr campaign_name);
           ("Campaign Name", PStr campaign_name);
           ("Placement", PStr placement);
           ("Percentage", PInt percentage) ]
         create_empty_row.

Definition generate_ad_group_row (campaign_name ad_group_name : string)
    (default_bid : pyfloat) : gmap string pyval :=
  update [ ("Product", PStr "Sponsored Products");
           ("Entity", PStr "Ad Group");
           ("Operation", PStr "Create");
           ("Campaign ID", PStr campaign_name);
           ("Ad Group ID", PStr ad_group_name);
           ("Campaign Name", PStr campaign_name);
           ("Ad Group Name", PStr ad_group_name);
           ("State", PStr "enabled");
           ("Ad Group Default Bid", PFloat default_bid) ]
         create_empty_row.

Definition generate_product_ad_row (campaign_name ad_group_name sku : string)
    : gmap string pyval :=
  update [ ("Product", PStr "Sponsored Products");
           ("Entity", PStr "Product Ad");
           ("Operation", PStr "Create");
           ("Campaign ID", PStr campaign_name);
           ("Ad Group ID", PStr ad_group_name);
           ("Campaign Name", PStr campaign_name);
           ("Ad Group Name", PStr ad_group_name);
           ("State", PStr "enabled");
           ("SKU", PStr sku) ]
         create_empty_row.

Definition generate_auto_targeting_row (campaign_name ad_group_name targeting_type : string)
    (bid : option pyfloat) : gmap string pyval :=
  let row :=
    update [ ("Product", PStr "Sponsored Products");
             ("Entity", PStr "Product Targeting");
             ("Operation", PStr "Create");
             ("Campaign ID", PStr campaign_name);
             ("Ad Group ID", PStr ad_group_name);
             ("Campaign Name", PStr campaign_name);
             ("Ad Group Name", PStr ad_group_name);
             ("State", PStr "enabled");
             ("Keyword Text", PStr ("auto-targeting=" ++ targeting_type)) ]
           create_empty_row in
  match bid with
  | Some b => if NegativeGenerator.truthy (PFloat b) then <["Bid" := PFloat b]> row else row
  | None => row
  end.

(** Step 2 of [generate_auto_campaign_bulk_file]: the placement rows. *)
Definition placement_rows (campaign_name : string)
    (placement_bid_adjustment : option PlacementBidAdjustment)
    : list (gmap string pyval) :=
  match placement_bid_adjustment with
  | None => []
  | Some p =>
      (if (0 <? top_of_search p)%Z
       then [generate_bidding_adjustment_row campaign_name "Placement Top"
               (top_of_search p)]
       else []) ++
      (if (0 <? product_pages p)%Z
       then [generate_bidding_adjustment_row campaign_name "Placement Product Page"
               (product_pages p)]
       else []) ++
      (if (0 <? rest_of_search p)%Z
       then [generate_bidding_adjustment_row campaign_name "Placement Rest Of Search"
               (rest_of_search p)]
       else [])
  end.

(** The rows of the loop over [skus]. *)
Definition product_ad_rows (campaign_name ag_name : string) (skus : list string)
    : list (gmap string pyval) :=
  flat_map (fun sku =>
              if negb (String.eqb sku "") && negb (String.eqb (strip sku) "")
              then [generate_product_ad_row campaign_name ag_name (strip sku)]
              else [])
           skus.

(** The rows of the four [if ag.get(...)] blocks. *)
Definition targeting_rows (campaign_name : string) (ag : AdGroupConfig)
    : list (gmap string pyval) :=
  let ag_name := ad_group_name ag in
  (if close_match ag
   then [generate_auto_targeting_row campaign_name ag_name "close-match"
           (close_match_bid ag)]
   else []) ++
  (if loose_match ag
   then [generate_auto_targeting_row campaign_name ag_name "loose-match"
           (loose_match_bid ag)]
   else []) ++
  (if substitutes ag
   then [generate_auto_targeting_row campaign_name ag_name "substitutes"
           (substitutes_bid ag)]
   else []) ++
  (if complements ag
   then [generate_auto_targeting_row campaign_name ag_name "complements"
           (complements_bid ag)]
   else []).

(** One turn of the loop over [ad_groups]. *)
Definition ad_group_rows (campaign_name : string) (ag : AdGroupConfig)
    : list (gmap string pyval) :=
  generate_ad_group_row campaign_name (ad_group_name ag) (default_bid ag)
  :: product_ad_rows campaign_name (ad_group_name ag) (skus ag)
  ++ targeting_rows campaign_name ag.

(** The rows [generate_auto_campaign_bulk_file] hands to the spreadsheet
    writer, in order. *)
Definition generate_auto_campaign_bulk_file (campaign_name : string)
    (daily_budget : pyfloat) (bidding_strategy : string) (start_date : date)
    (ad_groups : list AdGroupConfig) (portfolio : option string)
    (placement_bid_adjustment : option PlacementBidAdjustment)
    : list (gmap string pyval) :=
  generate_campaign_row campaign_name daily_budget bidding_strategy start_date portfolio
  :: placement_rows campaign_name placement_bid_adjustment
  ++ flat_map (ad_group_rows campaign_name) ad_groups.

End Dates.

Definition validate_ad_group_config (ad_group : AdGroupConfig) : list string :=
  let errors := [] in
  let errors :=
    if String.eqb (ad_group_name ad_group) ""
    then errors ++ ["Ad group name is required"] else errors in
  let errors :=
    if PyFloat.flt (default_bid ad_group) (Fin (2 # 100))
    then errors ++ ["Default bid must be at least $0.02"] else errors in
  let has_targeting :=
    close_match ad_group || loose_match ad_group
    || substitutes ad_group || complements ad_group in
  if negb has_targeting
  then errors ++ ["At least one targeting type must be enabled"] else errors.

End CampaignGenerator.

(** ** backend/routers/export.py: records sent by the client *)

Module ExportRouter.

Definition has_key (item : gmap string pyval) (key : string) : bool :=
  bool_decide (is_Some (item !! key)).

(** [item[key]] for a key that is there *)
Definition at_key (item : gmap string pyval) (key : string) : pyval :=
  default PNone (item !! key).

(** The body of the loop over [request.items] in [export_negatives]; the
    booleans [True] and [False] are the integers 1 and 0. *)
Definition prepare_item (i : gmap string pyval) : gmap string pyval :=
  let item := i in
  let item :=
    if has_key item "search_term" && negb (has_key item "customer_search_term")
    then <["customer_search_term" := at_key item "search_term"]> item else item in
  let item :=
    if negb (has_key item "campaign_name") && has_key item "Campaign Name"
    then <["campaign_name" := at_key item "Campaign Name"]> item else item in
  let item :=
    if negb (has_key item "ad_group_name") && has_key item "Ad Group Name"
    then <["ad_group_name" := at_key item "Ad Group Name"]> item else item in
  if negb (has_key item "is_asin")
  then <["is_asin" :=
           PInt (if Parser.is_asin
                      (NegativeGenerator.get item "customer_search_term" (PStr ""))
                 then 1 else 0)]> item
  else item.

(** Case 1 of [export_negatives]: the rows written for the records of the
    request. *)
Definition export_negatives (items : list (gmap string pyval))
    (use_negative_phrase : bool) : result (list (gmap string pyval)) :=
  let selected_items := map prepare_item items in
  NegativeGenerator.generate_negatives_bulk_file selected_items use_negative_phrase.

End ExportRouter.

(** ** A concrete reading of the builtins

    [float(s)] on the decimal notation (sign, digits, fraction, exponent,
    [inf], [infinity], [nan]); [str(f)] exact on the integral floats an
    identifier column holds; dates kept as they are read. *)

Module Decimal.

Import PyStr.

Definition digit_of (c : ascii) : option Z :=
  let n := nat_of_ascii c in
  if (48 <=? n)%nat && (n <=? 57)%nat then Some (Z.of_nat (n - 48)) else None.

(** Leading digits of [s]: their value after [acc], how many there are, and
    what follows them. *)
Fixpoint digits (s : string) (acc : Z) (n : nat) : Z * nat * string :=
  match s with
  | EmptyString => (acc, n, EmptyString)
  | String c s' =>
      match digit_of c with
      | Some d => digits s' (10 * acc + d)%Z (S n)
      | None => (acc, n, s)
      end
  end.

Definition split_sign (s : string) : bool * string :=
  match s with
  | String "-" s' => (true, s')
  | String "+" s' => (false, s')
  | _ => (false, s)
  end.

Definition pow10 (e : Z) : Q :=
  if (0 <=? e)%Z then inject_Z (10 ^ e) else / inject_Z (10 ^ (- e)).

Definition exponent (s : string) : option Z :=
  match s with
  | EmptyString => Some 0%Z
  | String c s' =>
      if Ascii.eqb c "e" || Ascii.eqb c "E" then
        let (neg, r) := split_sign s' in
        match digits r 0 0 with
        | (_, O, _) => None
        | (e, _, EmptyString) => Some (if neg then (- e)%Z else e)
        | _ => None
        end
      else None
  end.

Definition parse_float (s : string) : option pyfloat :=
  let (neg, r) := split_sign (strip s) in
  let k := lower r in
  if String.eqb k "inf" || String.eqb k "infinity" then Some (Inf neg)
  else if String.eqb k "nan" then Some NaN
  else
    let '(ip, n1, r1) := digits r 0 0 in
    let '(fp, n2, r2) :=
      match r1 with
      | String "." r1' => digits r1' 0 0
      | _ => (0%Z, O, r1)
      end in
    match (n1 + n2)%nat, exponent r2 with
    | S _, Some e =>
        let m := ((inject_Z ip + inject_Z fp * pow10 (- Z.of_nat n2)) * pow10 e)%Q in
        Some (Fin (Qred (if neg then - m else m)))
    | _, _ => None
    end.

Definition show_float (f : pyfloat) : string :=
  match f with
  | Fin q => pretty (Parser.Qtrunc q) ++ ".0"
  | Inf false => "inf"
  | Inf true => "-inf"
  | NaN => "nan"
  end.

#[export] Instance builtins : PyBuiltins := {
  float_of_str := parse_float;
  str_of_float := show_float;
  to_datetime := fun v => v
}.

End Decimal.

(** ** Sample datasets *)

Module Samples.

(** A bulk export in which a campaign row and a child row disagree on the
    identifiers of "Camp A" / "AG 1". *)
Definition bulk_conflict : DataFrame :=
  mkDF [ LStr "Campaign Name"; LStr "Campaign ID"; LStr "Portfolio ID";
         LStr "Ad Group Name"; LStr "Ad Group ID";
         LStr "Campaign Name (Informational only)";
         LStr "Ad Group Name (Informational only)" ]
       [ [ PStr "Camp A"; PStr "111"; PStr "7"; PStr "AG 1"; PStr "222.0"; PNone; PNone ];
         [ PNone; PStr "999"; PStr "8"; PNone; PStr "333"; PStr "camp a"; PStr "ag 1" ] ].

Definition c_info : label := LStr "Campaign Name (Informational only)".
Definition a_info : label := LStr "Ad Group Name (Informational only)".

(** A bulk export whose header row holds a number. *)
Definition bulk_malformed : DataFrame :=
  mkDF [ LStr "Campaign Name"; LStr "Campaign ID"; LInt 2024 ]
       [ [ PStr "Camp A"; PStr "111"; PStr "x" ] ].

(** A dict record, and a model object of a class that declares no
    [portfolio_id] (as [BleedingSpendItem] does not). *)
Definition record_dict : Parser.Item :=
  Parser.mkItem true []
    (<["campaign_name" := "Camp A"]> (<["ad_group_name" := "AG 1"]> ∅)).

Definition record_object : Parser.Item :=
  Parser.mkItem false
    [ "id"; "search_term"; "campaign_name"; "ad_group_name"; "campaign_id";
      "ad_group_id"; "match_type"; "spend"; "clicks"; "severity_score";
      "action_type" ]
    (<["campaign_name" := "Camp A"]> (<["ad_group_name" := "AG 1"]> ∅)).

(** A processed search-term report.  Row 0 is the bleeding row of the
    specification (spend 20, no sale, 8 clicks, broad match); row 1 is the
    same on exact match; rows 2 and 3 differ from row 0 by the targeting
    expression only: a keyword that begins with "b0", and a product
    identifier behind a blank. *)
Definition perf_report : DataFrame :=
  mkDF [ LStr "Customer Search Term"; LStr "Campaign Name"; LStr "Ad Group Name";
         LStr "Targeting"; LStr "Match Type"; LStr "Spend"; LStr "Sales";
         LStr "Clicks" ]
       [ [ PStr "trail shoes"; PStr "Camp A"; PStr "AG 1"; PStr "running shoes";
           PStr "Broad"; PFloat (Fin 20); PFloat (Fin 0); PInt 8 ];
         [ PStr "trail shoes"; PStr "Camp A"; PStr "AG 1"; PStr "running shoes";
           PStr "Exact"; PFloat (Fin 20); PFloat (Fin 0); PInt 8 ];
         [ PStr "b0 shoes"; PStr "Camp A"; PStr "AG 1"; PStr "b0 shoes";
           PStr "Broad"; PFloat (Fin 20); PFloat (Fin 0); PInt 8 ];
         [ PStr "b012345678"; PStr "Camp A"; PStr "AG 1"; PStr " B012345678";
           PStr "Broad"; PFloat (Fin 30); PFloat (Fin 0); PInt 8 ] ].

(** A report whose totals give the averages of the specification: CTR 2%
    (100 clicks on 5000 impressions), CPC 1.00 (spend 100), CVR 5% (5
    orders).  Row 0 has ACOS 80, a CVR of 2% and a CPC of 1.60. *)
Definition perf_high_acos : DataFrame :=
  mkDF [ LStr "Customer Search Term"; LStr "Campaign Name"; LStr "Targeting";
         LStr "Match Type"; LStr "Impressions"; LStr "Clicks"; LStr "Spend";
         LStr "Sales"; LStr "Orders"; LStr "ACOS"; LStr "CTR"; LStr "CPC";
         LStr "Conversion Rate" ]
       [ [ PStr "trail shoes"; PStr "Camp A"; PStr "running shoes"; PStr "Broad";
           PInt 1000; PInt 50; PFloat (Fin 80); PFloat (Fin 100); PInt 1;
           PFloat (Fin 80); PFloat (Fin (5 # 100)); PFloat (Fin (16 # 10));
           PFloat (Fin (2 # 100)) ];
         [ PStr "road shoes"; PStr "Camp A"; PStr "running shoes"; PStr "Phrase";
           PInt 4000; PInt 50; PFloat (Fin 20); PFloat (Fin 200); PInt 4;
           PFloat (Fin 10); PFloat (Fin (125 # 10000)); PFloat (Fin (4 # 10));
           PFloat (Fin (8 # 100)) ] ].

(** Three reports for the health score: one row with spend 24 and sales
    100 on broad match; no sale at all; no spend at all. *)
Definition perf_health : DataFrame :=
  mkDF [ LStr "Spend"; LStr "Sales"; LStr "Match Type" ]
       [ [ PFloat (Fin 24); PFloat (Fin 100); PStr "Broad" ] ].

Definition perf_no_sales : DataFrame :=
  mkDF [ LStr "Spend"; LStr "Sales"; LStr "Match Type" ]
       [ [ PFloat (Fin 24); PFloat (Fin 0); PStr "Exact" ];
         [ PFloat (Fin 6); PFloat (Fin 0); PStr "Broad" ] ].

Definition perf_no_spend : DataFrame :=
  mkDF [ LStr "Spend"; LStr "Sales"; LStr "Match Type" ]
       [ [ PFloat (Fin 0); PFloat (Fin 0); PStr "Broad" ];
         [ PFloat (Fin 0); PFloat (Fin 5); PNone ] ].

(** Two selected records: a product identifier that comes without an
    [is_asin] entry, and a keyword whose [is_asin] entry is true. *)
Definition selected_asin : gmap string pyval :=
  <["customer_search_term" := PStr "B012345678"]>
    (<["campaign_name" := PStr "'Camp A'"]> ∅).

Definition selected_keyword : gmap string pyval :=
  <["customer_search_term" := PStr "trail/running shoes"]>
    (<["campaign_name" := PStr "Camp B"]>
       (<["is_asin" := PInt 1]> ∅)).

(** Campaign "Camp A" with spend 30 and sales 200 (ACOS 15), and a bulk
    export with two rows of that campaign: the campaign row with a daily
    budget of 50, and a row whose Daily Budget cell is empty. *)
Definition perf_campaigns : DataFrame :=
  mkDF [ LStr "Campaign Name"; LStr "Spend"; LStr "Sales" ]
       [ [ PStr "Camp A"; PFloat (Fin 20); PFloat (Fin 100) ];
         [ PStr "Camp A"; PFloat (Fin 10); PFloat (Fin 100) ] ].

Definition bulk_budgets : DataFrame :=
  mkDF [ LStr "Campaign Name"; LStr "Daily Budget" ]
       [ [ PStr "Camp A"; PFloat (Fin 50) ];
         [ PStr "Camp A"; PFloat NaN ] ].

(** A raw search-term report: a row without campaign name, with a negative
    spend written as text and with cells that are no numbers; a row with a
    negative spend and formatted amounts. *)
Definition raw_report : DataFrame :=
  mkDF [ LStr "Campaign Name"; LStr "Customer Search Term"; LStr "Spend";
         LStr "7 Day Total Sales "; LStr "Clicks"; LStr "ACOS" ]
       [ [ PFloat NaN; PStr "trail shoes"; PStr "-$5.00"; PFloat NaN;
           PStr "n/a"; PStr "n/a" ];
         [ PStr "Camp A"; PStr "road shoes"; PFloat (Fin (-5)); PStr "$1,234.50";
           PStr "12"; PStr "12.5%" ] ].

Definition cleaned_report : DataFrame :=
  mkDF [ LStr "Campaign Name"; LStr "Customer Search Term"; LStr "Spend";
         LStr "Sales"; LStr "Clicks"; LStr "ACOS" ]
       [ [ PFloat NaN; PStr "trail shoes"; PFloat (Fin (-5)); PFloat (Fin 0);
           PInt 0; PNone ];
         [ PStr "Camp A"; PStr "road shoes"; PFloat (Fin (-5));
           PFloat (Fin (2469 # 2)); PInt 12; PFloat (Fin (25 # 2)) ] ].

(** A raw search-term report whose headers are spelled freely: lower and
    upper case, a trailing blank, and the "Ad Group" alias. *)
Definition raw_headers : DataFrame :=
  mkDF [ LStr "campaign name "; LStr "Ad Group"; LStr "Targeting";
         LStr "MATCH TYPE"; LStr "Customer Search Term"; LStr "Impressions";
         LStr "Clicks"; LStr "Spend" ]
       [ [ PStr "Camp A"; PStr "AG 1"; PStr "running shoes"; PStr "Broad";
           PStr "trail shoes"; PStr "1,000"; PInt 8; PStr "$20.00" ] ].

(** A bulk operations file as it is exported: the record type under
    "Entity", the campaign name under "Campaign", the budget under
    "Campaign Daily Budget", with a child row and a campaign row that have
    no budget. *)
Definition raw_bulk : DataFrame :=
  mkDF [ LStr "Entity"; LStr "Campaign"; LStr "Campaign ID";
         LStr "Campaign Daily Budget" ]
       [ [ PStr "Campaign"; PStr "Camp A"; PFloat (Fin 111); PStr "$50.00" ];
         [ PStr "Ad Group"; PStr "Camp A"; PFloat (Fin 111); PFloat NaN ];
         [ PStr "Campaign"; PStr "Camp B"; PFloat (Fin 112); PFloat NaN ] ].

Definition processed_bulk : DataFrame :=
  mkDF [ LStr "Campaign Name"; LStr "Daily Budget"; LStr "Campaign ID" ]
       [ [ PStr "Camp A"; PFloat (Fin 50); PFloat (Fin 111) ];
         [ PStr "Camp B"; PFloat (Fin 0); PFloat (Fin 112) ] ].

(** A selected record that carries a campaign identifier and an empty
    ad-group identifier. *)
Definition selected_with_ids : gmap string pyval :=
  <["customer_search_term" := PStr "trail shoes"]>
    (<["campaign_name" := PStr "Camp A"]>
       (<["ad_group_name" := PStr "AG 1"]>
          (<["campaign_id" := PStr "111"]>
             (<["ad_group_id" := PStr ""]> ∅)))).

(* SAMPLES-END *)

End Samples.

(** Closed statements are evaluated with the decimal builtins. *)
#[local] Existing Instance Decimal.builtins.

(** * Properties *)

(** ** Vocabulary of the statements *)

(** [m'] is [m] after the rows [l] were written into it in order, a row [r]
    writing [v r] at the keys it touches: the last row that touches a key
    decides the entry, and a key no row touches keeps the entry of [m]. *)
Definition last_write_wins {K V R : Type} `{Countable K}
    (touch : R -> K -> Prop) (v : R -> V) (l : list R) (m m' : gmap K V) : Prop :=
  forall k,
    (Forall (fun r => ~ touch r k) l -> m' !! k = m !! k) /\
    (forall l1 r l2, l = l1 ++ r :: l2 -> touch r k ->
       Forall (fun r' => ~ touch r' k) l2 -> m' !! k = Some (v r)).

(** What one record may look like after enrichment: every attribute it
    has is one it had, or one of the three identifier attributes with a
    non-empty value. *)
Definition enriched_from (it it' : Parser.Item) : Prop :=
  forall name v, Parser.attrs it' !! name = Some v ->
    Parser.attrs it !! name = Some v \/
    (name ∈ ["campaign_id"; "portfolio_id"; "ad_group_id"] /\ v <> "").

(** The shape of the cells of a processed report: a finite number, an
    integer, a string. *)
Definition is_finite (v : pyval) : Prop := exists q, as_float v = Fin q.
Definition is_integer (v : pyval) : Prop := exists z, v = PInt z.
Definition is_text (v : pyval) : Prop := exists s, v = PStr s.

(** Every cell of the column [name] of [df] satisfies [P]. *)
Definition col_Forall (P : pyval -> Prop) (df : DataFrame) (name : string) : Prop :=
  Forall (fun r => P (Optimization.cell df r name)) (rows df).

(** Every identifier [name] of every row is a string, or its column is not
    in the frame (and [dflt] stands in for it). *)
Definition identifiers_are_text (df : DataFrame) (names : list string) (dflt : pyval) : Prop :=
  Forall (fun r => forall name, name ∈ names ->
                   is_text (Optimization.cell_or df r name dflt)) (rows df).


(** The rule of [analyze_bleeding_spend], on the numbers of a row. *)
Definition bleeds (df : DataFrame) (min_spend : Q) (min_clicks : Z)
    (row : list pyval) (sp : Q) (cl : Z) : Prop :=
  as_float (Optimization.cell df row "Spend") = Fin sp /\
  Optimization.cell df row "Clicks" = PInt cl /\
  (min_spend <= sp)%Q /\
  (exists sa, as_float (Optimization.cell df row "Sales") = Fin sa /\ (sa == 0)%Q) /\
  (min_clicks <= cl)%Z /\
  Optimization.cell df row "Match Type" <> PStr "Exact" /\
  (has_col df "Targeting" = true ->
   forall s, Optimization.cell df row "Targeting" = PStr s ->
             PyStr.startswith "b0" (PyStr.lower s) = false).

(** The finite number in a cell, zero for any other content, and the sum
    of a list of numbers in the order [sum()] takes them. *)
Definition cell_Q (v : pyval) : Q :=
  match as_float v with
  | Fin q => q
  | _ => 0%Q
  end.

Definition Qsum (l : list Q) : Q := fold_left Qplus l 0%Q.

(** python's [round]: to the nearest integer, a tie to the even one. *)
Definition round_half_even (q : Q) : Z :=
  let f := Qfloor q in
  match (q - inject_Z f ?= 1 # 2)%Q with
  | Lt => f
  | Gt => (f + 1)%Z
  | Eq => if Z.even f then f else (f + 1)%Z
  end.

Definition is_nonneg (v : pyval) : Prop := exists q, as_float v = Fin q /\ (0 <= q)%Q.

(** The health score in the words of the specification, on the numbers of
    a report. *)
Module HealthFormula.

Import Optimization.

Section Frame.

Variable df : DataFrame.

Definition spend (r : list pyval) : Q := cell_Q (cell df r "Spend").
Definition sales (r : list pyval) : Q := cell_Q (cell df r "Sales").
Definition total_spend : Q := Qsum (map spend (rows df)).
Definition total_sales : Q := Qsum (map sales (rows df)).

(** spend with zero sales, exact-match spend *)
Definition wasted_spend : Q :=
  Qsum (map spend (filter (fun r => Qeq_bool (sales r) 0) (rows df))).
Definition exact_spend : Q :=
  Qsum (map spend (filter (fun r => eq_str (cell df r "Match Type") "Exact") (rows df))).

(** a ratio whose denominator is not positive counts as zero *)
Definition ratio (a b : Q) : Q := if Qlt_le_dec 0 b then (a / b)%Q else 0%Q.

Definition efficiency : Q := Qmax 0 (100 - ratio wasted_spend total_spend * 100).
Definition exact_score : Q := Qmin 100 (ratio exact_spend total_spend * 100 * (15 # 10)).
Definition overall_acos : Q :=
  if Qlt_le_dec 0 total_sales then (total_spend / total_sales * 100)%Q else 100%Q.
Definition acos_score : Q := Qmax 0 (100 - overall_acos).

Definition weighted : Q :=
  (efficiency * (4 # 10) + exact_score * (3 # 10) + acos_score * (3 # 10))%Q.

(** the final score, rounded as the specification has it *)
Definition rounded_score : Z := round_half_even weighted.

End Frame.

End HealthFormula.

(** The cleaning steps of [process_search_term_report], in source order:
    a column name and the function applied to each of its cells. *)
Definition cleaning_steps `{PyBuiltins} : list (string * (pyval -> result pyval)) :=
  [ ("Impressions", Parser.clean_integer);
    ("Clicks", Parser.clean_integer);
    ("Spend", Parser.pure_col Parser.clean_currency);
    ("Sales", Parser.pure_col Parser.clean_currency);
    ("Orders", Parser.clean_integer);
    ("Units", Parser.clean_integer);
    ("ACOS", Parser.pure_col Parser.clean_percentage);
    ("ROAS", Parser.pure_col Parser.clean_percentage);
    ("CTR", Parser.pure_col Parser.clean_percentage);
    ("CPC", Parser.pure_col Parser.clean_currency);
    ("Conversion Rate", Parser.pure_col Parser.clean_percentage);
    ("Date", Parser.pure_col to_datetime);
    ("Impressions", Parser.pure_col Parser.fillna0);
    ("Clicks", Parser.pure_col Parser.fillna0);
    ("Spend", Parser.pure_col Parser.fillna0);
    ("Sales", Parser.pure_col Parser.fillna0);
    ("Orders", Parser.pure_col Parser.fillna0);
    ("Units", Parser.pure_col Parser.fillna0) ].

(** The steps run one after the other on a frame, and what the steps of
    one column name do to a cell. *)
Fixpoint run_steps (steps : list (string * (pyval -> result pyval)))
    (df : DataFrame) : result DataFrame :=
  match steps with
  | [] => Ok df
  | (name, f) :: steps' =>
      try! df' := Parser.apply_col name f df in run_steps steps' df'
  end.

Fixpoint column_steps (name : string)
    (steps : list (string * (pyval -> result pyval))) (v : pyval) : result pyval :=
  match steps with
  | [] => Ok v
  | (n, f) :: steps' =>
      if String.eqb n name
      then try! v' := f v in column_steps name steps' v'
      else column_steps name steps' v
  end.

(** The cleaner of the column [name]: all the steps of that name. *)
Definition cleaner `{PyBuiltins} (name : string) (v : pyval) : result pyval :=
  column_steps name cleaning_steps v.

Definition count_columns : list string := ["Impressions"; "Clicks"; "Orders"; "Units"].
Definition percentage_columns : list string := ["ACOS"; "ROAS"; "CTR"; "Conversion Rate"].
Definition cleaned_columns : list string :=
  count_columns ++ ["Spend"; "Sales"; "CPC"] ++ percentage_columns ++ ["Date"].

(** The relation between a row and the row the steps leave, cell by cell. *)
Definition cellwise (R : nat -> pyval -> result pyval) (r r' : list pyval) : Prop :=
  length r' = length r /\
  forall i v, r !! i = Some v -> exists v', r' !! i = Some v' /\ R i v = Ok v'.

(** What the steps that hit the cell at position [i] do to it. *)
Fixpoint cell_steps (cols : list label) (i : nat)
    (steps : list (string * (pyval -> result pyval))) (v : pyval) : result pyval :=
  match steps with
  | [] => Ok v
  | (n, f) :: steps' =>
      if decide (index_of (LStr n) cols = Some i)
      then try! v' := f v in cell_steps cols i steps' v'
      else cell_steps cols i steps' v
  end.

(** ** Vocabulary of the further properties *)

(** A header that is a string, and the header [normalize_column_name]
    makes of it. *)
Definition is_str_label (l : label) : bool :=
  match l with
  | LStr _ => true
  | LInt _ => false
  end.

Definition normalize_label (l : label) : label :=
  match l with
  | LStr s => LStr (Parser.normalize_column_name s)
  | LInt _ => l
  end.

(** [l] lists the values of the column [name] of [df]: every value that is
    not missing, once (numbers by value); nothing when the frame has no
    such column. *)
Definition lists_values (df : DataFrame) (name : string) (l : list pyval) : Prop :=
  NoDup l /\
  (forall v, v ∈ l ->
     has_col df name = true /\ isna v = false /\ v ∈ column df name) /\
  (forall v, has_col df name = true -> v ∈ column df name -> isna v = false ->
     exists u, u ∈ l /\ cell_eqb v u = true) /\
  (forall s, PStr s ∈ l <-> has_col df name = true /\ PStr s ∈ column df name).

(** No text cell of the frame reads as NaN once its currency marks are
    removed (a spreadsheet reader leaves no such text: it reads "nan" as a
    missing value). *)
Definition no_nan_text `{PyBuiltins} (df : DataFrame) : Prop :=
  Forall (Forall (fun v => forall s, v = PStr s ->
            float_of_str (PyStr.strip (PyStr.replace_char "," ""
                                         (PyStr.replace_char "$" "" s)))
            <> Some NaN))
         (rows df).

(** The row [process_bulk_file] makes of a campaign row: name, cleaned
    budget and, when the file has the column, the campaign identifier. *)
Definition budget_row `{PyBuiltins} (cols : list label) (with_id : bool)
    (r : list pyval) : list pyval :=
  [ row_get cols r (LStr "Campaign");
    Parser.clean_currency (row_get cols r (LStr "Daily Budget")) ] ++
  (if with_id then [row_get cols r (LStr "Campaign ID")] else []).

(** The key under which [enrich_with_ids] looks a record up in the
    ad-group table, and what enrichment never changes of a record. *)
Definition item_key (it : Parser.Item) : string * string :=
  (PyStr.strip (PyStr.lower (Parser.item_str it "campaign_name")),
   PyStr.strip (PyStr.lower (Parser.item_str it "ad_group_name"))).

Definition same_names (it it' : Parser.Item) : Prop :=
  Parser.is_dict it' = Parser.is_dict it /\
  Parser.declared it' = Parser.declared it /\
  Parser.attrs it' !! "campaign_name" = Parser.attrs it !! "campaign_name" /\
  Parser.attrs it' !! "ad_group_name" = Parser.attrs it !! "ad_group_name".

(** The rule of [analyze_scale_opportunities], on the numbers of a row. *)
Definition scales (df : DataFrame) (target_acos : Q) (min_orders : Z)
    (row : list pyval) (acos : Q) (orders : Z) : Prop :=
  as_float (Optimization.cell df row "ACOS") = Fin acos /\
  Optimization.cell df row "Orders" = PInt orders /\
  (acos <= target_acos * (8 # 10))%Q /\
  (min_orders <= orders)%Z.

(** A cell of a cleaned percentage column: a finite number, or missing. *)
Definition finite_or_missing (v : pyval) : Prop := is_finite v \/ isna v = true.

(** The identifier entries of a selected record and the columns they are
    written to; a record the negatives generator can turn into a row. *)
Definition negative_ids : list (string * string) :=
  [ ("campaign_id", "Campaign ID"); ("ad_group_id", "Ad Group ID");
    ("portfolio_id", "Portfolio ID") ].

Definition has_text_names (item : gmap string pyval) : Prop :=
  is_text (NegativeGenerator.get item "customer_search_term" (PStr "")) /\
  is_text (NegativeGenerator.get item "campaign_name" (PStr "")).

(* VOCAB-END *)

(** ** Order of floats, stable sorting *)

Section FloatOrder.

Import PyFloat.

Lemma fle_total a b : is_nan a = false -> is_nan b = false ->
  fle a b = false -> fle b a = true.
Proof.
  destruct a as [x|[]|], b as [y|[]|]; cbn; try done.
  intros _ _ Hxy. apply Qle_bool_iff.
  destruct (Qlt_le_dec y x) as [Hlt|Hle]; [by apply Qlt_le_weak|].
  apply Qle_bool_iff in Hle. congruence.
Qed.

Lemma fle_trans a b c : fle a b = true -> fle b c = true -> fle a c = true.
Proof.
  destruct a as [x|[]|], b as [y|[]|], c as [z|[]|]; cbn; try done.
  rewrite !Qle_bool_iff. apply Qle_trans.
Qed.

Lemma flt_not_nan_l a b : flt a b = true -> is_nan a = false.
Proof. by destruct a, b. Qed.

Lemma fle_not_nan_r a b : fle a b = true -> is_nan b = false.
Proof. by destruct a as [?|?|], b as [?|?|]. Qed.

Lemma fle_not_nan_l a b : fle a b = true -> is_nan a = false.
Proof. by destruct a as [?|?|], b as [?|?|]. Qed.

End FloatOrder.

Section Sorting.

Context {A : Type} (before : A -> A -> bool) (P : A -> Prop).
Hypothesis before_total : forall x y, P x -> P y -> before x y = false -> before y x = true.
Hypothesis before_trans : forall x y z, P x -> P y -> P z ->
  before x y = true -> before y z = true -> before x z = true.

Lemma insert_by_perm x l : Permutation (x :: l) (insert_by before x l).
Proof.
  induction l as [|y l IH]; cbn; [done|].
  destruct (before x y); [done|].
  rewrite Permutation_swap. by constructor.
Qed.

Lemma sort_by_perm l : Permutation l (sort_by before l).
Proof.
  induction l as [|x l IH]; cbn; [done|].
  rewrite <- insert_by_perm. by constructor.
Qed.

Lemma insert_by_sorted x l :
  P x -> Forall P l ->
  StronglySorted (fun u v => before u v = true) l ->
  StronglySorted (fun u v => before u v = true) (insert_by before x l).
Proof.
  intros Hx. induction l as [|y l IH]; intros HP Hs; cbn.
  - repeat constructor.
  - inversion HP as [|? ? Hy HPl]; subst.
    inversion Hs as [|? ? Hsl Hyl]; subst.
    destruct (before x y) eqn:Exy.
    + constructor; [done|]. constructor; [done|].
      rewrite Forall_forall in Hyl, HPl |- *. intros z Hz.
      apply (before_trans x y z); auto.
    + constructor; [by apply IH|].
      rewrite <- insert_by_perm. constructor; [|done].
      by apply before_total.
Qed.

Lemma sort_by_sorted l :
  Forall P l -> StronglySorted (fun u v => before u v = true) (sort_by before l).
Proof.
  induction l as [|x l IH]; intros HP; cbn; [constructor|].
  inversion HP; subst. apply insert_by_sorted; [done| |by apply IH].
  by rewrite <- sort_by_perm.
Qed.

End Sorting.

Section SortedFloats.

Import PyFloat.
Context {A : Type} (key : A -> pyfloat).

(** A list whose keys are numbers comes out of [sorted(..., reverse=True)]
    with its keys in descending order, and out of [sorted(...)] in
    ascending order; the elements are the same. *)
Lemma sorted_desc_sorted l :
  Forall (fun a => is_nan (key a) = false) l ->
  StronglySorted (fun u v => fle (key v) (key u) = true) (sorted_desc key l).
Proof.
  apply (sort_by_sorted (fun a b => fle (key b) (key a))
                         (fun a => is_nan (key a) = false)).
  - intros x y Hx Hy. by apply fle_total.
  - intros x y z _ _ _ Hxy Hyz. by eapply fle_trans.
Qed.

Lemma sorted_asc_sorted l :
  Forall (fun a => is_nan (key a) = false) l ->
  StronglySorted (fun u v => fle (key u) (key v) = true) (sorted_asc key l).
Proof.
  apply (sort_by_sorted (fun a b => fle (key a) (key b))
                         (fun a => is_nan (key a) = false)).
  - intros x y Hx Hy. by apply fle_total.
  - intros x y z _ _ _ Hxy Hyz. by eapply fle_trans.
Qed.

Lemma sorted_desc_perm l : Permutation l (sorted_desc key l).
Proof. apply sort_by_perm. Qed.

Lemma sorted_asc_perm l : Permutation l (sorted_asc key l).
Proof. apply sort_by_perm. Qed.

End SortedFloats.

(** ** Identity resolver *)

Section Resolver.

Import Parser PyStr.
Context `{PyBuiltins}.

Lemma fold_left_lookup_miss {K V R : Type} `{Countable K}
    (step : gmap K V -> R -> gmap K V) (touch : R -> K -> Prop) :
  (forall m r k, ~ touch r k -> step m r !! k = m !! k) ->
  forall l m k, Forall (fun r => ~ touch r k) l -> fold_left step l m !! k = m !! k.
Proof.
  intros Hstep l. induction l as [|r l IH]; intros m k Hl; simpl; [done|].
  inversion Hl; subst. rewrite IH by done. by apply Hstep.
Qed.

Lemma fold_left_lookup_last {K V R : Type} `{Countable K}
    (step : gmap K V -> R -> gmap K V) (touch : R -> K -> Prop) (v : R -> V) :
  (forall m r k, ~ touch r k -> step m r !! k = m !! k) ->
  (forall m r k, touch r k -> step m r !! k = Some (v r)) ->
  forall l1 r l2 m k, touch r k -> Forall (fun r' => ~ touch r' k) l2 ->
    fold_left step (l1 ++ r :: l2) m !! k = Some (v r).
Proof.
  intros Hmiss Hhit l1 r l2 m k Hr Hl2.
  rewrite fold_left_app. simpl.
  rewrite (fold_left_lookup_miss step touch Hmiss) by done.
  by apply Hhit.
Qed.

Lemma fold_left_last_write_wins {K V R : Type} `{Countable K}
    (step : gmap K V -> R -> gmap K V) (touch : R -> K -> Prop) (v : R -> V) :
  (forall m r k, ~ touch r k -> step m r !! k = m !! k) ->
  (forall m r k, touch r k -> step m r !! k = Some (v r)) ->
  forall l m, last_write_wins touch v l m (fold_left step l m).
Proof.
  intros Hmiss Hhit l m k. split.
  - by apply fold_left_lookup_miss.
  - intros l1 r l2 -> Hr Hl2. by eapply fold_left_lookup_last.
Qed.

Lemma find_label_truthy target cols c :
  target <> "" -> find_label target cols = Ok (Some c) -> label_truthy c = true.
Proof.
  intros Ht. induction cols as [|c0 cols IH]; simpl; [done|].
  destruct c0 as [s|z]; simpl; [|done].
  destruct (String.eqb (strip (lower s)) target) eqn:E; [|done].
  intros [= <-]. simpl. apply String.eqb_eq in E.
  destruct s; [|done]. by subst target.
Qed.

Lemma add_to_campaign_maps_fst d n i p maps :
  fst (add_to_campaign_maps d n i p maps) =
  fold_left (fun m r => <[name_key (row_get (columns d) r n) :=
                            clean_id (row_get (columns d) r i)]> m)
            (rows d) (fst maps).
Proof.
  unfold add_to_campaign_maps. generalize (rows d) as l. intros l. revert maps.
  induction l as [|r l IH]; intros maps; [done|].
  cbn [fold_left]. rewrite IH. reflexivity.
Qed.

Lemma add_to_campaign_maps_snd d n i p maps :
  snd (add_to_campaign_maps d n i p maps) =
  fold_left (fun m r => snd (add_campaign_row (columns d) n i p (∅, m) r))
            (rows d) (snd maps).
Proof.
  unfold add_to_campaign_maps. generalize (rows d) as l. intros l. revert maps.
  induction l as [|r l IH]; intros maps; [done|].
  cbn [fold_left]. rewrite IH. reflexivity.
Qed.

(** C1, as the code has it: the primary name columns are scanned first and
    the informational-only columns second, and the second scan writes with
    the same unconditional assignment as the first.  In each of the three
    lookup tables the entry of a key is decided by the last
    informational-only row that matches the key (for the portfolio table:
    that matches it and carries a portfolio ID), whatever the primary scan
    had stored; only a key no informational-only row matches keeps the entry
    of the primary scan. *)
Theorem informational_match_overwrites (bdf : DataFrame) (c a : label) :
  find_label "campaign name (informational only)" (columns bdf) = Ok (Some c) ->
  find_label "ad group name (informational only)" (columns bdf) = Ok (Some a) ->
  has_col bdf "Campaign ID" = true ->
  has_col bdf (ag_id_col_of bdf) = true ->
  let cd := campaign_data bdf c in
  let ad := ag_data bdf c a (LStr (ag_id_col_of bdf)) in
  exists maps ag,
    campaign_maps bdf = Ok maps /\
    build_agid_map bdf = Ok ag /\
    last_write_wins
      (fun r k => name_key (row_get (columns cd) r c) = k)
      (fun r => clean_id (row_get (columns cd) r (LStr "Campaign ID")))
      (rows cd) (fst (campaign_maps_primary bdf)) (fst maps) /\
    last_write_wins
      (fun r k => name_key (row_get (columns cd) r c) = k /\
                  has_col bdf "Portfolio ID" = true /\
                  isna (row_get (columns cd) r (LStr "Portfolio ID")) = false)
      (fun r => clean_id (row_get (columns cd) r (LStr "Portfolio ID")))
      (rows cd) (snd (campaign_maps_primary bdf)) (snd maps) /\
    last_write_wins
      (fun r k => (name_key (row_get (columns ad) r c),
                   name_key (row_get (columns ad) r a)) = k)
      (fun r => clean_id (row_get (columns ad) r (LStr (ag_id_col_of bdf))))
      (rows ad) (agid_map_primary bdf) ag.
Proof.
  intros Hc Ha Hcid Hag cd ad.
  assert (Tc : label_truthy c = true) by (by eapply find_label_truthy; [|exact Hc]).
  assert (Ta : label_truthy a = true) by (by eapply find_label_truthy; [|exact Ha]).
  assert (Hi : has_col bdf "Portfolio ID" = true ->
               is_Some (index_of (LStr "Portfolio ID") (columns cd))).
  { intros Hp. subst cd. unfold campaign_data. rewrite Hp. cbn.
    destruct (label_eqb c (LStr "Portfolio ID")); cbn; eauto. }
  exists (campaign_maps_secondary bdf (Some c) (campaign_maps_primary bdf)),
         (agid_map_secondary bdf (Some c) (Some a) (agid_map_primary bdf)).
  split; [by unfold campaign_maps; rewrite Hc|].
  split; [by unfold build_agid_map; rewrite Hag, Hc, Ha|].
  unfold campaign_maps_secondary, agid_map_secondary.
  rewrite Tc, Ta, Hcid. cbn [andb]. fold cd.
  unfold add_to_ag_map. fold ad. clearbody cd ad.
  split; [|split].
  - rewrite add_to_campaign_maps_fst.
    apply fold_left_last_write_wins.
    + intros m r k Hk. by rewrite lookup_insert_ne.
    + intros m r k Hk. by rewrite Hk, lookup_insert_eq.
  - rewrite add_to_campaign_maps_snd.
    apply fold_left_last_write_wins.
    + intros m r k Hk. unfold add_campaign_row, port_col_of. cbn [fst snd].
      destruct (has_col bdf "Portfolio ID") eqn:Hp; [|done].
      destruct (bool_decide _); cbn [andb]; [|done].
      destruct (isna (row_get (columns cd) r (LStr "Portfolio ID"))) eqn:Hna;
        cbn [negb]; [done|].
      rewrite lookup_insert_ne; [done|]. intros Heq. by apply Hk.
    + intros m r k (Hk & Hp & Hna). unfold add_campaign_row, port_col_of.
      cbn [fst snd]. rewrite Hp.
      rewrite (bool_decide_eq_true_2 _ (Hi Hp)), Hna. cbn [andb negb].
      by rewrite Hk, lookup_insert_eq.
  - apply fold_left_last_write_wins.
    + intros m r k Hk. unfold add_ag_row. by rewrite lookup_insert_ne.
    + intros m r k Hk. unfold add_ag_row. by rewrite Hk, lookup_insert_eq.
Qed.

Lemma enriched_from_refl it : enriched_from it it.
Proof. intros name v Hv. by left. Qed.

Lemma set_if_truthy_enriched it0 it name x it' :
  name ∈ ["campaign_id"; "portfolio_id"; "ad_group_id"] ->
  enriched_from it0 it ->
  set_if_truthy it name x = Ok it' ->
  enriched_from it0 it'.
Proof.
  intros Hname Hit. unfold set_if_truthy, item_set.
  destruct x as [v|]; [|by intros [= <-]].
  destruct (String.eqb v "") eqn:Ev; [by intros [= <-]|].
  destruct (is_dict it || bool_decide (name ∈ declared it)); [|done].
  intros [= <-] name' v'. cbn [attrs].
  destruct (decide (name = name')) as [<-|Hne].
  - rewrite lookup_insert_eq. intros [= <-]. right. split; [done|].
    intros ->. by rewrite String.eqb_refl in Ev.
  - rewrite lookup_insert_ne by done. apply Hit.
Qed.

Lemma inject_item_enriched lk it :
  enriched_from it (fst (inject_item lk it)).
Proof.
  unfold inject_item.
  destruct (set_if_truthy it "campaign_id" _) as [it1|e] eqn:E1;
    [|apply enriched_from_refl].
  assert (H1 : enriched_from it it1).
  { eapply set_if_truthy_enriched; [|apply enriched_from_refl|exact E1].
    set_solver. }
  destruct (set_if_truthy it1 "portfolio_id" _) as [it2|e] eqn:E2; [|exact H1].
  assert (H2 : enriched_from it it2).
  { eapply set_if_truthy_enriched; [|exact H1|exact E2]. set_solver. }
  destruct (set_if_truthy it2 "ad_group_id" _) as [it3|e] eqn:E3; [|exact H2].
  eapply set_if_truthy_enriched; [|exact H2|exact E3]. set_solver.
Qed.

Lemma inject_items_enriched lk items count :
  Forall2 enriched_from items (fst (inject_items lk items count)).
Proof.
  revert count. induction items as [|it items IH]; intros count; cbn; [constructor|].
  pose proof (inject_item_enriched lk it) as Hit.
  destruct (inject_item lk it) as [it' [hit|e]]; cbn in Hit.
  - specialize (IH (if hit then S count else count)).
    destruct (inject_items lk items _) as [rest' r]. cbn in *.
    by constructor.
  - cbn. constructor; [done|]. apply Forall2_same_length_lookup_2; [done|].
    intros i x y Hx Hy. rewrite Hx in Hy. injection Hy as <-.
    apply enriched_from_refl.
Qed.

(** C8: [enrich_with_ids] has a result for every input, the handler of its
    [try] block turning every exception into the count 0.  With an empty
    bulk dataset, an empty record list, or an error anywhere in the lookup
    construction (a malformed bulk dataset), the count is 0 and the records
    are exactly the records passed in.  In every case a record comes back
    with the attributes it had, beside identifier attributes with a
    non-empty value: no placeholder is ever attached. *)
Theorem enrich_with_ids_never_fails (items : list Item) (bulk_df : DataFrame) :
  (exists count items', enrich_with_ids items bulk_df = (count, items')) /\
  (df_empty bulk_df = true \/ items = [] \/
   (exists e, build_lookups bulk_df = Raise e) ->
   enrich_with_ids items bulk_df = (0%nat, items)) /\
  Forall2 enriched_from items (snd (enrich_with_ids items bulk_df)).
Proof.
  split; [|split].
  - destruct (enrich_with_ids items bulk_df) as [count items']. eauto.
  - unfold enrich_with_ids. intros [He|[->|[e He]]].
    + by rewrite He.
    + by rewrite orb_true_r.
    + rewrite He. by destruct (_ || _).
  - unfold enrich_with_ids.
    assert (Hrefl : Forall2 enriched_from items items).
    { apply Forall2_same_length_lookup_2; [done|].
      intros i x y Hx Hy. rewrite Hx in Hy. injection Hy as <-.
      apply enriched_from_refl. }
    destruct (_ || _); [done|].
    destruct (build_lookups bulk_df) as [lk|e]; [|done].
    pose proof (inject_items_enriched lk items 0) as Hinj.
    by destruct (inject_items lk items 0) as [items' [count|e]].
Qed.

End Resolver.

(** C1 as the specification words it fails: in [Samples.bulk_conflict] the
    primary scan stores "111", "7" and "222" for "camp a" / "ag 1", and the
    informational-only row replaces all three. *)
Lemma primary_entry_is_overwritten :
  Parser.prepare_bulk Samples.bulk_conflict = Ok Samples.bulk_conflict /\
  fst (Parser.campaign_maps_primary Samples.bulk_conflict) !! "camp a" = Some (Some "111") /\
  snd (Parser.campaign_maps_primary Samples.bulk_conflict) !! "camp a" = Some (Some "7") /\
  Parser.agid_map_primary Samples.bulk_conflict !! ("camp a", "ag 1") = Some (Some "222") /\
  match Parser.build_lookups Samples.bulk_conflict with
  | Ok lk =>
      Parser.cid_map lk !! "camp a" = Some (Some "999") /\
      Parser.pid_map lk !! "camp a" = Some (Some "8") /\
      Parser.agid_map lk !! ("camp a", "ag 1") = Some (Some "333")
  | Raise _ => False
  end.
Proof. vm_compute. repeat split; reflexivity. Qed.

Lemma enrich_with_ids_never_fails_witness :
  (df_empty Samples.bulk_malformed = true \/ [Samples.record_dict] = [] \/
   exists e, Parser.build_lookups Samples.bulk_malformed = Raise e) /\
  Parser.enrich_with_ids [Samples.record_dict] Samples.bulk_malformed
  = (0%nat, [Samples.record_dict]).
Proof.
  assert (He : df_empty Samples.bulk_malformed = true \/
               [Samples.record_dict] = [] \/
               exists e, Parser.build_lookups Samples.bulk_malformed = Raise e).
  { right. right. exists AttributeError. vm_compute. reflexivity. }
  split; [exact He|].
  exact (proj1 (proj2 (enrich_with_ids_never_fails _ _)) He).
Defined.

(** The dict record is enriched from [Samples.bulk_conflict]; for the model
    object the same call returns 0, an exception of the injection loop
    having been caught after [campaign_id] was set. *)
Example enrich_dict_and_object :
  (let (count, items') := Parser.enrich_with_ids [Samples.record_dict] Samples.bulk_conflict in
   (count, map (fun it => map_to_list (Parser.attrs it)) items'))
  = (1%nat, [[ ("campaign_id", "999"); ("campaign_name", "Camp A");
               ("ad_group_id", "333"); ("ad_group_name", "AG 1");
               ("portfolio_id", "8") ]]) /\
  (let (count, items') := Parser.enrich_with_ids [Samples.record_object] Samples.bulk_conflict in
   (count, map (fun it => map_to_list (Parser.attrs it)) items'))
  = (0%nat, [[ ("campaign_id", "999"); ("campaign_name", "Camp A");
               ("ad_group_name", "AG 1") ]]).
Proof. vm_compute. split; reflexivity. Qed.

Lemma informational_match_overwrites_witness :
  Parser.find_label "campaign name (informational only)"
    (columns Samples.bulk_conflict) = Ok (Some Samples.c_info) /\
  Parser.find_label "ad group name (informational only)"
    (columns Samples.bulk_conflict) = Ok (Some Samples.a_info) /\
  has_col Samples.bulk_conflict "Campaign ID" = true /\
  has_col Samples.bulk_conflict (Parser.ag_id_col_of Samples.bulk_conflict) = true /\
  exists maps ag,
    Parser.campaign_maps Samples.bulk_conflict = Ok maps /\
    Parser.build_agid_map Samples.bulk_conflict = Ok ag /\
    fst maps !! "camp a" = Some (Some "999") /\
    ag !! ("camp a", "ag 1") = Some (Some "333").
Proof.
  assert (H1 : Parser.find_label "campaign name (informational only)"
                 (columns Samples.bulk_conflict) = Ok (Some Samples.c_info))
    by (vm_compute; reflexivity).
  assert (H2 : Parser.find_label "ad group name (informational only)"
                 (columns Samples.bulk_conflict) = Ok (Some Samples.a_info))
    by (vm_compute; reflexivity).
  assert (H3 : has_col Samples.bulk_conflict "Campaign ID" = true)
    by (vm_compute; reflexivity).
  assert (H4 : has_col Samples.bulk_conflict
                 (Parser.ag_id_col_of Samples.bulk_conflict) = true)
    by (vm_compute; reflexivity).
  repeat (split; [assumption|]).
  destruct (informational_match_overwrites Samples.bulk_conflict
              Samples.c_info Samples.a_info H1 H2 H3 H4)
    as (maps & ag & Hm & Hg & Hcid & _ & Hag).
  exists maps, ag. repeat (split; [assumption|]). split.
  - destruct (Hcid "camp a") as [_ Hlast].
    apply (Hlast [] [PStr "camp a"; PStr "999"; PStr "8"] []);
      [vm_compute; reflexivity | vm_compute; reflexivity | constructor].
  - destruct (Hag ("camp a", "ag 1")) as [_ Hlast].
    apply (Hlast [] [PStr "camp a"; PStr "ag 1"; PStr "333"] []);
      [vm_compute; reflexivity | vm_compute; reflexivity | constructor].
Defined.

(** ** Rule engine *)

Section Monadic.

Context {A B : Type} (f : A -> result B).

Lemma mapM_Ok l l' : mapM f l = Ok l' <-> Forall2 (fun a b => f a = Ok b) l l'.
Proof.
  revert l'. induction l as [|a l IH]; intros l'; cbn.
  - split; [intros [= <-]; constructor | by inversion 1].
  - destruct (f a) as [b|e] eqn:Ea; cbn.
    + destruct (mapM f l) as [bs|e] eqn:El; cbn.
      * split.
        -- intros [= <-]. constructor; [done|]. by apply IH.
        -- inversion 1 as [|? b' ? bs' Hb Hbs]; subst.
           rewrite Ea in Hb. injection Hb as <-.
           apply IH in Hbs. by injection Hbs as <-.
      * split; [done|]. inversion 1 as [|? b' ? bs' Hb Hbs]; subst.
        by apply IH in Hbs.
    + split; [done|]. inversion 1 as [|? b' ? bs' Hb Hbs]; subst. congruence.
Qed.

Lemma mapM_total l :
  Forall (fun a => exists b, f a = Ok b) l -> exists l', mapM f l = Ok l'.
Proof.
  induction 1 as [|a l [b Hb] _ [bs Hbs]]; cbn; [by eexists|].
  rewrite Hb, Hbs. cbn. by eexists.
Qed.

End Monadic.

Lemma elem_of_iterrows df i r : (i, r) ∈ iterrows df <-> rows df !! i = Some r.
Proof.
  unfold iterrows. rewrite elem_of_lookup_imap. split.
  - intros (j & y & [= -> ->] & Hy). done.
  - intros Hr. by exists i, r.
Qed.

Section BleedingSpend.

Import PyStr PyFloat Schemas Optimization.

Variable df : DataFrame.
Variables (min_spend : Q) (min_clicks : Z).

Hypothesis required : has_all df ["Spend"; "Sales"; "Clicks"; "Match Type"] = true.
Hypothesis spend_finite : col_Forall is_finite df "Spend".
Hypothesis sales_finite : col_Forall is_finite df "Sales".
Hypothesis clicks_integer : col_Forall is_integer df "Clicks".
Hypothesis names_text :
  identifiers_are_text df
    ["Customer Search Term"; "Campaign Name"; "Ad Group Name"; "Match Type"]
    (PStr "Unknown").

Lemma has_all_columns names : has_all df names = true -> names <> [] -> columns df <> [].
Proof.
  destruct names as [|n names]; [done|]. cbn. intros Hn _ Hc.
  unfold has_col in Hn. rewrite Hc in Hn. done.
Qed.

Lemma bleeding_mask_iff row :
  row ∈ rows df ->
  bleeding_mask df row min_spend min_clicks = true <->
  exists sp cl, bleeds df min_spend min_clicks row sp cl.
Proof.
  intros Hrow.
  unfold col_Forall in *. rewrite Forall_forall in spend_finite, sales_finite, clicks_integer.
  destruct (spend_finite row Hrow) as [sp Hsp].
  destruct (sales_finite row Hrow) as [sa Hsa].
  destruct (clicks_integer row Hrow) as [cl Hcl].
  unfold bleeding_mask, bleeds, fge, of_Z.
  rewrite Hsp, Hsa, Hcl. cbn [as_float fle feq].
  rewrite !andb_true_iff, !Qle_bool_iff, <- Zle_Qle.
  assert (Hm : ne_str (cell df row "Match Type") "Exact" = true <->
               cell df row "Match Type" <> PStr "Exact").
  { destruct (cell df row "Match Type") as [|s|z|f]; cbn; try done.
    rewrite negb_true_iff. split.
    - intros E [= ->]. by rewrite String.eqb_refl in E.
    - intros Hne. apply String.eqb_neq. congruence. }
  assert (Ht : (if has_col df "Targeting"
                then negb (lower_startswith "b0" (cell df row "Targeting"))
                else true) = true <->
               (has_col df "Targeting" = true ->
                forall s, cell df row "Targeting" = PStr s ->
                          startswith "b0" (lower s) = false)).
  { destruct (has_col df "Targeting"); [|done].
    destruct (cell df row "Targeting") as [|s|z|f]; cbn; try done.
    rewrite negb_true_iff. split.
    - intros E _ s' [= <-]. done.
    - intros Hs. by apply Hs. }
  rewrite Hm, Ht. split.
  - intros ((((Ga & Gb) & Gc) & Gd) & Ge). exists sp, cl.
    repeat split; try done. exists sa. split; [done|]. by apply Qeq_bool_iff.
  - intros (sp' & cl' & [= <-] & [= <-] & Ga & (sa' & [= <-] & Gb) & Gc & Gd & Ge).
    repeat split; try done. by apply Qeq_bool_iff.
Qed.

Lemma bleeding_item_ok row idx sp cl :
  row ∈ rows df ->
  as_float (cell df row "Spend") = Fin sp ->
  cell df row "Clicks" = PInt cl ->
  exists it, bleeding_item df row idx = Ok it /\
    bs_id it = idx /\ bs_spend it = Fin sp /\ bs_clicks it = cl /\
    bs_severity_score it = Fin (sp * inject_Z cl) /\
    bs_action_type it = "Negative".
Proof.
  intros Hrow Hsp Hcl.
  unfold identifiers_are_text in names_text. rewrite Forall_forall in names_text.
  pose proof (names_text row Hrow) as Hn.
  destruct (Hn "Customer Search Term" ltac:(set_solver)) as [s1 H1].
  destruct (Hn "Campaign Name" ltac:(set_solver)) as [s2 H2].
  destruct (Hn "Ad Group Name" ltac:(set_solver)) as [s3 H3].
  destruct (Hn "Match Type" ltac:(set_solver)) as [s4 H4].
  unfold bleeding_item. rewrite Hcl, H1, H2, H3, H4. cbn [py_int bind str_field].
  assert (Hf : float_field (cell df row "Spend") = Ok (Fin sp)).
  { destruct (cell df row "Spend") as [|s|z|f]; cbn in *; congruence. }
  rewrite Hf, Hsp. cbn. eexists. split; [reflexivity|]. done.
Qed.


End BleedingSpend.

Section HighACOS.

Import PyStr PyFloat Schemas Optimization.

Variable df : DataFrame.
Variable target_acos : Q.

Hypothesis has_acos : has_col df "ACOS" = true.
Hypothesis has_spend : has_col df "Spend" = true.
Hypothesis names_text :
  identifiers_are_text df ["Customer Search Term"; "Campaign Name"] (PStr "Unknown").
Hypothesis targets_text :
  identifiers_are_text df ["Targeting"; "Match Type"] PNone.
Hypothesis sales_numeric :
  Forall (fun r => ~ is_text (cell_or df r "Sales" (PInt 0))) (rows df).

Lemma high_acos_mask_iff row :
  high_acos_mask df row target_acos = true <->
  fgt (as_float (cell df row "ACOS")) (Fin target_acos) = true /\
  fgt (as_float (cell df row "Spend")) (Fin 0) = true.
Proof. unfold high_acos_mask. by rewrite andb_true_iff. Qed.

Lemma cell_or_present row name dflt :
  has_col df name = true -> cell_or df row name dflt = cell df row name.
Proof.
  unfold has_col, cell_or, cell, row_get_default, row_get.
  by destruct (index_of (LStr name) (columns df)).
Qed.

Lemma float_field_number v x :
  fgt (as_float v) x = true -> float_field v = Ok (as_float v).
Proof. destruct v as [|s|z|f]; cbn; try done. by destruct x. Qed.

Lemma high_acos_item_ok row idx :
  row ∈ rows df ->
  high_acos_mask df row target_acos = true ->
  exists it, high_acos_item df row idx = Ok it /\
    ha_id it = idx /\
    let d := diagnose (avg_ctr df) (avg_cpc df) (avg_cvr df)
               (as_float (cell_or df row "CTR" (PInt 0)))
               (as_float (cell_or df row "CPC" (PInt 0)))
               (as_float (cell_or df row "Conversion Rate" (PInt 0))) in
    ha_root_cause it = root_cause d /\ ha_value it = value d /\
    ha_avg_value it = benchmark d /\ ha_action_type it = action d.
Proof.
  intros Hrow Hmask. apply high_acos_mask_iff in Hmask as [Hacos Hspend].
  unfold identifiers_are_text in *.
  rewrite Forall_forall in names_text, targets_text, sales_numeric.
  destruct (names_text row Hrow "Customer Search Term" ltac:(set_solver)) as [s1 E1].
  destruct (names_text row Hrow "Campaign Name" ltac:(set_solver)) as [s2 E2].
  destruct (targets_text row Hrow "Targeting" ltac:(set_solver)) as [s3 E3].
  destruct (targets_text row Hrow "Match Type" ltac:(set_solver)) as [s4 E4].
  unfold high_acos_item. rewrite E1, E2, E3, E4. cbn [str_field bind].
  rewrite !cell_or_present by done.
  rewrite (float_field_number _ _ Hacos), (float_field_number _ _ Hspend).
  cbn [bind].
  destruct (float_field (cell_or df row "Sales" (PInt 0))) as [sales|e] eqn:Es.
  - cbn [bind]. eexists. split; [reflexivity|]. done.
  - exfalso. apply (sales_numeric row Hrow).
    destruct (cell_or df row "Sales" (PInt 0)); try done. by eexists.
Qed.

Lemma flt_fin_true x y : flt (Fin x) (Fin y) = true <-> (x < y)%Q.
Proof.
  cbn. rewrite andb_true_iff, negb_true_iff, Qle_bool_iff. split.
  - intros [Hle Hne]. apply Qle_lteq in Hle as [Hlt|Heq]; [done|].
    apply Qeq_bool_iff in Heq. congruence.
  - intros Hlt. split; [by apply Qlt_le_weak|].
    destruct (Qeq_bool x y) eqn:E; [|done].
    apply Qeq_bool_iff in E. rewrite E in Hlt. by apply Qlt_irrefl in Hlt.
Qed.

Lemma flt_fin_false x y : flt (Fin x) (Fin y) = false <-> (y <= x)%Q.
Proof.
  split.
  - intros Hf. destruct (Qlt_le_dec x y) as [Hlt|Hle]; [|done].
    apply flt_fin_true in Hlt. congruence.
  - intros Hle. destruct (flt (Fin x) (Fin y)) eqn:E; [|done].
    apply flt_fin_true in E. by apply Qle_not_lt in Hle.
Qed.

Lemma ratio_or_zero_fin num den :
  ratio_or_zero (Fin num) (Fin den) = Fin (if Qlt_le_dec 0 den then num / den else 0).
Proof.
  unfold ratio_or_zero, fgt.
  destruct (Qlt_le_dec 0 den) as [Hlt|Hle].
  - rewrite (proj2 (flt_fin_true 0 den) Hlt). cbn.
    destruct (Qeq_bool den 0) eqn:E; [|done].
    apply Qeq_bool_iff in E. rewrite E in Hlt. by apply Qlt_irrefl in Hlt.
  - by rewrite (proj2 (flt_fin_false 0 den) Hle).
Qed.


End HighACOS.

(** *** Budget saturation *)

Section BudgetSaturation.

Import PyStr PyFloat Schemas Optimization.

Lemma saturation_item_spec bulk_df mr it :
  saturation_item bulk_df mr = Some it ->
  bu_campaign_name it = cm_name (fst mr) /\
  bu_daily_budget it = as_float (cell bulk_df (snd mr) "Daily Budget") /\
  bu_spend it = cm_spend (fst mr) /\
  bu_acos it = cm_acos (fst mr) /\
  bu_utilization it = Fin 0 /\
  bu_suggested_budget it = fmul (bu_daily_budget it) (Fin (12 # 10)) /\
  fle (bu_daily_budget it) (Fin 0) = false /\
  flt (bu_acos it) (Fin 30) = true.
Proof.
  unfold saturation_item.
  destruct (fle (as_float (cell bulk_df mr.2 "Daily Budget")) (Fin 0)) eqn:Eb; [done|].
  destruct (flt (cm_acos mr.1) (Fin 30)) eqn:Ea; [|done].
  intros [= <-]. cbn. done.
Qed.

Lemma elem_of_merge_inner metrics bulk_df m r :
  (m, r) ∈ merge_inner metrics bulk_df <->
  m ∈ metrics /\ r ∈ rows bulk_df /\
  eq_str (cell bulk_df r "Campaign Name") (cm_name m) = true.
Proof.
  unfold merge_inner. rewrite list_elem_of_In, in_flat_map. split.
  - intros (m' & Hm' & Hin). apply list_elem_of_In in Hm', Hin.
    apply list_elem_of_fmap in Hin as (r' & [= <- <-] & Hr').
    apply list_elem_of_filter in Hr' as [Hk Hr']. by apply Is_true_true in Hk.
  - intros (Hm & Hr & Hk). exists m. split; [by apply list_elem_of_In|].
    apply list_elem_of_In, list_elem_of_fmap. exists r. split; [done|].
    apply list_elem_of_filter. split; [by apply Is_true_true|done].
Qed.

(** What [analyze_budget_saturation] emits.  Every item reports the
    utilization 0.0, carries 1.2 x its daily budget as suggested budget,
    has an ACOS below 30 that is the aggregated ACOS of its campaign, and
    comes from a bulk row of that campaign whose daily budget is not <= 0;
    the list is in ascending order of ACOS.  A budget that is a number is
    then > 0; a missing budget (NaN) is not <= 0 either. *)
Lemma budget_saturation_items str_df bulk_df items :
  analyze_budget_saturation str_df bulk_df = Ok items ->
  Forall (fun it =>
            bu_utilization it = Fin 0 /\
            bu_suggested_budget it = fmul (bu_daily_budget it) (Fin (12 # 10)) /\
            flt (bu_acos it) (Fin 30) = true /\
            bu_acos it = cm_acos (campaign_metrics_of str_df (bu_campaign_name it)) /\
            fle (bu_daily_budget it) (Fin 0) = false /\
            (is_nan (bu_daily_budget it) = false -> fgt (bu_daily_budget it) (Fin 0) = true) /\
            exists row, row ∈ rows bulk_df /\
              cell bulk_df row "Campaign Name" = PStr (bu_campaign_name it) /\
              bu_daily_budget it = as_float (cell bulk_df row "Daily Budget"))
         items /\
  StronglySorted (fun u v => fle (bu_acos u) (bu_acos v) = true) items.
Proof.
  unfold analyze_budget_saturation.
  destruct (_ || _); [intros [= <-]; split; constructor|].
  destruct (negb _); [intros [= <-]; split; constructor|].
  destruct (group_keys _) as [keys|e] eqn:Ek; [|done]. cbn [bind].
  destruct (negb (has_col bulk_df "Daily Budget")); [intros [= <-]; split; constructor|].
  destruct (negb (has_col bulk_df "Campaign Name")); [done|].
  set (merged := merge_inner _ bulk_df).
  destruct merged as [|mr0 merged'] eqn:Em; [intros [= <-]; split; constructor|].
  destruct (_ || _); [done|]. rewrite <- Em. clear Em mr0 merged'.
  intros [= <-].
  assert (Hitems : forall it, it ∈ omap (saturation_item bulk_df) merged ->
            exists mr, mr ∈ merged /\ saturation_item bulk_df mr = Some it).
  { intros it Hit. by apply list_elem_of_omap in Hit. }
  split.
  - apply Forall_forall. intros it Hit.
    rewrite <- (sorted_asc_perm bu_acos) in Hit.
    destruct (Hitems it Hit) as ([m r] & Hmr & Hs).
    apply saturation_item_spec in Hs as (Hn & Hb & _ & Ha & Hu & Hsug & Hle & Hlt).
    apply elem_of_merge_inner in Hmr as (Hm & Hr & Hk).
    cbn [fst snd] in *.
    apply list_elem_of_fmap in Hm as (key & -> & _). cbn [cm_name cm_acos] in *.
    repeat split; try done.
    + rewrite Ha, Hn. reflexivity.
    + intros Hnan. unfold fgt. destruct (bu_daily_budget it) as [q|[]|]; try done.
      cbn in Hle |- *. destruct (Qle_bool q 0) eqn:E; [done|].
      destruct (Qlt_le_dec 0 q) as [Hq|Hq].
      * apply flt_fin_true in Hq. exact Hq.
      * apply Qle_bool_iff in Hq. congruence.
    + exists r. split; [done|]. split; [|done].
      rewrite Hn. destruct (cell bulk_df r "Campaign Name") as [|s|z|f]; try done.
      cbn in Hk. apply String.eqb_eq in Hk. by subst.
  - apply sorted_asc_sorted. apply Forall_forall. intros it Hit.
    destruct (Hitems it Hit) as (mr & _ & Hs).
    apply saturation_item_spec in Hs as (_ & _ & _ & _ & _ & _ & _ & Hlt).
    by eapply flt_not_nan_l.
Qed.

End BudgetSaturation.

(** *** Health score *)

Section HealthScore.

Import PyStr PyFloat Schemas Optimization HealthFormula.

Lemma is_finite_not_na v : is_finite v -> isna v = false.
Proof. intros [q Hq]. by destruct v as [|s|z|[x|b|]]. Qed.

Lemma series_sum_from acc l :
  Forall is_finite l ->
  fold_left (fun a v => if isna v then a else fadd a (as_float v)) l (Fin acc)
  = Fin (fold_left Qplus (map cell_Q l) acc).
Proof.
  intros Hl. revert acc. induction Hl as [|v l Hv _ IH]; intros acc; cbn; [done|].
  rewrite (is_finite_not_na v Hv). destruct Hv as [q Hq].
  unfold cell_Q. rewrite Hq. cbn. apply IH.
Qed.

Lemma series_sum_finite l :
  Forall is_finite l -> series_sum l = Fin (Qsum (map cell_Q l)).
Proof. apply series_sum_from. Qed.

(** A sum that is a finite number has only finite numbers and missing
    values under it, and so have the sums over a part of the rows. *)
Lemma fadd_fin_inv a b q : fadd a b = Fin q -> exists x y, a = Fin x /\ b = Fin y.
Proof. destruct a as [x|[]|], b as [y|[]|]; cbn; try done. eauto. Qed.

Lemma series_sum_fin_inv_from l a q :
  fold_left (fun a v => if isna v then a else fadd a (as_float v)) l a = Fin q ->
  (exists x, a = Fin x) /\ Forall (fun v => isna v = true \/ is_finite v) l.
Proof.
  revert a. induction l as [|v l IH]; intros a; cbn.
  - intros ->. eauto.
  - intros Hs. apply IH in Hs as [[x Hx] Hl].
    destruct (isna v) eqn:Ev.
    + split; [eauto|]. constructor; [by left|done].
    + apply fadd_fin_inv in Hx as (xa & y & -> & Hy).
      split; [eauto|]. constructor; [|done]. right. by exists y.
Qed.

Lemma series_sum_fin_from l a :
  Forall (fun v => isna v = true \/ is_finite v) l ->
  exists q, fold_left (fun a v => if isna v then a else fadd a (as_float v)) l (Fin a) = Fin q.
Proof.
  intros Hl. revert a. induction Hl as [|v l Hv _ IH]; intros a; cbn; [eauto|].
  destruct Hv as [->|[y Hy]]; [apply IH|].
  destruct (isna v); [apply IH|]. rewrite Hy. cbn. apply IH.
Qed.

Lemma sum_where_finite df mask name q :
  series_sum (column df name) = Fin q ->
  exists w, sum_where df mask name = Fin w.
Proof.
  intros Hs. apply series_sum_fin_inv_from in Hs as [_ Hl].
  unfold sum_where, series_sum. apply series_sum_fin_from.
  unfold column in Hl. rewrite Forall_forall in Hl. apply Forall_forall.
  intros v Hv. apply Hl.
  apply list_elem_of_fmap in Hv as (r & -> & Hr).
  apply list_elem_of_filter in Hr as [_ Hr].
  apply list_elem_of_fmap. by exists r.
Qed.

Lemma py_max_Qmax y : py_max (Fin 0) (Fin y) = Fin (Qmax 0 y).
Proof.
  unfold py_max, fgt, Qmax, GenericMinMax.gmax.
  destruct (flt (Fin 0) (Fin y)) eqn:E.
  - apply flt_fin_true in E.
    destruct (Qcompare_spec 0 y) as [Heq|Hlt|Hgt]; [|done|]; exfalso; lra.
  - apply flt_fin_false in E.
    destruct (Qcompare_spec 0 y) as [Heq|Hlt|Hgt]; [done| |done]. exfalso; lra.
Qed.

Lemma py_min_Qmin y : py_min (Fin 100) (Fin y) = Fin (Qmin 100 y).
Proof.
  unfold py_min, Qmin, GenericMinMax.gmin.
  destruct (flt (Fin y) (Fin 100)) eqn:E.
  - apply flt_fin_true in E.
    destruct (Qcompare_spec 100 y) as [Heq|Hlt|Hgt]; [| |done]; exfalso; lra.
  - apply flt_fin_false in E.
    destruct (Qcompare_spec 100 y) as [Heq|Hlt|Hgt]; [done|done|]. exfalso; lra.
Qed.

Lemma filter_ext_in {A} (f g : A -> bool) (l : list A) :
  (forall x, x ∈ l -> f x = g x) -> filter f l = filter g l.
Proof.
  induction l as [|x l IH]; intros Hfg; [done|].
  rewrite !filter_cons. rewrite (Hfg x) by left.
  rewrite IH; [done|]. intros y Hy. apply Hfg. by right.
Qed.

Section Formula.

Variable df : DataFrame.
Hypothesis required : has_all df ["Spend"; "Sales"; "Match Type"] = true.
Hypothesis not_empty : rows df <> [].
Hypothesis spend_finite : col_Forall is_finite df "Spend".
Hypothesis sales_finite : col_Forall is_finite df "Sales".

Lemma df_not_empty : df_empty df = false.
Proof.
  unfold df_empty. pose proof (has_all_columns df _ required ltac:(done)) as Hc.
  destruct (columns df); [done|]. by destruct (rows df).
Qed.

Lemma sum_where_Q (mask : list pyval -> bool) :
  sum_where df mask "Spend" = Fin (Qsum (map (spend df) (filter mask (rows df)))).
Proof.
  unfold sum_where. rewrite series_sum_finite.
  - by rewrite <- list_fmap_compose.
  - unfold col_Forall in spend_finite. rewrite Forall_forall in spend_finite.
    apply Forall_forall. intros v Hv.
    apply list_elem_of_fmap in Hv as (r & -> & Hr).
    apply list_elem_of_filter in Hr as [_ Hr]. by apply spend_finite.
Qed.

Lemma column_sum_Q name :
  col_Forall is_finite df name ->
  series_sum (column df name) = Fin (Qsum (map (fun r => cell_Q (cell df r name)) (rows df))).
Proof.
  intros Hf. unfold column. rewrite series_sum_finite.
  - by rewrite <- list_fmap_compose.
  - unfold col_Forall in Hf. by apply Forall_fmap.
Qed.

Lemma health_score_value :
  calculate_health_score df
  = Ok (mkHealthScore
          (Parser.Qtrunc (weighted df))
          (Parser.Qtrunc (efficiency df)) (Parser.Qtrunc (acos_score df))
          (Parser.Qtrunc (exact_score df))
          [ ("wasted_spend", Fin (wasted_spend df));
            ("waste_ratio", Fin (ratio (wasted_spend df) (total_spend df)));
            ("overall_acos", Fin (overall_acos df)) ]).
Proof.
  unfold calculate_health_score. rewrite df_not_empty, required. cbn [negb].
  rewrite !sum_where_Q, !(column_sum_Q _ spend_finite), !(column_sum_Q _ sales_finite).
  change (Qsum (map (fun r => cell_Q (cell df r "Spend")) (rows df))) with (total_spend df).
  change (Qsum (map (fun r => cell_Q (cell df r "Sales")) (rows df))) with (total_sales df).
  assert (Hmask : filter (fun r => feq (as_float (cell df r "Sales")) (Fin 0)) (rows df)
                  = filter (fun r => Qeq_bool (sales df r) 0) (rows df)).
  { apply filter_ext_in. intros r Hr.
    unfold col_Forall in sales_finite. rewrite Forall_forall in sales_finite.
    destruct (sales_finite r Hr) as [q Hq]. unfold sales, cell_Q. by rewrite Hq. }
  rewrite Hmask.
  change (Qsum (map (spend df) (filter (fun r => Qeq_bool (sales df r) 0) (rows df))))
    with (wasted_spend df).
  change (Qsum (map (spend df)
                  (filter (fun r => eq_str (cell df r "Match Type") "Exact") (rows df))))
    with (exact_spend df).
  rewrite !ratio_or_zero_fin.
  change (if Qlt_le_dec 0 (total_spend df)
          then (wasted_spend df / total_spend df)%Q else 0%Q)
    with (ratio (wasted_spend df) (total_spend df)).
  change (if Qlt_le_dec 0 (total_spend df)
          then (exact_spend df / total_spend df)%Q else 0%Q)
    with (ratio (exact_spend df) (total_spend df)).
  cbn [fmul fsub fadd fopp]. rewrite py_max_Qmax, py_min_Qmin.
  assert (Hacos : (if fgt (Fin (total_sales df)) (Fin 0)
                   then fmul (fdiv (Fin (total_spend df)) (Fin (total_sales df))) (Fin 100)
                   else Fin 100) = Fin (overall_acos df)).
  { unfold overall_acos, fgt. destruct (Qlt_le_dec 0 (total_sales df)) as [Hlt|Hle].
    - rewrite (proj2 (flt_fin_true 0 (total_sales df)) Hlt). cbn.
      destruct (Qeq_bool (total_sales df) 0) eqn:E; [|done].
      apply Qeq_bool_iff in E. rewrite E in Hlt. by apply Qlt_irrefl in Hlt.
    - by rewrite (proj2 (flt_fin_false 0 (total_sales df)) Hle). }
  rewrite Hacos. cbn [fmul fsub fadd fopp]. rewrite py_max_Qmax.
  reflexivity.
Qed.


End Formula.

(** *** Bounds *)

Lemma fold_Qplus_nonneg {A} (f : A -> Q) l a :
  (0 <= a)%Q -> (forall x, x ∈ l -> (0 <= f x)%Q) ->
  (0 <= fold_left Qplus (map f l) a)%Q.
Proof.
  revert a. induction l as [|x l IH]; intros a Ha Hl; cbn; [done|].
  apply IH.
  - pose proof (Hl x ltac:(left)). lra.
  - intros y Hy. apply Hl. by right.
Qed.

Lemma fold_Qplus_filter_le {A} (f : A -> Q) (keep : A -> bool) l a b :
  (a <= b)%Q -> (forall x, x ∈ l -> (0 <= f x)%Q) ->
  (fold_left Qplus (map f (filter keep l)) a <= fold_left Qplus (map f l) b)%Q.
Proof.
  revert a b. induction l as [|x l IH]; intros a b Hab Hl; [done|].
  pose proof (Hl x ltac:(left)) as Hx.
  assert (Hl' : forall y, y ∈ l -> (0 <= f y)%Q) by (intros y Hy; apply Hl; by right).
  rewrite filter_cons. destruct (decide (keep x)); cbn; apply IH; try done; lra.
Qed.

Lemma ratio_bounds a b :
  (0 <= a)%Q -> (a <= b)%Q -> (0 <= ratio a b)%Q /\ (ratio a b <= 1)%Q.
Proof.
  intros Ha Hab. unfold ratio. destruct (Qlt_le_dec 0 b) as [Hb|Hb]; [|lra].
  split.
  - apply Qle_shift_div_l; lra.
  - apply Qle_shift_div_r; lra.
Qed.

Lemma ratio_nonneg a b : (0 <= a)%Q -> (0 <= ratio a b)%Q.
Proof.
  intros Ha. unfold ratio. destruct (Qlt_le_dec 0 b) as [Hb|Hb]; [|lra].
  apply Qle_shift_div_l; lra.
Qed.

Lemma Qtrunc_bounds q : (0 <= q)%Q -> (q <= 100)%Q ->
  (0 <= Parser.Qtrunc q <= 100)%Z.
Proof.
  intros H0 H100.
  assert (Hq : Parser.Qtrunc q = Qfloor q).
  { unfold Parser.Qtrunc. destruct q as [n d]. cbn.
    apply Z.quot_div_nonneg; [|done].
    unfold Qle in H0. cbn in H0. lia. }
  rewrite Hq. split.
  - change 0%Z with (Qfloor 0). by apply Qfloor_resp_le.
  - change 100%Z with (Qfloor 100). by apply Qfloor_resp_le.
Qed.

Section Bounds.

Variable df : DataFrame.
Hypothesis spend_nonneg : col_Forall is_nonneg df "Spend".
Hypothesis sales_nonneg : col_Forall is_nonneg df "Sales".

Lemma nonneg_finite name : col_Forall is_nonneg df name -> col_Forall is_finite df name.
Proof.
  unfold col_Forall. intros Hn. eapply Forall_impl; [exact Hn|].
  intros r (q & Hq & _). by exists q.
Qed.

Lemma spend_nonneg_Q r : r ∈ rows df -> (0 <= spend df r)%Q.
Proof.
  intros Hr. unfold col_Forall in spend_nonneg. rewrite Forall_forall in spend_nonneg.
  destruct (spend_nonneg r Hr) as (q & Hq & H0). unfold spend, cell_Q. by rewrite Hq.
Qed.

Lemma sales_nonneg_Q r : r ∈ rows df -> (0 <= sales df r)%Q.
Proof.
  intros Hr. unfold col_Forall in sales_nonneg. rewrite Forall_forall in sales_nonneg.
  destruct (sales_nonneg r Hr) as (q & Hq & H0). unfold sales, cell_Q. by rewrite Hq.
Qed.

Lemma efficiency_bounds : (0 <= efficiency df)%Q /\ (efficiency df <= 100)%Q.
Proof.
  unfold efficiency.
  destruct (ratio_bounds (wasted_spend df) (total_spend df)) as [Hr0 Hr1].
  - apply fold_Qplus_nonneg; [done|]. intros r Hr. apply spend_nonneg_Q.
    by apply list_elem_of_filter in Hr as [_ Hr].
  - apply fold_Qplus_filter_le; [done|]. apply spend_nonneg_Q.
  - destruct (Q.max_spec 0 (100 - ratio (wasted_spend df) (total_spend df) * 100))
      as [[? ->]|[? ->]]; lra.
Qed.

Lemma exact_score_bounds : (0 <= exact_score df)%Q /\ (exact_score df <= 100)%Q.
Proof.
  unfold exact_score.
  pose proof (ratio_nonneg (exact_spend df) (total_spend df)) as Hr0.
  assert (H0 : (0 <= exact_spend df)%Q).
  { apply fold_Qplus_nonneg; [done|]. intros r Hr. apply spend_nonneg_Q.
    by apply list_elem_of_filter in Hr as [_ Hr]. }
  specialize (Hr0 H0).
  destruct (Q.min_spec 100 (ratio (exact_spend df) (total_spend df) * 100 * (15 # 10)))
    as [[? ->]|[? ->]]; lra.
Qed.

Lemma acos_score_bounds : (0 <= acos_score df)%Q /\ (acos_score df <= 100)%Q.
Proof.
  unfold acos_score.
  assert (H0 : (0 <= overall_acos df)%Q).
  { unfold overall_acos. destruct (Qlt_le_dec 0 (total_sales df)) as [Hs|Hs]; [|lra].
    assert (Ht : (0 <= total_spend df)%Q)
      by (apply fold_Qplus_nonneg; [done|]; apply spend_nonneg_Q).
    assert (Hd : (0 <= total_spend df / total_sales df)%Q)
      by (apply Qle_shift_div_l; lra).
    lra. }
  destruct (Q.max_spec 0 (100 - overall_acos df)) as [[? ->]|[? ->]]; lra.
Qed.


End Bounds.

End HealthScore.

Section ZeroSales.

Import PyStr PyFloat Schemas Optimization.

Lemma ratio_fin_or_nan w t :
  (forall y, t = Fin y -> exists q, w = Fin q) ->
  (exists q, ratio_or_zero w t = Fin q) \/ ratio_or_zero w t = NaN.
Proof.
  intros Hw. unfold ratio_or_zero, fgt.
  destruct t as [y|[]|].
  - destruct (Hw y eq_refl) as [x ->].
    destruct (flt (Fin 0) (Fin y)) eqn:E; [|left; eauto].
    apply flt_fin_true in E. cbn.
    destruct (Qeq_bool y 0) eqn:E0; [|left; eauto].
    apply Qeq_bool_iff in E0. rewrite E0 in E. by apply Qlt_irrefl in E.
  - cbn. left. eauto.
  - cbn. destruct w as [x|[]|]; cbn; eauto.
  - cbn. left. eauto.
Qed.

Lemma efficiency_score_finite r :
  (exists q, r = Fin q) \/ r = NaN ->
  exists e, py_max (Fin 0) (fsub (Fin 100) (fmul r (Fin 100))) = Fin e.
Proof.
  intros [[q ->]| ->].
  - cbn [fmul fsub fadd fopp]. rewrite py_max_Qmax. eauto.
  - cbn. eauto.
Qed.

Lemma exact_score_finite r :
  (exists q, r = Fin q) \/ r = NaN ->
  exists x, py_min (Fin 100) (fmul (fmul r (Fin 100)) (Fin (15 # 10))) = Fin x.
Proof.
  intros [[q ->]| ->].
  - cbn [fmul]. rewrite py_min_Qmin. eauto.
  - cbn. eauto.
Qed.

(** C10.  On a dataset with at least one row that has the Spend, Sales and
    Match Type columns and whose sales add up to zero, the overall ACOS is
    100 (not 0, as a zero denominator gives elsewhere): the score is
    returned with ACOS sub-score max(0, 100 - 100) = 0 and
    details["overall_acos"] = 100. *)
Theorem zero_sales_overall_acos_is_100 (df : DataFrame) :
  has_all df ["Spend"; "Sales"; "Match Type"] = true ->
  df_empty df = false ->
  feq (series_sum (column df "Sales")) (Fin 0) = true ->
  exists hs,
    calculate_health_score df = Ok hs /\
    acos_stability_score hs = 0%Z /\
    Parser.dict_get "overall_acos" (details hs) = Some (Fin 100).
Proof.
  intros Hreq Hempty Hzero.
  unfold calculate_health_score. rewrite Hempty, Hreq. cbn [negb].
  assert (Hgt : fgt (series_sum (column df "Sales")) (Fin 0) = false).
  { destruct (series_sum (column df "Sales")) as [q|b|]; cbn in Hzero; try done.
    apply flt_fin_false. apply Qeq_bool_iff in Hzero. rewrite Hzero. apply Qle_refl. }
  rewrite Hgt.
  change (py_max (Fin 0) (fsub (Fin 100) (Fin 100))) with (Fin 0).
  set (total_spend := series_sum (column df "Spend")).
  assert (Hw := ratio_fin_or_nan
              (sum_where df (fun r => feq (as_float (cell df r "Sales")) (Fin 0)) "Spend")
              total_spend
              (fun y Hy => sum_where_finite df _ "Spend" y Hy)).
  assert (Hx := ratio_fin_or_nan
              (sum_where df (fun r => eq_str (cell df r "Match Type") "Exact") "Spend")
              total_spend
              (fun y Hy => sum_where_finite df _ "Spend" y Hy)).
  destruct (efficiency_score_finite _ Hw) as [e ->].
  destruct (exact_score_finite _ Hx) as [x ->].
  cbn. eexists. split; [reflexivity|]. done.
Qed.

End ZeroSales.

(** ** Bulk-file row builders *)

Section Negatives.

Import PyStr NegativeGenerator.

Lemma append_no_occurrence ch a b :
  (forall n, String.get n a <> Some ch) ->
  (forall n, String.get n b <> Some ch) ->
  forall n, String.get n (a ++ b) <> Some ch.
Proof.
  induction a as [|c a IH]; intros Ha Hb n; cbn; [apply Hb|].
  destruct n as [|n].
  - apply (Ha 0%nat).
  - apply IH; [|done]. intros m. apply (Ha (S m)).
Qed.

Lemma replace_char_no_occurrence ch by_ s :
  (forall n, String.get n by_ <> Some ch) ->
  forall n, String.get n (replace_char ch by_ s) <> Some ch.
Proof.
  intros Hby. induction s as [|c s IH]; intros n; cbn [replace_char]; [by destruct n|].
  destruct (ascii_dec c ch) as [->|Hne].
  - by apply append_no_occurrence.
  - destruct n as [|n]; cbn; [congruence|apply IH].
Qed.

Lemma rstrip_by_head p c s :
  p c = false -> exists r, rstrip_by p (String c s) = String c r.
Proof. intros Hc. cbn. rewrite Hc. destruct (rstrip_by p s); eauto. Qed.

Lemma lstrip_by_head p s c r : lstrip_by p s = String c r -> p c = false.
Proof.
  induction s as [|c' s IH]; cbn; [done|].
  destruct (p c') eqn:E; [done|]. by intros [= <- <-].
Qed.

Lemma strip_char_not_startswith ch s :
  startswith (String ch "") (strip_char ch s) = false.
Proof.
  unfold strip_char, strip_by, startswith.
  set (p := fun c => if ascii_dec c ch then true else false).
  destruct (lstrip_by p s) as [|c r] eqn:E; [done|].
  apply lstrip_by_head in E.
  destruct (rstrip_by_head p c r E) as [r' ->]. cbn.
  destruct (ascii_dec ch c) as [->|]; [|done].
  unfold p in E. by destruct (ascii_dec c c).
Qed.

Lemma rstrip_char_not_endswith ch s :
  endswith (String ch "") (rstrip_by (fun c => if ascii_dec c ch then true else false) s) = false.
Proof.
  induction s as [|c s IH]; [done|]. cbn [rstrip_by].
  destruct (rstrip_by _ s) as [|c' r] eqn:E.
  - destruct (ascii_dec c ch) as [->|Hne]; [done|]. cbn.
    destruct (Ascii.eqb_spec ch c) as [->|]; done.
  - cbn [endswith] in *. rewrite IH, orb_false_r. cbn.
    by destruct (Ascii.eqb ch c).
Qed.

Lemma strip_char_not_endswith ch s :
  endswith (String ch "") (strip_char ch s) = false.
Proof. apply rstrip_char_not_endswith. Qed.

Lemma negative_row_spec match_type item term name :
  get item "customer_search_term" (PStr "") = PStr term ->
  get item "campaign_name" (PStr "") = PStr name ->
  exists row,
    negative_row match_type item = Ok row /\
    row !! "Campaign Name" = Some (PStr (strip_char dquote (strip_char "'" name))) /\
    if truthy (get item "is_asin" (PInt 0))
    then row !! "Entity" = Some (PStr "Negative Product Targeting") /\
         row !! "Product Targeting Expression"
         = Some (PStr ("asin=" ++ String dquote
                         (upper (replace_char "/" " " term) ++ String dquote "")))
    else row !! "Entity" = Some (PStr "Negative Keyword") /\
         row !! "Keyword Text" = Some (PStr (replace_char "/" " " term)) /\
         row !! "Match Type" = Some (PStr match_type).
Proof.
  intros Hterm Hname. unfold negative_row. rewrite Hterm, Hname.
  cbn [str_method bind]. unfold set_if.
  destruct (truthy (get item "is_asin" (PInt 0))); eexists; (split; [reflexivity|]);
    repeat split;
    repeat (rewrite lookup_insert_eq || rewrite lookup_insert_ne by done);
    try reflexivity.
Qed.


End Negatives.

(** ** Cleaning of a search-term report *)

Section Cleaning.

Import PyStr Parser.
Context `{PyBuiltins}.

Lemma label_eqb_eq a b : label_eqb a b = true -> a = b.
Proof.
  destruct a as [s|x], b as [t|y]; cbn; try done.
  - intros E. apply String.eqb_eq in E. by subst.
  - intros E. apply Z.eqb_eq in E. by subst.
Qed.

Lemma index_of_lookup l cols i : index_of l cols = Some i -> cols !! i = Some l.
Proof.
  revert i. induction cols as [|c cols IH]; intros i; cbn; [done|].
  destruct (label_eqb c l) eqn:E.
  - intros [= <-]. apply label_eqb_eq in E. by subst.
  - destruct (index_of l cols) as [j|]; cbn; [|done].
    intros [= <-]. by apply IH.
Qed.

Lemma index_of_inj a b cols i :
  index_of a cols = Some i -> index_of b cols = Some i -> a = b.
Proof.
  intros Ha Hb. apply index_of_lookup in Ha, Hb. congruence.
Qed.

Lemma update_nth_spec i f (r r' : list pyval) :
  update_nth i f r = Ok r' ->
  length r' = length r /\
  (forall k, k <> i -> r' !! k = r !! k) /\
  (forall v, r !! i = Some v -> exists v', f v = Ok v' /\ r' !! i = Some v').
Proof.
  unfold update_nth. destruct (r !! i) as [a|] eqn:Ea.
  - destruct (f a) as [b|e] eqn:Eb; cbn; [|done]. intros [= <-].
    split; [by rewrite length_insert|]. split.
    + intros k Hk. by rewrite list_lookup_insert_ne.
    + intros v [= <-]. exists b. split; [done|].
      apply list_lookup_insert_eq. by eapply lookup_lt_Some.
  - intros [= <-]. repeat split; done.
Qed.

Lemma apply_col_cells name f df df' :
  apply_col name f df = Ok df' ->
  columns df' = columns df /\
  Forall2 (cellwise (fun i v =>
             if decide (index_of (LStr name) (columns df) = Some i) then f v else Ok v))
          (rows df) (rows df').
Proof.
  unfold apply_col. destruct (index_of (LStr name) (columns df)) as [j|] eqn:Ej.
  - destruct (mapM (update_nth j f) (rows df)) as [rows'|e] eqn:Em; cbn; [|done].
    intros [= <-]. split; [done|]. cbn. apply mapM_Ok in Em.
    eapply Forall2_impl; [exact Em|]. intros r r' Hr.
    apply update_nth_spec in Hr as (Hlen & Hne & Heq). split; [done|].
    intros i v Hv. destruct (decide (Some j = Some i)) as [[= <-]|Hji].
    + destruct (Heq v Hv) as (v' & Hf & Hv'). eauto.
    + exists v. split; [|done]. rewrite Hne; [done|]. congruence.
  - intros [= <-]. split; [done|].
    apply Forall2_same_length_lookup_2; [done|]. intros i r r' Hr Hr'.
    assert (r' = r) as -> by congruence. split; [done|].
    intros k v Hv. exists v. split; [done|]. by destruct (decide _).
Qed.

Lemma run_steps_cells steps df df' :
  run_steps steps df = Ok df' ->
  columns df' = columns df /\
  Forall2 (cellwise (fun i v => cell_steps (columns df) i steps v)) (rows df) (rows df').
Proof.
  revert df. induction steps as [|[n f] steps IH]; intros df; cbn [run_steps].
  - intros [= <-]. split; [done|].
    apply Forall2_same_length_lookup_2; [done|]. intros i r r' Hr Hr'.
    assert (r' = r) as -> by congruence. split; [done|]. intros k v Hv. eauto.
  - destruct (apply_col n f df) as [d|e] eqn:Ea; cbn [bind]; [|done].
    intros Hrun. apply apply_col_cells in Ea as [Hc Hrows].
    apply IH in Hrun as [Hc' Hrows']. split; [congruence|].
    rewrite Hc in Hrows'.
    apply Forall2_same_length_lookup_2.
    { etransitivity; by eapply Forall2_length. }
    intros j r r'' Hr Hr''.
    destruct (Forall2_lookup_l _ _ _ _ _ Hrows Hr) as (r' & Hr' & Hlen1 & H1).
    pose proof (Forall2_lookup_lr _ _ _ _ _ _ Hrows' Hr' Hr'') as [Hlen2 H2].
    split; [congruence|]. intros i v Hv.
    destruct (H1 i v Hv) as (v1 & Hv1 & Hf).
    destruct (H2 i v1 Hv1) as (v2 & Hv2 & Hs).
    exists v2. split; [done|]. cbn [cell_steps].
    destruct (decide _); [by rewrite Hf|]. by injection Hf as <-.
Qed.

Lemma cell_steps_column cols i name steps v :
  index_of (LStr name) cols = Some i ->
  cell_steps cols i steps v = column_steps name steps v.
Proof.
  intros Hi. revert v. induction steps as [|[n f] steps IH]; intros v; cbn; [done|].
  destruct (decide (index_of (LStr n) cols = Some i)) as [Hn|Hn].
  - assert (n = name) as -> by (pose proof (index_of_inj _ _ _ _ Hn Hi); congruence).
    rewrite String.eqb_refl. destruct (f v); cbn; [apply IH|done].
  - destruct (String.eqb_spec n name) as [->|_]; [done|]. apply IH.
Qed.

Lemma cell_steps_untouched cols i steps v :
  Forall (fun s => index_of (LStr (fst s)) cols <> Some i) steps ->
  cell_steps cols i steps v = Ok v.
Proof.
  induction 1 as [|[n f] steps Hn _ IH]; cbn; [done|].
  by destruct (decide _).
Qed.

Lemma process_as_steps raw :
  process_search_term_report raw =
  try! df := normalize_columns raw in
  try! ad_group_col := find_label "ad group" (columns df) in
  run_steps cleaning_steps (rename_ad_group df ad_group_col).
Proof.
  unfold process_search_term_report.
  destruct (normalize_columns raw) as [df|e]; cbn [bind]; [|done].
  destruct (find_label "ad group" (columns df)) as [ad|e]; cbn [bind]; [|done].
  generalize (rename_ad_group df ad). intros d.
  unfold cleaning_steps. cbn [run_steps fold_left bind].
  repeat match goal with
         | |- context [apply_col ?n ?f ?d] =>
             destruct (apply_col n f d) as [?|?]; cbn [bind]; [|reflexivity]
         end.
  reflexivity.
Qed.

Lemma normalize_columns_rows raw df : normalize_columns raw = Ok df -> rows df = rows raw.
Proof.
  unfold normalize_columns. destruct (mapM _ _); cbn; [|done]. by intros [= <-].
Qed.

Lemma rename_ad_group_rows df ad : rows (rename_ad_group df ad) = rows df.
Proof.
  unfold rename_ad_group. destruct ad as [c|]; [|done]. by destruct (_ && _).
Qed.

Lemma column_steps_other name steps v :
  Forall (fun s => fst s <> name) steps -> column_steps name steps v = Ok v.
Proof.
  induction 1 as [|[n f] steps Hn _ IH]; cbn; [done|].
  cbn in Hn. by destruct (String.eqb_spec n name).
Qed.

Lemma cleaner_count name v :
  name ∈ count_columns ->
  cleaner name v = try! n := clean_integer v in Ok (fillna0 n).
Proof.
  unfold count_columns. intros Hn.
  repeat (apply elem_of_cons in Hn as [->|Hn];
          [unfold cleaner; cbn; by destruct (clean_integer v)|]).
  by apply elem_of_nil in Hn.
Qed.

Lemma cleaner_currency name v :
  name ∈ ["Spend"; "Sales"] -> cleaner name v = Ok (fillna0 (clean_currency v)).
Proof.
  intros Hn.
  repeat (apply elem_of_cons in Hn as [->|Hn]; [reflexivity|]).
  by apply elem_of_nil in Hn.
Qed.

Lemma cleaner_percentage name v :
  name ∈ percentage_columns -> cleaner name v = Ok (clean_percentage v).
Proof.
  unfold percentage_columns. intros Hn.
  repeat (apply elem_of_cons in Hn as [->|Hn]; [reflexivity|]).
  by apply elem_of_nil in Hn.
Qed.

Lemma cleaner_other name v : name ∉ cleaned_columns -> cleaner name v = Ok v.
Proof.
  intros Hn. apply column_steps_other. unfold cleaning_steps.
  repeat (constructor; [cbn; intros <-; apply Hn; unfold cleaned_columns,
                          count_columns, percentage_columns; set_solver|]).
  constructor.
Qed.

(** C9, as the code has it.  When [process_search_term_report] returns a
    frame, each row has the cells of the raw row, the cell under a column
    label being the raw cell passed through the cleaner of that column:
    [clean_integer] then [fillna(0)] for the counts, [clean_currency] then
    [fillna(0)] for Spend and Sales, [clean_currency] for CPC,
    [clean_percentage] for the percentage columns, and nothing at all for
    the other columns, the textual identifiers among them.  A missing
    value and a string that does not parse become 0 under a count or a
    currency cleaner and None under the percentage cleaner; a number goes
    through with its sign.  The rule engine reads an identifier with the
    default "Unknown", which stands in when the column is absent and only
    then. *)
Theorem cleaned_report_cells (raw df : DataFrame) :
  process_search_term_report raw = Ok df ->
  Forall2 (fun r r' =>
             length r' = length r /\
             forall i v name,
               r !! i = Some v -> index_of (LStr name) (columns df) = Some i ->
               exists v', r' !! i = Some v' /\ cleaner name v = Ok v')
          (rows raw) (rows df) /\
  (forall name v,
     (name ∈ count_columns ->
      cleaner name v = try! n := clean_integer v in Ok (fillna0 n)) /\
     (name ∈ ["Spend"; "Sales"] -> cleaner name v = Ok (fillna0 (clean_currency v))) /\
     (name = "CPC" -> cleaner name v = Ok (clean_currency v)) /\
     (name ∈ percentage_columns -> cleaner name v = Ok (clean_percentage v)) /\
     (name ∉ cleaned_columns -> cleaner name v = Ok v)) /\
  (forall v, isna v = true ->
     clean_integer v = Ok (PInt 0) /\ clean_currency v = PFloat (Fin 0) /\
     clean_percentage v = PNone) /\
  (forall s,
     (float_of_str (strip (replace_char "," "" s)) = None ->
      clean_integer (PStr s) = Ok (PInt 0)) /\
     (float_of_str (strip (replace_char "," "" (replace_char "$" "" s))) = None ->
      clean_currency (PStr s) = PFloat (Fin 0)) /\
     (float_of_str (strip (replace_char "," "" (replace_char "%" "" s))) = None ->
      clean_percentage (PStr s) = PNone)) /\
  (forall q z,
     fillna0 (clean_currency (PFloat (Fin q))) = PFloat (Fin q) /\
     clean_percentage (PFloat (Fin q)) = PFloat (Fin q) /\
     clean_integer (PInt z) = Ok (PInt z) /\ fillna0 (PInt z) = PInt z) /\
  (forall row name,
     Optimization.cell_or df row name (PStr "Unknown") =
     if has_col df name then Optimization.cell df row name else PStr "Unknown").
Proof.
  intros Hp. rewrite process_as_steps in Hp.
  destruct (normalize_columns raw) as [d0|e] eqn:En; cbn [bind] in Hp; [|done].
  destruct (find_label "ad group" (columns d0)) as [ad|e]; cbn [bind] in Hp; [|done].
  apply run_steps_cells in Hp as [Hcols Hrows].
  rewrite rename_ad_group_rows, (normalize_columns_rows _ _ En) in Hrows.
  rewrite <- Hcols in Hrows.
  split; [|split; [|split; [|split; [|split]]]].
  - eapply Forall2_impl; [exact Hrows|]. intros r r' [Hlen Hcell].
    split; [done|]. intros i v name Hv Hi.
    destruct (Hcell i v Hv) as (v' & Hv' & Hs). exists v'. split; [done|].
    by rewrite (cell_steps_column _ _ _ _ _ Hi) in Hs.
  - intros name v. split; [apply cleaner_count|].
    split; [apply cleaner_currency|]. split; [by intros ->|].
    split; [apply cleaner_percentage | apply cleaner_other].
  - intros v Hv. unfold clean_integer, clean_currency, clean_percentage.
    by rewrite Hv.
  - intros s. unfold clean_integer, clean_currency, clean_percentage. cbn [isna].
    repeat split; by intros ->.
  - intros q z. done.
  - intros row name. unfold Optimization.cell_or, Optimization.cell, has_col,
      row_get_default, row_get.
    by destruct (index_of (LStr name) (columns df)).
Qed.

End Cleaning.







Lemma zero_sales_overall_acos_is_100_witness :
  Optimization.has_all Samples.perf_no_sales ["Spend"; "Sales"; "Match Type"] = true /\
  df_empty Samples.perf_no_sales = false /\
  PyFloat.feq (series_sum (column Samples.perf_no_sales "Sales")) (Fin 0) = true /\
  exists hs,
    Optimization.calculate_health_score Samples.perf_no_sales = Ok hs /\
    Schemas.acos_stability_score hs = 0%Z /\
    Parser.dict_get "overall_acos" (Schemas.details hs) = Some (Fin 100).
Proof.
  repeat (split; [reflexivity|]).
  exact (zero_sales_overall_acos_is_100 Samples.perf_no_sales eq_refl eq_refl eq_refl).
Defined.



(** C5 at a bulk row without a budget.  The guard [budget <= 0] lets the
    missing budget (NaN) through: beside the item of the campaign row
    (budget 50, suggested budget 60), [analyze_budget_saturation] emits an
    item whose daily budget and suggested budget are NaN. *)
Lemma budget_saturation_keeps_missing_budget :
  match Optimization.analyze_budget_saturation Samples.perf_campaigns
          Samples.bulk_budgets with
  | Ok [a; b] =>
      Schemas.bu_campaign_name a = "Camp A" /\
      Schemas.bu_daily_budget a = Fin 50 /\
      PyFloat.feq (Schemas.bu_suggested_budget a) (Fin 60) = true /\
      Schemas.bu_utilization a = Fin 0 /\
      Schemas.bu_campaign_name b = "Camp A" /\
      Schemas.bu_daily_budget b = NaN /\
      Schemas.bu_suggested_budget b = NaN /\
      Schemas.bu_utilization b = Fin 0 /\
      PyFloat.feq (Schemas.bu_acos b) (Fin 15) = true /\
      PyFloat.fgt (Schemas.bu_daily_budget b) (Fin 0) = false
  | _ => False
  end.
Proof. vm_compute. repeat split; reflexivity. Qed.

(** C9 as the specification words it fails on [Samples.raw_report]: after
    cleaning, the spend of both rows is -5, and the campaign name of the
    first row is still missing, for the rule engine too; the cells that
    are no numbers have become 0 and None. *)
Lemma cleaning_keeps_sign_and_missing_names :
  Parser.process_search_term_report Samples.raw_report = Ok Samples.cleaned_report /\
  Forall (fun r => as_float (Optimization.cell Samples.cleaned_report r "Spend")
                   = Fin (-5)) (rows Samples.cleaned_report) /\
  (exists r, rows Samples.cleaned_report !! 0%nat = Some r /\
     Optimization.cell_or Samples.cleaned_report r "Campaign Name" (PStr "Unknown")
     = PFloat NaN).
Proof.
  split; [vm_compute; reflexivity|]. split; [repeat constructor|].
  eexists. split; reflexivity.
Qed.

Lemma cleaned_report_cells_witness :
  Parser.process_search_term_report Samples.raw_report = Ok Samples.cleaned_report /\
  Forall2 (fun r r' => length r' = length r)
          (rows Samples.raw_report) (rows Samples.cleaned_report) /\
  cleaner "Clicks" (PStr "n/a") = Ok (PInt 0).
Proof.
  assert (Hp : Parser.process_search_term_report Samples.raw_report
               = Ok Samples.cleaned_report) by (vm_compute; reflexivity).
  split; [exact Hp|].
  destruct (cleaned_report_cells _ _ Hp) as (Hrows & Hcl & _ & Hbad & _).
  split.
  - eapply Forall2_impl; [exact Hrows|]. intros r r' [Hlen _]. exact Hlen.
  - destruct (Hcl "Clicks" (PStr "n/a")) as (Hcount & _).
    rewrite Hcount by (unfold count_columns; right; left).
    destruct (Hbad "n/a") as (Hint & _).
    rewrite Hint by reflexivity. reflexivity.
Defined.

(** * Further properties of the services *)

(** ** Strings *)

Section StringFacts.

Import PyStr.

Lemma lower_upper_char c : lower_char (upper_char c) = lower_char c.
Proof. by destruct c as [[] [] [] [] [] [] [] []]. Qed.

Lemma lower_lower_char c : lower_char (lower_char c) = lower_char c.
Proof. by destruct c as [[] [] [] [] [] [] [] []]. Qed.

Lemma is_space_lower_char c : is_space (lower_char c) = is_space c.
Proof. by destruct c as [[] [] [] [] [] [] [] []]. Qed.

Lemma is_space_upper_char c : is_space (upper_char c) = is_space c.
Proof. by destruct c as [[] [] [] [] [] [] [] []]. Qed.

Lemma lower_char_dot c : lower_char c = "."%char -> c = "."%char.
Proof. by destruct c as [[] [] [] [] [] [] [] []]. Qed.

Lemma lower_upper s : lower (upper s) = lower s.
Proof. induction s as [|c s IH]; cbn; [done|]. by rewrite lower_upper_char, IH. Qed.

Lemma lower_lower s : lower (lower s) = lower s.
Proof. induction s as [|c s IH]; cbn; [done|]. by rewrite lower_lower_char, IH. Qed.

Lemma lower_length s : String.length (lower s) = String.length s.
Proof. induction s as [|c s IH]; cbn; [done|]. by rewrite IH. Qed.

Lemma append_cons c (a b : string) : (String c a ++ b)%string = String c (a ++ b).
Proof. reflexivity. Qed.

Lemma lower_app a b : lower (a ++ b) = (lower a ++ lower b)%string.
Proof.
  induction a as [|c a IH]; [done|].
  rewrite append_cons. cbn [lower]. by rewrite append_cons, IH.
Qed.

(** Trimming commutes with a change of letter case. *)
Lemma lstrip_lower s : lstrip_by is_space (lower s) = lower (lstrip_by is_space s).
Proof.
  induction s as [|c s IH]; cbn; [done|].
  rewrite is_space_lower_char. by destruct (is_space c).
Qed.

Lemma rstrip_lower s : rstrip_by is_space (lower s) = lower (rstrip_by is_space s).
Proof.
  induction s as [|c s IH]; cbn; [done|].
  rewrite IH, is_space_lower_char.
  destruct (rstrip_by is_space s); cbn; [|done]. by destruct (is_space c).
Qed.

Lemma lstrip_upper s : lstrip_by is_space (upper s) = upper (lstrip_by is_space s).
Proof.
  induction s as [|c s IH]; cbn; [done|].
  rewrite is_space_upper_char. by destruct (is_space c).
Qed.

Lemma rstrip_upper s : rstrip_by is_space (upper s) = upper (rstrip_by is_space s).
Proof.
  induction s as [|c s IH]; cbn; [done|].
  rewrite IH, is_space_upper_char.
  destruct (rstrip_by is_space s); cbn; [|done]. by destruct (is_space c).
Qed.

Lemma strip_lower s : strip (lower s) = lower (strip s).
Proof. unfold strip, strip_by. by rewrite lstrip_lower, rstrip_lower. Qed.

Lemma strip_upper s : strip (upper s) = upper (strip s).
Proof. unfold strip, strip_by. by rewrite lstrip_upper, rstrip_upper. Qed.

Lemma rstrip_by_idemp p s : rstrip_by p (rstrip_by p s) = rstrip_by p s.
Proof.
  induction s as [|c s IH]; cbn; [done|].
  destruct (rstrip_by p s) as [|c' r] eqn:E.
  - destruct (p c) eqn:Ec; cbn; [done|]. by rewrite Ec.
  - cbn [rstrip_by] in *. by rewrite IH.
Qed.

Lemma lstrip_by_stable p c s : p c = false -> lstrip_by p (String c s) = String c s.
Proof. intros Hc. cbn. by rewrite Hc. Qed.

Lemma lstrip_by_first p s :
  lstrip_by p s = EmptyString \/
  exists c r, lstrip_by p s = String c r /\ p c = false.
Proof.
  induction s as [|c s IH]; cbn; [by left|].
  destruct (p c) eqn:Ec; [done|]. right. eauto.
Qed.

Lemma strip_by_idemp p s : strip_by p (strip_by p s) = strip_by p s.
Proof.
  unfold strip_by.
  destruct (lstrip_by_first p s) as [->|(c & r & -> & Hc)]; [done|].
  cbn [rstrip_by]. destruct (rstrip_by p r) as [|c' r'] eqn:E.
  - rewrite Hc, lstrip_by_stable by done. cbn. by rewrite Hc.
  - rewrite lstrip_by_stable by done.
    assert (Ht : rstrip_by p (String c' r') = String c' r').
    { rewrite <- E. apply rstrip_by_idemp. }
    remember (String c' r') as t eqn:Et.
    cbn [rstrip_by]. rewrite Ht. by subst t.
Qed.

Lemma strip_strip s : strip (strip s) = strip s.
Proof. apply strip_by_idemp. Qed.

(** The key of a name that is already a key is the name itself. *)
Lemma strip_lower_idemp s : strip (lower (strip (lower s))) = strip (lower s).
Proof. by rewrite !strip_lower, strip_strip, lower_lower. Qed.

End StringFacts.

(** ** Product identifiers *)

Section Asin.

Import PyStr Parser.

(** X1.  [is_asin] looks at the trimmed, lower-cased text only: putting the
    text into upper or lower case or trimming it beforehand does not change
    the answer. *)
Theorem is_asin_ignores_case_and_blanks (s : string) :
  is_asin (PStr (upper s)) = is_asin (PStr s) /\
  is_asin (PStr (lower s)) = is_asin (PStr s) /\
  is_asin (PStr (strip s)) = is_asin (PStr s).
Proof.
  unfold is_asin. cbn zeta.
  rewrite strip_upper, lower_upper.
  rewrite <- (strip_lower (lower s)), lower_lower, strip_lower.
  by rewrite strip_strip.
Qed.

End Asin.

(** ** File names *)

Section FileType.

Import PyStr Parser.

Lemma split_char_nonempty ch s : split_char ch s <> [].
Proof.
  destruct s as [|c s]; cbn; [done|].
  destruct (Ascii.eqb c ch); [done|]. by destruct (split_char ch s).
Qed.

Lemma split_char_no_separator ch s :
  (forall n, String.get n s <> Some ch) -> split_char ch s = [s].
Proof.
  induction s as [|c s IH]; intros Hs; cbn; [done|].
  destruct (Ascii.eqb_spec c ch) as [->|_].
  - by destruct (Hs 0%nat).
  - rewrite IH; [done|]. intros n. apply (Hs (S n)).
Qed.

(** [(a + ch + b).split(ch) == a.split(ch) + b.split(ch)] *)
Lemma split_char_app ch (a b : string) :
  split_char ch (a ++ String ch b) = split_char ch a ++ split_char ch b.
Proof.
  induction a as [|c a IH].
  - change (split_char ch (String ch b) = [EmptyString] ++ split_char ch b).
    cbn. by rewrite Ascii.eqb_refl.
  - rewrite append_cons. cbn [split_char]. rewrite IH.
    destruct (Ascii.eqb c ch); [done|].
    pose proof (split_char_nonempty ch a). by destruct (split_char ch a).
Qed.

Lemma lower_no_dot s :
  (forall n, String.get n s <> Some "."%char) ->
  forall n, String.get n (lower s) <> Some "."%char.
Proof.
  induction s as [|c s IH]; intros Hs n; cbn; [by destruct n|].
  destruct n as [|n].
  - intros [= E]. apply lower_char_dot in E. by destruct (Hs 0%nat); subst.
  - apply IH. intros m. apply (Hs (S m)).
Qed.

(** X2.  [detect_file_type] decides on what follows the last dot of the
    file name, in any letter case: a name with an extension that holds no
    dot is classified as the bare extension is, whatever precedes it, and
    the upper-case spelling of a name as the name. *)
Theorem detect_file_type_reads_extension (stem ext : string) :
  (forall n, String.get n ext <> Some "."%char) ->
  detect_file_type (stem ++ String "." ext) = detect_file_type ext /\
  detect_file_type (upper (stem ++ String "." ext)) = detect_file_type ext.
Proof.
  intros Hext.
  assert (Heq : detect_file_type (stem ++ String "." ext) = detect_file_type ext).
  { unfold detect_file_type. rewrite lower_app. cbn [lower].
    change (lower_char ".") with "."%char.
    rewrite split_char_app, last_app.
    rewrite (split_char_no_separator _ (lower ext)) by by apply lower_no_dot.
    done. }
  split; [done|]. rewrite <- Heq. unfold detect_file_type. by rewrite lower_upper.
Qed.

End FileType.

Lemma detect_file_type_reads_extension_witness :
  (forall n, String.get n "CSV" <> Some "."%char) /\
  Parser.detect_file_type "report.2024.CSV" = Ok "csv" /\
  Parser.detect_file_type "REPORT.2024.CSV" = Ok "csv".
Proof.
  assert (Hext : forall n, String.get n "CSV" <> Some "."%char).
  { intros [|[|[|[|n]]]]; cbn; congruence. }
  split; [exact Hext|].
  exact (detect_file_type_reads_extension "report.2024" "CSV" Hext).
Defined.

(** ** Headers *)

Section Headers.

Import PyStr Parser.

Lemma has_col_elem df name : has_col df name = true <-> LStr name ∈ columns df.
Proof.
  unfold has_col. generalize (columns df). intros cols.
  induction cols as [|c cols IH]; cbn.
  - split; [done|]. intros Hin. by apply elem_of_nil in Hin.
  - destruct (label_eqb c (LStr name)) eqn:E.
    + apply label_eqb_eq in E. subst. split; [|done]. intros _. left.
    + rewrite elem_of_cons. destruct (index_of (LStr name) cols); cbn in *.
      * split; [|done]. intros _. right. by apply IH.
      * split; [done|]. intros [<-|Hin].
        -- cbn in E. by rewrite String.eqb_refl in E.
        -- by apply IH in Hin.
Qed.

Lemma dict_get_values {V} k (d : list (string * V)) v :
  dict_get k d = Some v -> v ∈ map snd d.
Proof.
  induction d as [|[k' v'] d IH]; cbn; [done|].
  destruct (String.eqb k' k).
  - intros [= <-]. left.
  - intros Hd. right. by apply IH.
Qed.

Lemma canonical_names_fixed k c :
  dict_get k COLUMN_MAPPINGS = Some c -> normalize_column_name c = c.
Proof.
  intros Hc. apply dict_get_values in Hc.
  assert (Hall : forallb (fun c => String.eqb (normalize_column_name c) c)
                         (map snd COLUMN_MAPPINGS) = true) by (vm_compute; reflexivity).
  rewrite forallb_forall in Hall. apply list_elem_of_In in Hc.
  by apply String.eqb_eq, Hall.
Qed.

Lemma normalize_column_name_idemp s :
  normalize_column_name (normalize_column_name s) = normalize_column_name s.
Proof.
  destruct (dict_get (strip (lower s)) COLUMN_MAPPINGS) as [c|] eqn:E.
  - assert (normalize_column_name s = c) as ->.
    { unfold normalize_column_name. by rewrite E. }
    by eapply canonical_names_fixed.
  - assert (Hs : normalize_column_name s = s).
    { unfold normalize_column_name. by rewrite E. }
    by rewrite !Hs.
Qed.

Lemma mapM_normalize cols :
  mapM (fun col =>
          try! normalized := label_key col in
          Ok (match dict_get normalized COLUMN_MAPPINGS with
              | Some canonical => LStr canonical
              | None => col
              end)) cols
  = if forallb is_str_label cols then Ok (map normalize_label cols)
    else Raise AttributeError.
Proof.
  induction cols as [|[s|z] cols IH]; cbn [mapM forallb is_str_label andb]; [done| |done].
  rewrite IH. cbn [label_key bind].
  destruct (forallb is_str_label cols); cbn [bind map normalize_label]; [|done].
  unfold normalize_column_name. by destruct (dict_get _ _).
Qed.

(** X3.  [normalize_columns] renames every header as
    [normalize_column_name] does and leaves the rows alone; it fails, with
    an [AttributeError], exactly when a header is not a string. *)
Theorem normalize_columns_by_name (df : DataFrame) :
  normalize_columns df =
  if forallb is_str_label (columns df)
  then Ok (mkDF (map normalize_label (columns df)) (rows df))
  else Raise AttributeError.
Proof.
  unfold normalize_columns. rewrite mapM_normalize.
  by destruct (forallb is_str_label (columns df)).
Qed.

Lemma normalize_columns_Ok df df' :
  normalize_columns df = Ok df' ->
  forallb is_str_label (columns df) = true /\
  columns df' = map normalize_label (columns df) /\ rows df' = rows df.
Proof.
  unfold normalize_columns. rewrite mapM_normalize.
  destruct (forallb is_str_label (columns df)); cbn [bind]; [|done].
  by intros [= <-].
Qed.

Lemma normalize_label_idemp l : normalize_label (normalize_label l) = normalize_label l.
Proof.
  destruct l as [s|z]; cbn [normalize_label]; [|done].
  by rewrite normalize_column_name_idemp.
Qed.

Lemma is_str_normalize_label l : is_str_label (normalize_label l) = is_str_label l.
Proof. by destruct l. Qed.

(** X4.  Normalising the headers twice is normalising them once: every
    canonical name is kept by [normalize_columns]. *)
Theorem normalize_columns_idempotent (df df' : DataFrame) :
  normalize_columns df = Ok df' -> normalize_columns df' = Ok df'.
Proof.
  intros Hn. apply normalize_columns_Ok in Hn as (Hstr & Hcols & Hrows).
  unfold normalize_columns. rewrite mapM_normalize, Hcols.
  rewrite forallb_forall in Hstr.
  assert (Hstr' : forallb is_str_label (map normalize_label (columns df)) = true).
  { apply forallb_forall. intros l Hl. apply in_map_iff in Hl as (l0 & <- & Hl0).
    rewrite is_str_normalize_label. by apply Hstr. }
  rewrite Hstr'. cbn [bind]. destruct df' as [cols' rows']. cbn in *. subst.
  f_equal. f_equal. rewrite map_map. apply map_ext. intros l. apply normalize_label_idemp.
Qed.

End Headers.

Lemma normalize_columns_idempotent_witness :
  Parser.normalize_columns Samples.raw_report
  = Ok (mkDF (columns Samples.cleaned_report) (rows Samples.raw_report)) /\
  Parser.normalize_columns (mkDF (columns Samples.cleaned_report) (rows Samples.raw_report))
  = Ok (mkDF (columns Samples.cleaned_report) (rows Samples.raw_report)).
Proof.
  assert (Hn : Parser.normalize_columns Samples.raw_report
               = Ok (mkDF (columns Samples.cleaned_report) (rows Samples.raw_report)))
    by (vm_compute; reflexivity).
  split; [exact Hn|]. exact (normalize_columns_idempotent _ _ Hn).
Defined.

(** ** Validation of a search-term report *)

Section Validation.

Import PyStr Parser.
Context `{PyBuiltins}.

Lemma existsb_eqb_elem name keys :
  existsb (String.eqb name) keys = true -> name ∈ keys.
Proof.
  rewrite existsb_exists. intros (k & Hk & E).
  apply String.eqb_eq in E. subst. by apply list_elem_of_In.
Qed.

(** A key among the lower-cased headers is the key of a header. *)
Lemma present_label cols keys name :
  mapM label_key cols = Ok keys -> name ∈ keys ->
  exists s, LStr s ∈ cols /\ strip (lower s) = name.
Proof.
  intros Hk Hn. apply mapM_Ok in Hk.
  apply list_elem_of_lookup in Hn as [i Hi].
  destruct (Forall2_lookup_r _ _ _ _ _ Hk Hi) as (l & Hl & Hkey).
  destruct l as [s|z]; cbn in Hkey; [|done]. injection Hkey as <-.
  exists s. split; [|done]. by eapply list_elem_of_lookup_2.
Qed.

Lemma find_label_spec target cols ad :
  find_label target cols = Ok ad ->
  match ad with
  | Some c => c ∈ cols /\ label_key c = Ok target
  | None => forall l, l ∈ cols -> label_key l <> Ok target
  end.
Proof.
  revert ad. induction cols as [|c cols IH]; intros ad; cbn [find_label].
  - intros [= <-]. intros l Hl. by apply elem_of_nil in Hl.
  - destruct (label_key c) as [k|e] eqn:Ek; cbn [bind]; [|done].
    destruct (String.eqb_spec k target) as [->|Hne].
    + intros [= <-]. split; [left|done].
    + intros Hf. specialize (IH ad Hf). destruct ad as [c'|].
      * destruct IH. split; [by right|done].
      * intros l Hl. apply elem_of_cons in Hl as [->|Hl]; [|by apply IH].
        rewrite Ek. congruence.
Qed.

(** A header that is not the "Ad Group" alias survives the renaming of the
    alias. *)
Lemma rename_ad_group_keeps df ad name :
  find_label "ad group" (columns df) = Ok ad ->
  strip (lower name) <> "ad group" ->
  LStr name ∈ columns df -> LStr name ∈ columns (rename_ad_group df ad).
Proof.
  intros Hf Hname Hin. apply find_label_spec in Hf.
  unfold rename_ad_group. destruct ad as [c|]; [|done].
  destruct (_ && _); [|done]. cbn [rename_label columns].
  apply list_elem_of_fmap. exists (LStr name). split; [|done].
  destruct (label_eqb (LStr name) c) eqn:E; [|done].
  apply label_eqb_eq in E. subst c. destruct Hf as [_ Hk]. cbn in Hk. congruence.
Qed.

Lemma rename_ad_group_alias df ad s :
  find_label "ad group" (columns df) = Ok ad ->
  LStr s ∈ columns df -> strip (lower s) = "ad group" ->
  LStr "Ad Group Name" ∈ columns (rename_ad_group df ad).
Proof.
  intros Hf Hin Hs.
  pose proof (find_label_spec _ _ _ Hf) as Hspec.
  destruct ad as [c|].
  - unfold rename_ad_group.
    rewrite (find_label_truthy "ad group" (columns df) c) by done.
    cbn [andb]. destruct (has_col df "Ad Group Name") eqn:Eh; cbn [negb].
    + by apply has_col_elem.
    + cbn [rename_label columns]. apply list_elem_of_fmap.
      exists c. split; [|apply Hspec].
      destruct (label_eqb c c) eqn:E; [done|].
      destruct c as [t|z]; cbn in E.
      * by rewrite String.eqb_refl in E.
      * by rewrite Z.eqb_refl in E.
  - exfalso. apply (Hspec (LStr s) Hin). cbn. by rewrite Hs.
Qed.

Lemma normalized_has_canonical df dn s canonical :
  normalize_columns df = Ok dn ->
  LStr s ∈ columns df ->
  dict_get (strip (lower s)) COLUMN_MAPPINGS = Some canonical ->
  LStr canonical ∈ columns dn.
Proof.
  intros Hn Hin Hd. apply normalize_columns_Ok in Hn as (_ & -> & _).
  apply list_elem_of_fmap. exists (LStr s). split; [|done].
  cbn [normalize_label]. unfold normalize_column_name. by rewrite Hd.
Qed.

Lemma normalized_keeps_unmapped df dn s :
  normalize_columns df = Ok dn ->
  LStr s ∈ columns df ->
  dict_get (strip (lower s)) COLUMN_MAPPINGS = None ->
  LStr s ∈ columns dn.
Proof.
  intros Hn Hin Hd. apply normalize_columns_Ok in Hn as (_ & -> & _).
  apply list_elem_of_fmap. exists (LStr s). split; [|done].
  cbn [normalize_label]. unfold normalize_column_name. by rewrite Hd.
Qed.

Lemma validated_not_missing df missing required :
  validate_search_term_report df = Ok (true, missing) ->
  required ∈ SEARCH_TERM_REQUIRED_COLUMNS ->
  exists keys, mapM label_key (columns df) = Ok keys /\ is_missing keys required = false.
Proof.
  unfold validate_search_term_report.
  destruct (mapM label_key (columns df)) as [keys|e]; cbn [bind]; [|done].
  intros [= Hlen <-] Hreq. exists keys. split; [done|].
  apply Nat.eqb_eq, length_zero_iff_nil in Hlen.
  destruct (is_missing keys required) eqn:E; [|done].
  exfalso. eapply (filter_nil_not_elem_of _ _ required); [exact Hlen| |exact Hreq].
  by apply Is_true_true.
Qed.

(** X5.  A report that passes [validate_search_term_report] comes out of
    [process_search_term_report] with the columns "Campaign Name",
    "Ad Group Name" and "Match Type" under exactly these names, however the
    headers of the file spell them (letter case, surrounding blanks, the
    "Ad Group" alias): for these three required names the validation and
    the processing agree. *)
Theorem validated_report_has_key_columns (df df' : DataFrame) (missing : list string) :
  validate_search_term_report df = Ok (true, missing) ->
  process_search_term_report df = Ok df' ->
  has_col df' "Campaign Name" = true /\
  has_col df' "Ad Group Name" = true /\
  has_col df' "Match Type" = true.
Proof.
  intros Hv Hp. rewrite process_as_steps in Hp.
  destruct (normalize_columns df) as [dn|e] eqn:Hn; cbn [bind] in Hp; [|done].
  destruct (find_label "ad group" (columns dn)) as [ad|e] eqn:Hf; cbn [bind] in Hp; [|done].
  apply run_steps_cells in Hp as [Hcols _].
  rewrite !has_col_elem, Hcols.
  assert (Hkey : forall required canonical,
            required ∈ SEARCH_TERM_REQUIRED_COLUMNS ->
            strip (lower required) <> "ad group name" ->
            dict_get (strip (lower required)) COLUMN_MAPPINGS = Some canonical ->
            strip (lower canonical) <> "ad group" ->
            LStr canonical ∈ columns (rename_ad_group dn ad)).
  { intros required canonical Hreq Hna Hd Hc.
    destruct (validated_not_missing _ _ _ Hv Hreq) as (keys & Hk & Hm).
    unfold is_missing in Hm. cbn zeta in Hm.
    destruct (String.eqb_spec (strip (lower required)) "ad group name") as [|_]; [done|].
    cbn [andb] in Hm. apply negb_false_iff, existsb_eqb_elem in Hm.
    destruct (present_label _ _ _ Hk Hm) as (s & Hs & Hks).
    apply rename_ad_group_keeps; [done|done|].
    eapply normalized_has_canonical; [done|exact Hs|]. by rewrite Hks. }
  split; [|split].
  - apply (Hkey "Campaign Name"); [|done|done|done].
    unfold SEARCH_TERM_REQUIRED_COLUMNS. set_solver.
  - destruct (validated_not_missing _ _ "Ad Group Name" Hv) as (keys & Hk & Hm).
    { unfold SEARCH_TERM_REQUIRED_COLUMNS. set_solver. }
    unfold is_missing in Hm. cbn zeta in Hm.
    change (strip (lower "Ad Group Name")) with "ad group name" in Hm.
    rewrite String.eqb_refl in Hm. cbn [andb] in Hm.
    destruct (existsb (String.eqb "ad group") keys) eqn:Ealias.
    + apply existsb_eqb_elem in Ealias.
      destruct (present_label _ _ _ Hk Ealias) as (s & Hs & Hks).
      eapply (rename_ad_group_alias dn ad s); [done| |done].
      eapply normalized_keeps_unmapped; [done|done|]. by rewrite Hks.
    + apply negb_false_iff, existsb_eqb_elem in Hm.
      destruct (present_label _ _ _ Hk Hm) as (s & Hs & Hks).
      apply rename_ad_group_keeps; [done|done|].
      eapply normalized_has_canonical; [done|exact Hs|]. by rewrite Hks.
  - apply (Hkey "Match Type"); [|done|done|done].
    unfold SEARCH_TERM_REQUIRED_COLUMNS. set_solver.
Qed.

End Validation.

Lemma validated_report_has_key_columns_witness :
  Parser.validate_search_term_report Samples.raw_headers = Ok (true, []) /\
  exists df',
    Parser.process_search_term_report Samples.raw_headers = Ok df' /\
    has_col df' "Campaign Name" = true /\
    has_col df' "Ad Group Name" = true /\
    has_col df' "Match Type" = true.
Proof.
  split; [vm_compute; reflexivity|].
  eexists. split; [vm_compute; reflexivity|].
  apply (validated_report_has_key_columns Samples.raw_headers _ []);
    vm_compute; reflexivity.
Defined.

(** ** Filter options *)

Section UniqueValues.

Import Parser.

Lemma cell_eqb_refl v : cell_eqb v v = true.
Proof.
  destruct v as [|s|z|[q|b|]]; cbn; try done.
  - apply String.eqb_refl.
  - apply Qeq_bool_iff. reflexivity.
  - apply Qeq_bool_iff. reflexivity.
  - by destruct b.
Qed.

Lemma cell_eqb_str s u : cell_eqb (PStr s) u = true -> u = PStr s.
Proof.
  destruct u as [|t|z|[q|b|]]; cbn; try done.
  intros E. apply String.eqb_eq in E. by subst.
Qed.

Lemma unique_from_sound seen l v :
  v ∈ unique_from seen l -> v ∈ l /\ existsb (cell_eqb v) seen = false.
Proof.
  revert seen. induction l as [|a l IH]; intros seen; cbn.
  - intros Hv. by apply elem_of_nil in Hv.
  - destruct (existsb (cell_eqb a) seen) eqn:Ea.
    + intros Hv. apply IH in Hv as [Hl Hs]. split; [by right|done].
    + intros Hv. apply elem_of_cons in Hv as [->|Hv].
      * split; [left|done].
      * apply IH in Hv as [Hl Hs]. split; [by right|].
        cbn in Hs. by apply orb_false_iff in Hs as [_ Hs].
Qed.

Lemma unique_from_complete seen l v :
  v ∈ l ->
  existsb (cell_eqb v) seen = true \/
  exists u, u ∈ unique_from seen l /\ cell_eqb v u = true.
Proof.
  revert seen. induction l as [|a l IH]; intros seen Hv.
  - by apply elem_of_nil in Hv.
  - cbn [unique_from]. apply elem_of_cons in Hv as [->|Hv].
    + destruct (existsb (cell_eqb a) seen) eqn:Ea; [by left|].
      right. exists a. split; [left|apply cell_eqb_refl].
    + destruct (existsb (cell_eqb a) seen) eqn:Ea.
      * apply IH, Hv.
      * destruct (IH (a :: seen) Hv) as [Hs|(u & Hu & E)].
        -- cbn in Hs. apply orb_true_iff in Hs as [Hs|Hs]; [|by left].
           right. exists a. split; [left|done].
        -- right. exists u. split; [by right|done].
Qed.

Lemma unique_from_NoDup seen l : NoDup (unique_from seen l).
Proof.
  revert seen. induction l as [|a l IH]; intros seen; cbn; [constructor|].
  destruct (existsb (cell_eqb a) seen); [apply IH|].
  constructor; [|apply IH].
  intros Ha. apply unique_from_sound in Ha as [_ Hs].
  cbn in Hs. by rewrite cell_eqb_refl in Hs.
Qed.

Lemma dropna_unique_lists df name :
  has_col df name = true -> lists_values df name (dropna_unique df name).
Proof.
  intros Hc. unfold dropna_unique.
  change (map _ (rows df)) with (column df name).
  assert (Hsound : forall v,
            v ∈ unique_from [] (filter (fun v => negb (isna v)) (column df name)) ->
            isna v = false /\ v ∈ column df name).
  { intros v Hv. apply unique_from_sound in Hv as [Hv _].
    apply list_elem_of_filter in Hv as [Hna Hv]. split; [|done].
    apply Is_true_true in Hna. by apply negb_true_iff. }
  assert (Hcomplete : forall v, v ∈ column df name -> isna v = false ->
            exists u, u ∈ unique_from [] (filter (fun v => negb (isna v)) (column df name))
                      /\ cell_eqb v u = true).
  { intros v Hv Hna.
    destruct (unique_from_complete [] (filter (fun v => negb (isna v)) (column df name)) v)
      as [Hs|Hu]; [|done|done].
    apply list_elem_of_filter. split; [|done]. apply Is_true_true. by rewrite Hna. }
  split; [apply unique_from_NoDup|]. split; [|split].
  - intros v Hv. split; [done|]. by apply Hsound.
  - intros v _. apply Hcomplete.
  - intros s. split.
    + intros Hs. split; [done|]. by apply Hsound.
    + intros [_ Hs]. destruct (Hcomplete (PStr s) Hs) as (u & Hu & E); [done|].
      apply cell_eqb_str in E. by subst.
Qed.

Lemma no_column_lists df name : has_col df name = false -> lists_values df name [].
Proof.
  intros Hc. split; [constructor|]. split; [|split].
  - intros v Hv. by apply elem_of_nil in Hv.
  - intros v Hc'. congruence.
  - intros s. split; [intros Hs; by apply elem_of_nil in Hs|]. intros [Hc' _]. congruence.
Qed.

(** X6.  The filter options: [get_unique_campaigns], [get_unique_ad_groups]
    and [get_unique_portfolios] list the values of the columns "Campaign
    Name", "Ad Group Name" and "Portfolio": every value of the column that
    is not missing appears, once, and nothing else does; a frame without
    the column gives the empty list. *)
Theorem filter_options_list_each_name_once (df : DataFrame) :
  lists_values df "Campaign Name" (get_unique_campaigns df) /\
  lists_values df "Ad Group Name" (get_unique_ad_groups df) /\
  lists_values df "Portfolio" (get_unique_portfolios df).
Proof.
  unfold get_unique_campaigns, get_unique_ad_groups, get_unique_portfolios.
  repeat split_and;
    match goal with
    | |- lists_values _ ?n _ =>
        destruct (has_col df n) eqn:E; cbn [negb];
        [by apply dropna_unique_lists | by apply no_column_lists]
    end.
Qed.

End UniqueValues.

(** ** Bulk operations file *)

Section BulkFile.

Import PyStr PyFloat Parser.
Context `{PyBuiltins}.

Lemma rename_bulk_columns_Ok d1 d2 :
  rename_bulk_columns d1 = Ok d2 ->
  rows d2 = rows d1 /\
  Forall2 (fun l1 l2 =>
             exists s n, l1 = LStr s /\ l2 = LStr n /\
               (dict_get (strip (lower s)) column_map = Some n \/
                dict_get (strip (lower s)) column_map = None /\ n = s))
          (columns d1) (columns d2).
Proof.
  unfold rename_bulk_columns.
  destruct (mapM _ (columns d1)) as [cols|e] eqn:Em; cbn [bind]; [|done].
  intros [= <-]. split; [done|]. cbn [columns]. apply mapM_Ok in Em.
  eapply Forall2_impl; [exact Em|].
  intros [s|z] l2 Hl; cbn [label_key bind] in Hl; [|done].
  destruct (dict_get (strip (lower s)) column_map) as [c|] eqn:Ec.
  - exists s, c. split; [done|]. split; [congruence|by left].
  - exists s, s. split; [done|]. split; [congruence|by right].
Qed.

Lemma renamed_headers_no_alias (df d1 d2 : DataFrame) :
  normalize_columns df = Ok d1 ->
  rename_bulk_columns d1 = Ok d2 ->
  has_col d2 "Entity" = false /\ has_col d2 "Campaign Name" = false.
Proof.
  intros Hn Hr.
  apply normalize_columns_Ok in Hn as (_ & Hc1 & _).
  apply rename_bulk_columns_Ok in Hr as (_ & Hc2).
  assert (Hno : forall n, LStr n ∈ columns d2 -> n <> "Entity" /\ n <> "Campaign Name").
  { intros n Hin. apply list_elem_of_lookup in Hin as [i Hi].
    destruct (Forall2_lookup_r _ _ _ _ _ Hc2 Hi) as (l1 & Hl1 & s1 & n' & -> & Hn' & Hd).
    assert (n' = n) as -> by congruence. clear Hn'.
    rewrite Hc1 in Hl1. apply list_lookup_fmap_Some in Hl1 as (l0 & E0 & Hl0).
    destruct l0 as [s0|z]; cbn [normalize_label] in E0; [|done].
    assert (Es : s1 = normalize_column_name s0) by congruence. clear E0.
    destruct Hd as [Ec|[Ec ->]].
    - apply dict_get_values in Ec.
      assert (Hv : forallb (fun c => negb (String.eqb c "Entity")
                                     && negb (String.eqb c "Campaign Name"))
                           (map snd column_map) = true) by (vm_compute; reflexivity).
      rewrite forallb_forall in Hv. apply list_elem_of_In, Hv in Ec.
      apply andb_true_iff in Ec as [E1 E2].
      apply negb_true_iff in E1, E2.
      split; intros ->; by rewrite String.eqb_refl in *.
    - split; intros ->.
      + unfold normalize_column_name in Es.
        destruct (dict_get (strip (lower s0)) COLUMN_MAPPINGS) as [c|] eqn:E;
          cbn [default from_option id] in Es.
        * subst c. apply dict_get_values in E.
          assert (Hv : forallb (fun c => negb (String.eqb c "Entity"))
                               (map snd COLUMN_MAPPINGS) = true) by (vm_compute; reflexivity).
          rewrite forallb_forall in Hv. apply list_elem_of_In, Hv in E.
          by rewrite String.eqb_refl in E.
        * subst s0. vm_compute in E. done.
      + vm_compute in Ec. done. }
  split.
  - destruct (has_col d2 "Entity") eqn:E; [|done].
    apply has_col_elem, Hno in E. by destruct E.
  - destruct (has_col d2 "Campaign Name") eqn:E; [|done].
    apply has_col_elem, Hno in E. by destruct E.
Qed.

(** X7.  In [process_bulk_file], once the headers went through
    [normalize_columns] and the [column_map] renaming, no column is called
    "Entity" and none "Campaign Name": the "Entity" fallback and the copy of
    "Campaign Name" into "Campaign" never run. *)
Theorem bulk_headers_leave_no_alias (df d1 d2 : DataFrame) :
  normalize_columns df = Ok d1 ->
  rename_bulk_columns d1 = Ok d2 ->
  has_col d2 "Entity" = false /\ has_col d2 "Campaign Name" = false.
Proof. apply renamed_headers_no_alias. Qed.

Lemma mapM_map_pure {A B C} (f : B -> result C) (g : A -> B) (h : A -> C) l :
  (forall a, f (g a) = Ok (h a)) -> mapM f (map g l) = Ok (map h l).
Proof.
  intros Hf. induction l as [|a l IH]; cbn; [done|]. by rewrite Hf, IH.
Qed.

(** The last three steps of [process_bulk_file]. *)
Lemma budget_stage campaigns (with_id : bool) bulk :
  apply_col "Daily Budget" (pure_col clean_currency)
    (rename_col "Campaign" "Campaign Name"
       (df_select campaigns
          (map LStr (["Campaign"; "Daily Budget"] ++
                     (if with_id then ["Campaign ID"] else [])))))
  = Ok bulk ->
  columns bulk = [LStr "Campaign Name"; LStr "Daily Budget"] ++
                 (if with_id then [LStr "Campaign ID"] else []) /\
  rows bulk = map (budget_row (columns campaigns) with_id) (rows campaigns).
Proof.
  unfold apply_col, rename_col, df_select. cbn [columns rows].
  destruct with_id; cbn [app map label_eqb String.eqb Ascii.eqb Bool.eqb index_of option_map].
  - rewrite (mapM_map_pure _ _ (budget_row (columns campaigns) true)) by done.
    cbn [bind]. by intros [= <-].
  - rewrite (mapM_map_pure _ _ (budget_row (columns campaigns) false)) by done.
    cbn [bind]. by intros [= <-].
Qed.

(** What [process_bulk_file] returns: the header, and one row for each
    selected row of the file. *)
Lemma process_bulk_file_rows raw bulk :
  process_bulk_file raw = Ok bulk ->
  exists (cols : list label) (with_id : bool) (src : list (list pyval)),
    columns bulk = [LStr "Campaign Name"; LStr "Daily Budget"] ++
                   (if with_id then [LStr "Campaign ID"] else []) /\
    rows bulk = map (budget_row cols with_id) src /\
    Forall (fun r => r ∈ rows raw) src.
Proof.
  unfold process_bulk_file.
  destruct (normalize_columns raw) as [d1|e] eqn:Hn; cbn [bind]; [|done].
  destruct (rename_bulk_columns d1) as [d2|e] eqn:Hr; cbn [bind]; [|done].
  destruct (renamed_headers_no_alias _ _ _ Hn Hr) as [He Hc].
  assert (Hd : forall X,
            (if negb (has_col d2 "Record Type") || negb (has_col d2 "Daily Budget")
             then (if has_col d2 "Entity" then X else d2) else d2) = d2).
  { intros X. rewrite He. by destruct (_ || _). }
  cbn zeta. rewrite !Hd, Hc, andb_false_r. clear Hd.
  assert (Hrows : rows d2 = rows raw).
  { apply rename_bulk_columns_Ok in Hr as [-> _]. by apply normalize_columns_rows. }
  set (camp := if has_col d2 "Record Type" then _ else _).
  assert (Hcamp : forall campaigns, camp = Ok campaigns ->
            columns campaigns = columns d2 /\
            Forall (fun r => r ∈ rows raw) (rows campaigns)).
  { intros campaigns. unfold camp.
    destruct (has_col d2 "Record Type"); [|destruct (has_col d2 "Daily Budget"); [|done]].
    - intros [= <-]. split; [done|]. cbn. apply Forall_forall. intros r Hr'.
      apply list_elem_of_filter in Hr' as [_ Hr']. by rewrite <- Hrows.
    - intros [= <-]. split; [done|]. cbn. apply Forall_forall. intros r Hr'.
      apply list_elem_of_filter in Hr' as [_ Hr']. by rewrite <- Hrows. }
  destruct camp as [campaigns|e]; cbn [bind]; [|done].
  destruct (Hcamp campaigns eq_refl) as [Hcc Hsrc].
  destruct (df_empty campaigns).
  - intros [= <-]. exists [], false, []. split; [done|]. split; [done|]. constructor.
  - unfold select_columns. destruct (forallb _ _); cbn [bind]; [|done].
    intros Hb. exists (columns campaigns), (has_col d2 "Campaign ID"), (rows campaigns).
    apply budget_stage in Hb as [Hb1 Hb2]. done.
Qed.

Lemma clean_currency_float v : exists f, clean_currency v = PFloat f.
Proof.
  unfold clean_currency. destruct (isna v); [eauto|].
  destruct v as [|s|z|f]; cbn [float_of_num]; eauto.
  destruct (float_of_str _); eauto.
Qed.

Lemma budget_cell bulk cols (with_id : bool) r :
  columns bulk = [LStr "Campaign Name"; LStr "Daily Budget"] ++
                 (if with_id then [LStr "Campaign ID"] else []) ->
  Optimization.cell bulk (budget_row cols with_id r) "Daily Budget"
  = clean_currency (row_get cols r (LStr "Daily Budget")) /\
  Optimization.cell bulk (budget_row cols with_id r) "Campaign Name"
  = row_get cols r (LStr "Campaign") /\
  length (budget_row cols with_id r) = length (columns bulk).
Proof.
  intros Hc. unfold Optimization.cell, row_get at 1 3. rewrite Hc.
  by destruct with_id.
Qed.

(** X8.  A bulk file that [process_bulk_file] accepts comes out with the
    columns "Campaign Name" and "Daily Budget", followed by "Campaign ID"
    when the file has one; every row has one cell per column, and its
    budget is a float, whatever the file held in that cell. *)
Theorem process_bulk_file_shape (raw bulk : DataFrame) :
  process_bulk_file raw = Ok bulk ->
  (columns bulk = [LStr "Campaign Name"; LStr "Daily Budget"] \/
   columns bulk = [LStr "Campaign Name"; LStr "Daily Budget"; LStr "Campaign ID"]) /\
  Forall (fun r => length r = length (columns bulk)) (rows bulk) /\
  col_Forall (fun v => exists f, v = PFloat f) bulk "Daily Budget".
Proof.
  intros Hp. apply process_bulk_file_rows in Hp as (cols & with_id & src & Hc & Hr & _).
  split; [rewrite Hc; destruct with_id; [by right|by left]|].
  unfold col_Forall. rewrite Hr. split.
  - apply Forall_forall. intros r Hin. apply list_elem_of_fmap in Hin as (r0 & -> & _).
    by apply budget_cell.
  - apply Forall_forall. intros r Hin. apply list_elem_of_fmap in Hin as (r0 & -> & _).
    destruct (budget_cell bulk cols with_id r0 Hc) as (-> & _).
    apply clean_currency_float.
Qed.

End BulkFile.

Lemma bulk_headers_leave_no_alias_witness :
  let d1 := mkDF [ LStr "Record Type"; LStr "Campaign Name"; LStr "Campaign ID";
                   LStr "Campaign Daily Budget" ] (rows Samples.raw_bulk) in
  let d2 := mkDF [ LStr "Record Type"; LStr "Campaign"; LStr "Campaign ID";
                   LStr "Daily Budget" ] (rows Samples.raw_bulk) in
  Parser.normalize_columns Samples.raw_bulk = Ok d1 /\
  Parser.rename_bulk_columns d1 = Ok d2 /\
  has_col d2 "Entity" = false /\ has_col d2 "Campaign Name" = false.
Proof.
  intros d1 d2.
  assert (H1 : Parser.normalize_columns Samples.raw_bulk = Ok d1)
    by (vm_compute; reflexivity).
  assert (H2 : Parser.rename_bulk_columns d1 = Ok d2) by (vm_compute; reflexivity).
  exact (conj H1 (conj H2 (bulk_headers_leave_no_alias _ _ _ H1 H2))).
Defined.

Lemma process_bulk_file_shape_witness :
  Parser.process_bulk_file Samples.raw_bulk = Ok Samples.processed_bulk /\
  (columns Samples.processed_bulk = [LStr "Campaign Name"; LStr "Daily Budget"] \/
   columns Samples.processed_bulk
   = [LStr "Campaign Name"; LStr "Daily Budget"; LStr "Campaign ID"]) /\
  Forall (fun r => length r = length (columns Samples.processed_bulk))
         (rows Samples.processed_bulk) /\
  col_Forall (fun v => exists f, v = PFloat f) Samples.processed_bulk "Daily Budget".
Proof.
  assert (Hp : Parser.process_bulk_file Samples.raw_bulk = Ok Samples.processed_bulk)
    by (vm_compute; reflexivity).
  split; [exact Hp|]. exact (process_bulk_file_shape _ _ Hp).
Defined.

Section BulkBudgets.

Import PyStr PyFloat Schemas Parser Optimization.
Context `{PyBuiltins}.

Lemma clean_currency_number v :
  (forall s, v = PStr s ->
     float_of_str (strip (replace_char "," "" (replace_char "$" "" s))) <> Some NaN) ->
  exists f, clean_currency v = PFloat f /\ is_nan f = false.
Proof.
  intros Hv. unfold clean_currency. destruct (isna v) eqn:Hna; [by eexists|].
  destruct v as [|s|z|f]; cbn [float_of_num].
  - done.
  - destruct (float_of_str _) as [f|] eqn:Ef; [|by eexists].
    exists f. split; [done|]. destruct f as [q|b|]; try done.
    by destruct (Hv s eq_refl).
  - by eexists.
  - exists f. split; [done|]. by destruct f.
Qed.

Lemma row_get_origin cols r l : row_get cols r l = PNone \/ row_get cols r l ∈ r.
Proof.
  unfold row_get. destruct (index_of l cols) as [i|]; [|by left].
  destruct (nth_in_or_default i r PNone) as [Hin| ->]; [|by left].
  right. by apply list_elem_of_In.
Qed.

(** X9.  A bulk file that went through [process_bulk_file] has no missing
    budget left (a missing budget has become 0.0), so the budget guard of
    [analyze_budget_saturation] does what it is meant to do: every
    recommendation it makes from such a file is for a daily budget > 0.
    (The file holds no text that reads as NaN.) *)
Theorem processed_budgets_are_positive (raw bulk str_df : DataFrame)
    (items : list BudgetSaturationItem) :
  no_nan_text raw ->
  process_bulk_file raw = Ok bulk ->
  analyze_budget_saturation str_df bulk = Ok items ->
  Forall (fun it => fgt (bu_daily_budget it) (Fin 0) = true) items.
Proof.
  intros Hraw Hp Ha.
  apply process_bulk_file_rows in Hp as (cols & with_id & src & Hc & Hr & Hsrc).
  apply budget_saturation_items in Ha as [Hitems _].
  eapply Forall_impl; [exact Hitems|]. cbn beta.
  intros it (_ & _ & _ & _ & _ & Hpos & row & Hrow & _ & Hb).
  apply Hpos. rewrite Hb. rewrite Hr in Hrow.
  apply list_elem_of_fmap in Hrow as (r0 & -> & Hr0).
  destruct (budget_cell bulk cols with_id r0 Hc) as (-> & _).
  rewrite Forall_forall in Hsrc. specialize (Hsrc r0 Hr0).
  unfold no_nan_text in Hraw. rewrite Forall_forall in Hraw.
  specialize (Hraw r0 Hsrc). rewrite Forall_forall in Hraw.
  destruct (clean_currency_number (row_get cols r0 (LStr "Daily Budget")))
    as (f & -> & Hf); [|done].
  intros s Hs. destruct (row_get_origin cols r0 (LStr "Daily Budget")) as [E|Hin].
  - congruence.
  - by apply (Hraw _ Hin).
Qed.

End BulkBudgets.

Lemma processed_budgets_are_positive_witness :
  no_nan_text Samples.raw_bulk /\
  Parser.process_bulk_file Samples.raw_bulk = Ok Samples.processed_bulk /\
  exists items,
    Optimization.analyze_budget_saturation Samples.perf_campaigns Samples.processed_bulk
    = Ok items /\
    length items = 1%nat /\
    Forall (fun it => PyFloat.fgt (Schemas.bu_daily_budget it) (Fin 0) = true) items.
Proof.
  assert (Hraw : no_nan_text Samples.raw_bulk).
  { repeat constructor; intros s Hs; try discriminate;
      injection Hs as <-; vm_compute; discriminate. }
  assert (Hp : Parser.process_bulk_file Samples.raw_bulk = Ok Samples.processed_bulk)
    by (vm_compute; reflexivity).
  split; [exact Hraw|]. split; [exact Hp|].
  eexists. split; [vm_compute; reflexivity|]. split; [reflexivity|].
  eapply (processed_budgets_are_positive Samples.raw_bulk Samples.processed_bulk
            Samples.perf_campaigns); [exact Hraw|exact Hp|vm_compute; reflexivity].
Defined.

(** ** Identity resolver, continued *)

Section Identifiers.

Import PyStr Parser.
Context `{PyBuiltins}.

Lemma rstrip_by_cons_nonempty p x s c r :
  rstrip_by p s = String c r -> rstrip_by p (String x s) = String x (String c r).
Proof. intros E. cbn. by rewrite E. Qed.

Lemma rstrip_by_app_stable p (a b : string) c :
  p c = false -> rstrip_by p (a ++ String c b) = (a ++ rstrip_by p (String c b))%string.
Proof.
  intros Hc. destruct (rstrip_by_head p c b Hc) as [r Hr].
  induction a as [|x a IH]; [done|].
  rewrite !append_cons.
  assert (exists c' r', rstrip_by p (a ++ String c b) = String c' r') as (c' & r' & E).
  { rewrite IH, Hr. destruct a; [by eexists _, _|]. rewrite append_cons. by eexists _, _. }
  rewrite (rstrip_by_cons_nonempty _ _ _ _ _ E). by rewrite <- E, IH.
Qed.

Lemma lstrip_by_app_stop p (a b : string) c :
  p c = false -> lstrip_by p (a ++ String c b) = (lstrip_by p a ++ String c b)%string.
Proof.
  intros Hc. induction a as [|x a IH].
  - change (lstrip_by p (String c b) = String c b). by apply lstrip_by_stable.
  - rewrite append_cons. cbn [lstrip_by]. by destruct (p x).
Qed.

Lemma endswith_app (a b : string) : endswith b (a ++ b) = true.
Proof.
  induction a as [|x a IH].
  - change (endswith b b = true). destruct b; cbn [endswith]; by rewrite String.eqb_refl.
  - rewrite append_cons. cbn [endswith]. rewrite IH. apply orb_true_r.
Qed.

Lemma substring_prefix (a b : string) :
  String.substring 0 (String.length a) (a ++ b) = a.
Proof.
  induction a as [|x a IH].
  - change (String.substring 0 0 b = EmptyString). by destruct b.
  - rewrite append_cons. cbn [String.length String.substring]. by rewrite IH.
Qed.

Lemma length_append (a b : string) :
  String.length (a ++ b) = (String.length a + String.length b)%nat.
Proof.
  induction a as [|x a IH]; [done|].
  rewrite append_cons. cbn [String.length]. by rewrite IH.
Qed.

(** X10.  [clean_id] reads an identifier that a spreadsheet turned into a
    float back as the integer: of a text that ends in ".0" it returns what
    precedes the ".0", without the leading blanks; and it returns [None]
    exactly for a missing value. *)
Theorem clean_id_drops_float_suffix :
  (forall t : string, clean_id (PStr (t ++ ".0")) = Some (lstrip_by is_space t)) /\
  (forall v, clean_id v = None <-> isna v = true).
Proof.
  split.
  - intros t. unfold clean_id. cbn [isna py_str].
    assert (Hs : strip (t ++ ".0") = (lstrip_by is_space t ++ ".0")%string).
    { unfold strip, strip_by. rewrite lstrip_by_app_stop by done.
      by rewrite rstrip_by_app_stable. }
    rewrite Hs, endswith_app. f_equal. unfold drop_last.
    rewrite length_append. cbn [String.length].
    replace (String.length (lstrip_by is_space t) + 2 - 2)%nat
      with (String.length (lstrip_by is_space t)) by lia.
    apply substring_prefix.
  - intros v. unfold clean_id. destruct (isna v); [done|].
    split; [|done]. by destruct (endswith _ _).
Qed.

End Identifiers.

Section Enrichment.

Import PyStr Parser.
Context `{PyBuiltins}.

Lemma same_names_refl it : same_names it it.
Proof. done. Qed.

Lemma same_names_trans a b c : same_names a b -> same_names b c -> same_names a c.
Proof. intros (?&?&?&?) (?&?&?&?). repeat split; congruence. Qed.

Lemma set_if_truthy_names it name x it' :
  name <> "campaign_name" -> name <> "ad_group_name" ->
  set_if_truthy it name x = Ok it' -> same_names it it'.
Proof.
  intros H1 H2. unfold set_if_truthy, item_set.
  destruct x as [v|]; [|by intros [= <-]].
  destruct (String.eqb v ""); [by intros [= <-]|].
  destruct (_ || _); [|done]. intros [= <-]. repeat split; cbn.
  - by rewrite lookup_insert_ne.
  - by rewrite lookup_insert_ne.
Qed.

(** Writing the same entry again changes nothing, and is refused again if
    it was refused. *)
Lemma set_if_truthy_again it name x it1 it' :
  set_if_truthy it name x = Ok it1 ->
  is_dict it' = is_dict it -> declared it' = declared it ->
  attrs it' !! name = attrs it1 !! name ->
  set_if_truthy it' name x = Ok it'.
Proof.
  unfold set_if_truthy, item_set. destruct x as [v|]; [|done].
  destruct (String.eqb v ""); [done|].
  intros Hs Hd Hdecl Ha. rewrite Hd, Hdecl.
  destruct (_ || _); [|done]. injection Hs as <-. cbn in Ha.
  rewrite lookup_insert_eq in Ha. rewrite (insert_id _ _ _ Ha), <- Hd, <- Hdecl.
  by destruct it'.
Qed.

Lemma set_if_truthy_refused it name x e it' :
  set_if_truthy it name x = Raise e ->
  is_dict it' = is_dict it -> declared it' = declared it ->
  set_if_truthy it' name x = Raise e.
Proof.
  unfold set_if_truthy, item_set. destruct x as [v|]; [|done].
  destruct (String.eqb v ""); [done|].
  intros Hs Hd Hdecl. rewrite Hd, Hdecl. by destruct (_ || _).
Qed.

Lemma set_if_truthy_other it name x it' other :
  other <> name -> set_if_truthy it name x = Ok it' ->
  attrs it' !! other = attrs it !! other.
Proof.
  intros Hne. unfold set_if_truthy, item_set.
  destruct x as [v|]; [|by intros [= <-]].
  destruct (String.eqb v ""); [by intros [= <-]|].
  destruct (_ || _); [|done]. intros [= <-]. cbn. by rewrite lookup_insert_ne.
Qed.

Lemma set_if_truthy_shape it name x it' :
  set_if_truthy it name x = Ok it' ->
  is_dict it' = is_dict it /\ declared it' = declared it.
Proof.
  unfold set_if_truthy, item_set.
  destruct x as [v|]; [|by intros [= <-]].
  destruct (String.eqb v ""); [by intros [= <-]|].
  destruct (_ || _); [|done]. by intros [= <-].
Qed.

Lemma set_if_truthy_dict it name x :
  is_dict it = true ->
  exists it', set_if_truthy it name x = Ok it' /\ is_dict it' = true.
Proof.
  intros Hd. unfold set_if_truthy, item_set. rewrite Hd. cbn [orb].
  destruct x as [v|]; [|by exists it].
  destruct (String.eqb v ""); [by exists it|]. by eexists.
Qed.

Lemma inject_item_names lk it : same_names it (fst (inject_item lk it)).
Proof.
  unfold inject_item.
  destruct (set_if_truthy it "campaign_id" _) as [it1|e] eqn:E1;
    [|apply same_names_refl].
  apply set_if_truthy_names in E1; [|done|done].
  destruct (set_if_truthy it1 "portfolio_id" _) as [it2|e] eqn:E2; [|exact E1].
  apply set_if_truthy_names in E2; [|done|done].
  destruct (set_if_truthy it2 "ad_group_id" _) as [it3|e] eqn:E3;
    cbn [fst]; [|by eapply same_names_trans].
  apply set_if_truthy_names in E3; [|done|done].
  eauto using same_names_trans.
Qed.

Lemma same_names_key it it' :
  same_names it it' ->
  item_str it' "campaign_name" = item_str it "campaign_name" /\
  item_str it' "ad_group_name" = item_str it "ad_group_name".
Proof. intros (_ & _ & H1 & H2). unfold item_str. by rewrite H1, H2. Qed.

Lemma inject_item_again lk it it' r :
  inject_item lk it = (it', r) -> inject_item lk it' = (it', r).
Proof.
  intros Hi. pose proof (inject_item_names lk it) as Hn.
  rewrite Hi in Hn. cbn [fst] in Hn.
  destruct (same_names_key _ _ Hn) as [Hc Ha].
  unfold inject_item in Hi |- *. rewrite Hc, Ha.
  set (c_name := strip (lower (item_str it "campaign_name"))) in *.
  set (a_name := strip (lower (item_str it "ad_group_name"))) in *.
  destruct (set_if_truthy it "campaign_id" _) as [it1|e] eqn:E1.
  2:{ injection Hi as <- <-. by rewrite E1. }
  destruct (set_if_truthy_shape _ _ _ _ E1) as [Hd1 Hdecl1].
  destruct (set_if_truthy it1 "portfolio_id" _) as [it2|e] eqn:E2.
  2:{ injection Hi as <- <-.
      rewrite (set_if_truthy_again _ _ _ _ it1 E1) by done.
      by rewrite E2. }
  destruct (set_if_truthy_shape _ _ _ _ E2) as [Hd2 Hdecl2].
  pose proof (set_if_truthy_other _ "portfolio_id" _ _ "campaign_id" ltac:(done) E2) as H12.
  destruct (set_if_truthy it2 "ad_group_id" _) as [it3|e] eqn:E3.
  2:{ injection Hi as <- <-.
      rewrite (set_if_truthy_again _ _ _ _ it2 E1) by congruence.
      rewrite (set_if_truthy_again _ _ _ _ it2 E2) by done.
      by rewrite E3. }
  destruct (set_if_truthy_shape _ _ _ _ E3) as [Hd3 Hdecl3].
  pose proof (set_if_truthy_other _ "ad_group_id" _ _ "campaign_id" ltac:(done) E3) as H13.
  pose proof (set_if_truthy_other _ "ad_group_id" _ _ "portfolio_id" ltac:(done) E3) as H23.
  injection Hi as <- <-.
  rewrite (set_if_truthy_again _ _ _ _ it3 E1) by congruence.
  rewrite (set_if_truthy_again _ _ _ _ it3 E2) by congruence.
  by rewrite (set_if_truthy_again _ _ _ _ it3 E3).
Qed.

Lemma inject_items_again lk items count items' r :
  inject_items lk items count = (items', r) ->
  inject_items lk items' count = (items', r).
Proof.
  revert count items' r. induction items as [|it items IH]; intros count items' r; cbn.
  - by intros [= <- <-].
  - destruct (inject_item lk it) as [it' [hit|e]] eqn:Ei.
    + destruct (inject_items lk items (if hit then S count else count))
        as [rest' r'] eqn:Er.
      intros [= <- <-]. cbn. rewrite (inject_item_again _ _ _ _ Ei).
      by rewrite (IH _ _ _ Er).
    + intros [= <- <-]. cbn. by rewrite (inject_item_again _ _ _ _ Ei).
Qed.

Lemma inject_items_spec lk items count :
  Forall2 same_names items (fst (inject_items lk items count)) /\
  forall n, snd (inject_items lk items count) = Ok n ->
    n = (count + length (filter (fun it => bool_decide (is_Some (agid_map lk !! item_key it)))
                                items))%nat.
Proof.
  revert count. induction items as [|it items IH]; intros count; cbn [inject_items].
  - split; [constructor|]. cbn. intros n [= <-]. lia.
  - pose proof (inject_item_names lk it) as Hn.
    destruct (inject_item lk it) as [it' [hit|e]] eqn:Ei; cbn [fst] in Hn.
    + destruct (IH (if hit then S count else count)) as [IH1 IH2].
      destruct (inject_items lk items (if hit then S count else count)) as [rest' r'].
      cbn [fst snd] in *. split; [by constructor|].
      intros n Hr. rewrite (IH2 n Hr). rewrite filter_cons.
      assert (Hhit : hit = bool_decide (is_Some (agid_map lk !! item_key it))).
      { unfold inject_item in Ei.
        destruct (set_if_truthy it "campaign_id" _) as [it1|]; [|congruence].
        destruct (set_if_truthy it1 "portfolio_id" _) as [it2|]; [|congruence].
        destruct (set_if_truthy it2 "ad_group_id" _) as [it3|]; [|congruence].
        unfold item_key. congruence. }
      rewrite <- Hhit. destruct hit.
      * rewrite decide_True by exact I. cbn [length]. lia.
      * rewrite decide_False by (intros []). lia.
    + cbn [fst snd]. split; [|done]. constructor; [done|].
      apply Forall2_same_length_lookup_2; [done|]. intros i a b Ha Hb.
      assert (a = b) as -> by congruence. apply same_names_refl.
Qed.

(** X11.  [enrich_with_ids] returns the records it was given, in order,
    each with its campaign and ad-group name, its kind (dict or object) and
    its declared attributes unchanged; the count it returns is at most the
    number of records. *)
Theorem enrich_with_ids_keeps_records (items : list Item) (bulk_df : DataFrame) :
  Forall2 same_names items (snd (enrich_with_ids items bulk_df)) /\
  (fst (enrich_with_ids items bulk_df) <= length items)%nat.
Proof.
  assert (Hrefl : Forall2 same_names items items).
  { apply Forall2_same_length_lookup_2; [done|]. intros i a b Ha Hb.
    assert (a = b) as -> by congruence. apply same_names_refl. }
  unfold enrich_with_ids.
  destruct (_ || _); [split; [done|cbn; lia]|].
  destruct (build_lookups bulk_df) as [lk|e]; [|split; [done|cbn; lia]].
  destruct (inject_items_spec lk items 0) as [Hsame Hcount].
  destruct (inject_items lk items 0) as [items' [count|e]]; cbn [fst snd] in *;
    [|split; [done|lia]].
  split; [done|]. rewrite (Hcount count eq_refl). cbn [Nat.add].
  apply length_filter.
Qed.

(** X12.  Enriching the enriched records once more, from the same bulk
    file, changes nothing and returns the same count: the identifiers
    depend on the names of a record only, and enrichment does not touch the
    names. *)
Theorem enrich_with_ids_idempotent (items : list Item) (bulk_df : DataFrame) :
  enrich_with_ids (snd (enrich_with_ids items bulk_df)) bulk_df
  = enrich_with_ids items bulk_df.
Proof.
  unfold enrich_with_ids at 2 3.
  destruct (df_empty bulk_df) eqn:Hempty; cbn [orb].
  { unfold enrich_with_ids. by rewrite Hempty. }
  destruct (bool_decide (items = [])) eqn:Hnil.
  { cbn [snd]. unfold enrich_with_ids. by rewrite Hempty, Hnil. }
  destruct (build_lookups bulk_df) as [lk|e] eqn:Hlk.
  2:{ cbn [snd]. unfold enrich_with_ids. by rewrite Hempty, Hnil, Hlk. }
  destruct (inject_items_spec lk items 0) as [Hsame _].
  destruct (inject_items lk items 0) as [items' r] eqn:Hi. cbn [fst] in Hsame.
  assert (Hnil' : bool_decide (items' = []) = false).
  { apply bool_decide_eq_false. intros ->. apply Forall2_length in Hsame.
    apply bool_decide_eq_false in Hnil. by destruct items. }
  apply inject_items_again in Hi.
  destruct r as [count|e]; cbn [snd]; unfold enrich_with_ids;
    by rewrite Hempty, Hnil', Hlk, Hi.
Qed.

(** X13.  For dict records, and a bulk file from which the lookup tables
    can be built, the count [enrich_with_ids] returns is the number of
    records whose (campaign name, ad-group name) pair, lower-cased and
    trimmed, is a key of the ad-group table: a record counts on a hit,
    whether or not an identifier is written into it. *)
Theorem enrich_with_ids_counts_hits (items : list Item) (bulk_df : DataFrame)
    (lk : Lookups) :
  df_empty bulk_df = false ->
  build_lookups bulk_df = Ok lk ->
  Forall (fun it => is_dict it = true) items ->
  fst (enrich_with_ids items bulk_df)
  = length (filter (fun it => bool_decide (is_Some (agid_map lk !! item_key it))) items).
Proof.
  intros Hempty Hlk Hdict. unfold enrich_with_ids. rewrite Hempty, Hlk. cbn [orb].
  destruct (bool_decide (items = [])) eqn:Hnil.
  { apply bool_decide_eq_true in Hnil. by subst. }
  destruct (inject_items_spec lk items 0) as [_ Hcount].
  assert (Hok : exists n, snd (inject_items lk items 0) = Ok n).
  { clear Hnil Hcount. generalize 0%nat.
    induction Hdict as [|it items Hit _ IH]; intros count; cbn [inject_items].
    - by eexists.
    - assert (Hi : exists it' hit, inject_item lk it = (it', Ok hit)).
      { unfold inject_item.
        destruct (set_if_truthy_dict it "campaign_id"
                    (default None (cid_map lk !! (item_key it).1)) Hit) as (it1 & E1 & Hd1).
        unfold item_key in E1. cbn [fst] in E1. rewrite E1.
        destruct (set_if_truthy_dict it1 "portfolio_id"
                    (default None (pid_map lk !! (item_key it).1)) Hd1) as (it2 & E2 & Hd2).
        unfold item_key in E2. cbn [fst] in E2. rewrite E2.
        destruct (set_if_truthy_dict it2 "ad_group_id"
                    (default None (agid_map lk !! item_key it)) Hd2) as (it3 & E3 & _).
        unfold item_key in E3. rewrite E3. by eexists _, _. }
      destruct Hi as (it' & hit & ->).
      destruct (IH (if hit then S count else count)) as [n Hn].
      destruct (inject_items lk items _) as [rest' r']. cbn [snd] in *. eauto. }
  destruct Hok as [n Hn]. specialize (Hcount n Hn).
  destruct (inject_items lk items 0) as [items' r]. cbn [snd] in Hn. subst r.
  cbn [fst]. by rewrite Hcount.
Qed.

End Enrichment.

Lemma enrich_with_ids_counts_hits_witness :
  exists lk,
    df_empty Samples.bulk_conflict = false /\
    Parser.build_lookups Samples.bulk_conflict = Ok lk /\
    Forall (fun it => Parser.is_dict it = true) [Samples.record_dict] /\
    fst (Parser.enrich_with_ids [Samples.record_dict] Samples.bulk_conflict)
    = length (filter (fun it => bool_decide
                                  (is_Some (Parser.agid_map lk !! item_key it)))
                     [Samples.record_dict]).
Proof.
  destruct (Parser.build_lookups Samples.bulk_conflict) as [lk|e] eqn:Hlk;
    [|vm_compute in Hlk; discriminate].
  exists lk.
  assert (Hd : Forall (fun it => Parser.is_dict it = true) [Samples.record_dict])
    by (repeat constructor).
  split; [reflexivity|]. split; [reflexivity|]. split; [exact Hd|].
  exact (enrich_with_ids_counts_hits [Samples.record_dict] Samples.bulk_conflict lk
           eq_refl Hlk Hd).
Defined.

(** ** Rule engine, continued *)

Section ScaleOpportunities.

Import PyStr PyFloat Schemas Optimization.

Variable df : DataFrame.
Variable target_acos : Q.
Variable min_orders : Z.

Hypothesis has_acos : has_col df "ACOS" = true.
Hypothesis has_orders : has_col df "Orders" = true.
Hypothesis names_text :
  identifiers_are_text df ["Customer Search Term"; "Campaign Name"] (PStr "Unknown").
Hypothesis targets_text :
  identifiers_are_text df ["Targeting"; "Match Type"] PNone.
Hypothesis acos_finite : col_Forall finite_or_missing df "ACOS".
Hypothesis orders_integer : col_Forall is_integer df "Orders".
Hypothesis rates_numeric :
  Forall (fun r => ~ is_text (cell_or df r "Conversion Rate" (PInt 0)) /\
                   ~ is_text (cell_or df r "CPC" (PInt 0))) (rows df).

Lemma scale_mask_iff row :
  row ∈ rows df ->
  scale_mask df row target_acos min_orders = true <->
  exists acos orders, scales df target_acos min_orders row acos orders.
Proof.
  intros Hrow. unfold scale_mask, scales. cbn zeta.
  unfold col_Forall in *. rewrite Forall_forall in acos_finite, orders_integer.
  destruct (orders_integer row Hrow) as [z Hz]. rewrite Hz. cbn [as_float fmul].
  rewrite andb_true_iff. unfold fge, of_Z. cbn [fle]. rewrite Qle_bool_iff, <- Zle_Qle.
  split.
  - intros [Ha Ho]. destruct (acos_finite row Hrow) as [[q Hq]|Hna].
    + rewrite Hq in Ha. cbn in Ha. apply Qle_bool_iff in Ha.
      exists q, z. done.
    + destruct (cell df row "ACOS") as [|s|x|[x|b|]]; cbn in Hna, Ha; done.
  - intros (acos & orders & Ha & [= <-] & Hle & Ho). rewrite Ha. cbn.
    by rewrite Qle_bool_iff.
Qed.

Lemma float_field_not_text v : ~ is_text v -> float_field v = Ok (as_float v).
Proof. destruct v as [|s|z|f]; cbn; try done. intros Hv. destruct Hv. by eexists. Qed.

Lemma scale_item_ok row idx acos orders :
  row ∈ rows df ->
  scales df target_acos min_orders row acos orders ->
  exists it, scale_item df row idx = Ok it /\
    so_id it = idx /\ so_acos it = Fin acos /\ so_orders it = orders /\
    so_current_bid it = Some (as_float (cell_or df row "CPC" (PInt 0))) /\
    so_suggested_bid it
    = Some (fmul (as_float (cell_or df row "CPC" (PInt 0))) (Fin (12 # 10))) /\
    so_action_type it = "Bid Increase".
Proof.
  intros Hrow (Ha & Ho & _ & _).
  unfold identifiers_are_text in *.
  rewrite Forall_forall in names_text, targets_text, rates_numeric.
  destruct (names_text row Hrow "Customer Search Term" ltac:(left)) as [s1 E1].
  destruct (names_text row Hrow "Campaign Name" ltac:(right; left)) as [s2 E2].
  destruct (targets_text row Hrow "Targeting" ltac:(left)) as [s3 E3].
  destruct (targets_text row Hrow "Match Type" ltac:(right; left)) as [s4 E4].
  destruct (rates_numeric row Hrow) as [Hcr Hcpc].
  unfold scale_item. rewrite E1, E2, E3, E4.
  rewrite !(cell_or_present df row "Orders") by done.
  rewrite !(cell_or_present df row "ACOS") by done.
  rewrite Ho. cbn [py_int str_field bind].
  rewrite (float_field_not_text (cell df row "ACOS")).
  2:{ intros [s Hs]. rewrite Hs in Ha. done. }
  rewrite (float_field_not_text _ Hcr), (float_field_not_text _ Hcpc). cbn [bind].
  eexists. split; [reflexivity|]. cbn. by rewrite Ha.
Qed.

Lemma StronglySorted_weaken {A} (R S : A -> A -> Prop) l :
  (forall x y, R x y -> S x y) -> StronglySorted R l -> StronglySorted S l.
Proof.
  intros HRS. induction 1 as [|x l _ IH Hx]; constructor; [done|].
  eapply Forall_impl; [exact Hx|]. auto.
Qed.

Lemma sorted_by_orders_sorted results :
  StronglySorted (fun u v => (so_orders v <= so_orders u)%Z) (sorted_by_orders results).
Proof.
  apply (StronglySorted_weaken (fun u v => (so_orders v <=? so_orders u)%Z = true)).
  { intros x y. apply Z.leb_le. }
  apply (sort_by_sorted _ (fun _ => True)).
  - intros x y _ _ Hxy. apply Z.leb_gt in Hxy. apply Z.leb_le. lia.
  - intros x y z _ _ _ Hxy Hyz. apply Z.leb_le in Hxy, Hyz. apply Z.leb_le. lia.
  - by apply Forall_forall.
Qed.

(** X14.  On a processed report (ACOS finite or missing, integer orders,
    textual identifiers, numeric rates) that has the ACOS and Orders
    columns, [analyze_scale_opportunities] returns a list in which a row
    appears if and only if its ACOS <= 0.8 x target_acos and its
    orders >= min_orders; its record carries the ACOS and the orders of
    the row, the CPC of the row as current bid, 1.2 x that CPC as suggested
    bid and the action "Bid Increase"; the list is in descending order of
    orders. *)
Theorem analyze_scale_opportunities_rule :
  exists items,
    analyze_scale_opportunities df target_acos min_orders = Ok items /\
    (forall it, it ∈ items ->
       exists row acos orders,
         rows df !! so_id it = Some row /\
         scales df target_acos min_orders row acos orders /\
         so_acos it = Fin acos /\ so_orders it = orders /\
         so_current_bid it = Some (as_float (cell_or df row "CPC" (PInt 0))) /\
         so_suggested_bid it
         = Some (fmul (as_float (cell_or df row "CPC" (PInt 0))) (Fin (12 # 10))) /\
         so_action_type it = "Bid Increase") /\
    (forall i row acos orders,
       rows df !! i = Some row -> scales df target_acos min_orders row acos orders ->
       exists it, it ∈ items /\ so_id it = i) /\
    StronglySorted (fun u v => (so_orders v <= so_orders u)%Z) items.
Proof.
  unfold analyze_scale_opportunities. rewrite has_acos, has_orders.
  cbn [negb orb]. rewrite orb_false_r.
  destruct (df_empty df) eqn:Hempty.
  { assert (Hrows : rows df = []).
    { unfold df_empty in Hempty. unfold has_col in has_acos.
      destruct (columns df); [done|]. by destruct (rows df). }
    exists []. split; [done|]. split; [|split].
    - intros it Hit. by apply elem_of_nil in Hit.
    - intros i row acos orders Hi. by rewrite Hrows in Hi.
    - constructor. }
  set (scale_df := filter _ (iterrows df)).
  assert (Hin : forall i r, (i, r) ∈ scale_df <->
                  rows df !! i = Some r /\
                  exists acos orders, scales df target_acos min_orders r acos orders).
  { intros i r. unfold scale_df. rewrite list_elem_of_filter, elem_of_iterrows.
    cbn [snd]. split.
    - intros [Hm Hr]. split; [done|]. apply Is_true_true in Hm.
      apply scale_mask_iff; [|done]. by eapply list_elem_of_lookup_2.
    - intros [Hr Hs]. split; [|done]. apply Is_true_true.
      apply scale_mask_iff; [|done]. by eapply list_elem_of_lookup_2. }
  destruct (mapM_total (fun ir => scale_item df ir.2 ir.1) scale_df) as [results Hres].
  { apply Forall_forall. intros [i r] Hir. apply Hin in Hir as [Hr (acos & orders & Hs)].
    destruct (scale_item_ok r i acos orders) as (it & Hit & _); [|done|by exists it].
    by eapply list_elem_of_lookup_2. }
  rewrite Hres. cbn [bind]. eexists. split; [reflexivity|].
  apply mapM_Ok in Hres.
  assert (Hperm : Permutation results (sorted_by_orders results)) by apply sort_by_perm.
  split; [|split].
  - intros it Hit. rewrite <- Hperm in Hit.
    apply list_elem_of_lookup in Hit as [j Hj].
    destruct (Forall2_lookup_r _ _ _ _ _ Hres Hj) as ([i r] & Hir & Hmk).
    apply list_elem_of_lookup_2, Hin in Hir as [Hr (acos & orders & Hs)].
    destruct (scale_item_ok r i acos orders) as (it' & Hit' & Hid & Hrest); [|done|].
    { by eapply list_elem_of_lookup_2. }
    cbn in Hmk. rewrite Hmk in Hit'. injection Hit' as <-.
    exists r, acos, orders. rewrite Hid. done.
  - intros i row acos orders Hi Hs.
    assert (Hir : (i, row) ∈ scale_df) by (apply Hin; eauto).
    apply list_elem_of_lookup in Hir as [j Hj].
    destruct (Forall2_lookup_l _ _ _ _ _ Hres Hj) as (it & Hit & Hmk).
    exists it. split.
    + rewrite <- Hperm. by eapply list_elem_of_lookup_2.
    + destruct (scale_item_ok row i acos orders) as (it' & Hit' & Hid & _); [|done|].
      { by eapply list_elem_of_lookup_2. }
      cbn in Hmk. congruence.
  - apply sorted_by_orders_sorted.
Qed.

End ScaleOpportunities.

Lemma analyze_scale_opportunities_rule_witness :
  has_col Samples.perf_high_acos "ACOS" = true /\
  has_col Samples.perf_high_acos "Orders" = true /\
  identifiers_are_text Samples.perf_high_acos
    ["Customer Search Term"; "Campaign Name"] (PStr "Unknown") /\
  identifiers_are_text Samples.perf_high_acos ["Targeting"; "Match Type"] PNone /\
  col_Forall finite_or_missing Samples.perf_high_acos "ACOS" /\
  col_Forall is_integer Samples.perf_high_acos "Orders" /\
  Forall (fun r =>
            ~ is_text (Optimization.cell_or Samples.perf_high_acos r
                         "Conversion Rate" (PInt 0)) /\
            ~ is_text (Optimization.cell_or Samples.perf_high_acos r "CPC" (PInt 0)))
         (rows Samples.perf_high_acos) /\
  exists items it,
    Optimization.analyze_scale_opportunities Samples.perf_high_acos 30 3 = Ok items /\
    it ∈ items /\ Schemas.so_id it = 1%nat /\
    Schemas.so_orders it = 4%Z /\
    Schemas.so_suggested_bid it
    = Some (PyFloat.fmul (Fin (4 # 10)) (Fin (12 # 10))).
Proof.
  assert (H1 : has_col Samples.perf_high_acos "ACOS" = true) by reflexivity.
  assert (H2 : has_col Samples.perf_high_acos "Orders" = true) by reflexivity.
  assert (H3 : identifiers_are_text Samples.perf_high_acos
                 ["Customer Search Term"; "Campaign Name"] (PStr "Unknown")).
  { repeat constructor; intros name Hname;
      repeat (apply elem_of_cons in Hname as [->|Hname]; [eexists; reflexivity|]);
      by apply elem_of_nil in Hname. }
  assert (H4 : identifiers_are_text Samples.perf_high_acos
                 ["Targeting"; "Match Type"] PNone).
  { repeat constructor; intros name Hname;
      repeat (apply elem_of_cons in Hname as [->|Hname]; [eexists; reflexivity|]);
      by apply elem_of_nil in Hname. }
  assert (H5 : col_Forall finite_or_missing Samples.perf_high_acos "ACOS").
  { apply Forall_forall. intros r Hr.
    repeat (apply elem_of_cons in Hr as [->|Hr]; [left; eexists; reflexivity|]).
    by apply elem_of_nil in Hr. }
  assert (H6 : col_Forall is_integer Samples.perf_high_acos "Orders").
  { apply Forall_forall. intros r Hr.
    repeat (apply elem_of_cons in Hr as [->|Hr]; [eexists; reflexivity|]).
    by apply elem_of_nil in Hr. }
  assert (H7 : Forall (fun r =>
            ~ is_text (Optimization.cell_or Samples.perf_high_acos r
                         "Conversion Rate" (PInt 0)) /\
            ~ is_text (Optimization.cell_or Samples.perf_high_acos r "CPC" (PInt 0)))
         (rows Samples.perf_high_acos)).
  { repeat constructor; intros [s Hs]; discriminate Hs. }
  repeat (split; [assumption|]).
  destruct (analyze_scale_opportunities_rule Samples.perf_high_acos 30 3
              H1 H2 H3 H4 H5 H6 H7) as (items & Hok & Hsound & Hcomplete & _).
  destruct (Hcomplete 1%nat _ (10 # 1) 4%Z eq_refl) as (it & Hit & Hid).
  { repeat split; try reflexivity; [vm_compute; discriminate|lia]. }
  destruct (Hsound it Hit) as (row & acos & orders & Hrow & (_ & Ho & _) & _ & Hord & _ & Hsug & _).
  rewrite Hid in Hrow. injection Hrow as <-.
  exists items, it. vm_compute in Ho. injection Ho as <-.
  repeat split; assumption.
Defined.

Section HighACOSOrder.

Import PyStr PyFloat Schemas Optimization.

(** X15.  Whatever [analyze_high_acos] returns is a list of records with
    an ACOS above the target and a positive spend, in descending order of
    spend: the most expensive search term comes first. *)
Theorem analyze_high_acos_sorted (df : DataFrame) (target_acos : Q)
    (items : list HighACOSItem) :
  analyze_high_acos df target_acos = Ok items ->
  Forall (fun it => fgt (ha_acos it) (Fin target_acos) = true /\
                    fgt (ha_spend it) (Fin 0) = true) items /\
  StronglySorted (fun u v => fle (ha_spend v) (ha_spend u) = true) items.
Proof.
  unfold analyze_high_acos.
  destruct (df_empty df); [intros [= <-]; split; constructor|].
  destruct (has_col df "ACOS") eqn:Ha; [|intros [= <-]; split; constructor].
  destruct (has_col df "Spend") eqn:Hs; [|intros [= <-]; split; constructor].
  cbn [negb orb].
  destruct (mapM _ _) as [results|e] eqn:Hres; cbn [bind]; [|done].
  intros [= <-]. apply mapM_Ok in Hres.
  assert (Hitems : Forall (fun it => fgt (ha_acos it) (Fin target_acos) = true /\
                                     fgt (ha_spend it) (Fin 0) = true) results).
  { apply Forall_forall. intros it Hit. apply list_elem_of_lookup in Hit as [j Hj].
    destruct (Forall2_lookup_r _ _ _ _ _ Hres Hj) as ([i r] & Hir & Hmk).
    apply list_elem_of_lookup_2, list_elem_of_filter in Hir as [Hm _].
    apply Is_true_true in Hm. cbn [snd fst] in *.
    unfold high_acos_mask in Hm. apply andb_true_iff in Hm as [Hacos Hspend].
    unfold high_acos_item in Hmk.
    repeat match type of Hmk with
           | bind ?x _ = Ok _ => destruct x as [?|?] eqn:?; cbn [bind] in Hmk; [|done]
           end.
    injection Hmk as <-. cbn [ha_acos ha_spend].
    rewrite (cell_or_present df r "ACOS") in * by done.
    rewrite (cell_or_present df r "Spend") in * by done.
    rewrite (float_field_number _ _ Hacos) in *.
    rewrite (float_field_number _ _ Hspend) in *.
    split; congruence. }
  split.
  - apply Forall_forall. intros it Hit.
    rewrite <- (sorted_desc_perm ha_spend results) in Hit.
    rewrite Forall_forall in Hitems. by apply Hitems.
  - apply sorted_desc_sorted. eapply Forall_impl; [exact Hitems|].
    intros it [_ Hsp]. unfold fgt in Hsp. by destruct (ha_spend it).
Qed.

(** X16.  The diagnosis of a high-ACOS row never names a metric that is
    missing: a missing conversion rate is not "Low CVR", a missing CPC not
    "High CPC", a missing CTR not "Low CTR"; when all three are missing
    the row is put down to "General Efficiency" with the action
    "Optimization". *)
Theorem diagnose_skips_missing_metrics (avgctr avgcpc avgcvr ctr cpc cvr : pyfloat) :
  let d := diagnose avgctr avgcpc avgcvr ctr cpc cvr in
  (is_nan cvr = true -> root_cause d <> "Low CVR") /\
  (is_nan cpc = true -> root_cause d <> "High CPC") /\
  (is_nan ctr = true -> root_cause d <> "Low CTR") /\
  (is_nan cvr = true -> is_nan cpc = true -> is_nan ctr = true ->
   root_cause d = "General Efficiency" /\ action d = "Optimization").
Proof.
  cbn zeta. unfold diagnose, fgt.
  repeat split.
  - intros Hn. destruct cvr; try done. cbn [flt].
    repeat match goal with |- context [if ?b then _ else _] => destruct b end; done.
  - intros Hn. destruct cpc; try done.
    assert (Hf : forall x, flt x NaN = false) by (by intros [| |]).
    rewrite Hf.
    repeat match goal with |- context [if ?b then _ else _] => destruct b end; done.
  - intros Hn. destruct ctr; try done. cbn [flt].
    repeat match goal with |- context [if ?b then _ else _] => destruct b end; done.
  - destruct cvr, cpc, ctr; try done.
    assert (Hf : forall x, flt x NaN = false) by (by intros [| |]).
    by rewrite Hf.
  - destruct cvr, cpc, ctr; try done.
    assert (Hf : forall x, flt x NaN = false) by (by intros [| |]).
    by rewrite Hf.
Qed.

End HighACOSOrder.

Lemma analyze_high_acos_sorted_witness :
  exists items,
    Optimization.analyze_high_acos Samples.perf_high_acos 5 = Ok items /\
    length items = 2%nat /\
    Forall (fun it => PyFloat.fgt (Schemas.ha_acos it) (Fin 5) = true /\
                      PyFloat.fgt (Schemas.ha_spend it) (Fin 0) = true) items /\
    StronglySorted
      (fun u v => PyFloat.fle (Schemas.ha_spend v) (Schemas.ha_spend u) = true) items.
Proof.
  eexists. split; [vm_compute; reflexivity|]. split; [reflexivity|].
  apply (analyze_high_acos_sorted Samples.perf_high_acos 5).
  vm_compute; reflexivity.
Defined.

